(** * Devcon schedule: the session data engine of [ScheduleApp.jsx]

    A shallow embedding of the data-handling code of
    [src/components/ScheduleApp.jsx]: the search index
    ([createSearchIndex]), the filter pipeline ([filterSessions]), the
    refresh and its change detection ([fetchData]), the bookmark toggle
    ([toggleBookmark]) and the grouping by day ([groupedSessions]).

    Sessions are the JavaScript values that [JSON.parse] produces, so the
    embedding keeps them dynamically typed: an object is an association
    list in insertion order, a property read may give [undefined], and a
    read or a method call on the wrong kind of value throws. *)

From Stdlib Require Import ZArith List String Ascii Bool Lia.
From Stdlib Require Import DecimalString DecimalZ.
From Stdlib Require Import Sorting.Sorted Sorting.Permutation.
Import ListNotations.
Local Open Scope list_scope.
Local Open Scope string_scope.

(** ** JavaScript values *)

(** The values of a parsed JSON document.  Numbers are restricted to the
    integers (identifiers, counters and epoch milliseconds); an object
    keeps its properties in insertion order. *)
Unset Elimination Schemes.
Inductive value : Type :=
| VNull
| VBool (b : bool)
| VNum (n : Z)
| VStr (s : string)
| VArr (items : list value)
| VObj (props : list (string * value)).
Set Elimination Schemes.

(** The result of an expression: a value, or [undefined] as [None]. *)
Definition jsval : Type := option value.

(** A computation that either returns or throws (a [TypeError], or the
    rejection of an awaited promise). *)
Inductive outcome (A : Type) : Type :=
| Return (a : A)
| Throw.
Arguments Return {A} a.
Arguments Throw {A}.

Definition bind {A B : Type} (c : outcome A) (k : A -> outcome B) : outcome B :=
  match c with
  | Return a => k a
  | Throw => Throw
  end.

Notation "x <- c ;; k" := (bind c (fun x => k))
  (at level 61, c at next level, right associativity).

(** [xs.map(f)] where [f] may throw: the first exception aborts the map. *)
Fixpoint mapM {A B : Type} (f : A -> outcome B) (xs : list A) : outcome (list B) :=
  match xs with
  | [] => Return []
  | x :: rest =>
      y <- f x ;;
      ys <- mapM f rest ;;
      Return (y :: ys)
  end.

(** [xs.filter(p)] where [p] may throw. *)
Fixpoint filterM {A : Type} (p : A -> outcome bool) (xs : list A) : outcome (list A) :=
  match xs with
  | [] => Return []
  | x :: rest =>
      keep <- p x ;;
      ys <- filterM p rest ;;
      Return (if keep then x :: ys else ys)
  end.

(** [xs.forEach(body)] threading the variables the body assigns. *)
Fixpoint forEachM {A S : Type} (body : S -> A -> outcome S) (xs : list A) (s : S)
  : outcome S :=
  match xs with
  | [] => Return s
  | x :: rest =>
      s' <- body s x ;;
      forEachM body rest s'
  end.

(** First binding of a key in a property list. *)
Fixpoint assoc (k : string) (props : list (string * value)) : option value :=
  match props with
  | [] => None
  | (k', v) :: rest => if String.eqb k' k then Some v else assoc k rest
  end.

(** [o.k] on a value that is not [null]: an own property of an object, and
    [undefined] on a primitive or an array (none of the keys read by this
    program is a built-in property of those). *)
Definition readProp (o : value) (k : string) : jsval :=
  match o with
  | VObj props => assoc k props
  | _ => None
  end.

(** [o.k]: reading a property of [null] or [undefined] throws. *)
Definition getProp (o : jsval) (k : string) : outcome jsval :=
  match o with
  | None | Some VNull => Throw
  | Some v => Return (readProp v k)
  end.

(** [o?.k] *)
Definition getPropOpt (o : jsval) (k : string) : jsval :=
  match o with
  | None | Some VNull => None
  | Some v => readProp v k
  end.

(** Truthiness, as used by [||], [!] and [if]. *)
Definition truthy (v : jsval) : bool :=
  match v with
  | None | Some VNull => false
  | Some (VBool b) => b
  | Some (VNum n) => negb (n =? 0)%Z
  | Some (VStr s) => negb (s =? "")
  | Some (VArr _) | Some (VObj _) => true
  end.

(** [a === b].  Primitives compare by content; two arrays or objects are
    compared by reference, and the values met here come from different
    parses, so they are never the same reference. *)
Definition strictEquals (a b : jsval) : bool :=
  match a, b with
  | None, None => true
  | Some VNull, Some VNull => true
  | Some (VBool x), Some (VBool y) => Bool.eqb x y
  | Some (VNum x), Some (VNum y) => (x =? y)%Z
  | Some (VStr x), Some (VStr y) => (x =? y)
  | _, _ => false
  end.

(** A value compared by content under [===]. *)
Definition primitive (v : jsval) : bool :=
  match v with
  | Some (VArr _) | Some (VObj _) => false
  | _ => true
  end.

(** [s.includes(needle)] on strings: substring test. *)
Fixpoint str_includes (s needle : string) : bool :=
  String.prefix needle s ||
  match s with
  | EmptyString => false
  | String _ rest => str_includes rest needle
  end.

(** [xs.includes(x)] on arrays.  The built-in compares with SameValueZero,
    which is [===] on the values here (there is no [NaN]). *)
Definition arr_includes (xs : list jsval) (x : jsval) : bool :=
  existsb (fun y => strictEquals y x) xs.

(** [v.includes(needle)] with a string argument: defined on strings and
    arrays, a [TypeError] elsewhere. *)
Definition callIncludes (v : jsval) (needle : string) : outcome bool :=
  match v with
  | Some (VStr s) => Return (str_includes s needle)
  | Some (VArr items) => Return (arr_includes (map Some items) (Some (VStr needle)))
  | _ => Throw
  end.

(** ** [JSON.stringify] *)

Module JSON.

Definition dquote : ascii := "034"%char.
Definition backslash : ascii := "092"%char.

Definition hexDigit (n : nat) : ascii :=
  nth n ["0"; "1"; "2"; "3"; "4"; "5"; "6"; "7"; "8"; "9";
         "a"; "b"; "c"; "d"; "e"; "f"]%char "0"%char.

(** The escape of one character inside a string literal: the quote, the
    backslash and the control characters are escaped, the short forms
    first. *)
Definition escapeChar (c : ascii) : string :=
  if (c =? dquote)%char then String backslash (String dquote "")
  else if (c =? backslash)%char then String backslash (String backslash "")
  else if (c =? "008")%char then String backslash "b"
  else if (c =? "009")%char then String backslash "t"
  else if (c =? "010")%char then String backslash "n"
  else if (c =? "012")%char then String backslash "f"
  else if (c =? "013")%char then String backslash "r"
  else if (nat_of_ascii c <? 32)%nat then
    String backslash
      ("u00" ++ String (hexDigit (nat_of_ascii c / 16))
                  (String (hexDigit (nat_of_ascii c mod 16)) ""))
  else String c "".

Fixpoint escape (s : string) : string :=
  match s with
  | EmptyString => ""
  | String c rest => escapeChar c ++ escape rest
  end.

Definition quote (s : string) : string :=
  String dquote (escape s ++ String dquote "").

(** Integers print in decimal, with a sign when negative. *)
Definition number (n : Z) : string := NilZero.string_of_int (Z.to_int n).

(** One [key:value] member of an object. *)
Definition member (k text : string) : string := quote k ++ ":" ++ text.

(** [JSON.stringify(v)] without indentation: properties in the object's
    own order, members and elements separated by commas. *)
Fixpoint stringify (v : value) : string :=
  match v with
  | VNull => "null"
  | VBool true => "true"
  | VBool false => "false"
  | VNum n => number n
  | VStr s => quote s
  | VArr items => "[" ++ String.concat "," (map stringify items) ++ "]"
  | VObj props =>
      "{" ++ String.concat ","
               (map (fun kv => member (fst kv) (stringify (snd kv))) props)
          ++ "}"
  end.

End JSON.

(** ** The component state *)

(** The [stats] object of a refresh. *)
Record Stats : Type := mkStats {
  added : nat;
  modified : nat;
  unchanged : nat
}.

(** The [useState] cells of [ScheduleApp].  [selectedTrack] and
    [selectedRoom] also receive [session.track] and
    [session.slot_room?.name] from the card buttons, so they hold any
    value; [selectedDay] and [searchTerm] only receive input text. *)
Record State : Type := mkState {
  sessions : list value;
  isLoading : bool;
  isRefreshing : bool;
  filteredSessions : list value;
  searchIndex : list value;
  bookmarkedSessions : list jsval;
  searchTerm : string;
  selectedDay : string;
  selectedTrack : jsval;
  selectedRoom : jsval;
  view : string;
  isUpdateDialogOpen : bool;
  updateStats : Stats
}.

Definition setSessions (x : list value) (st : State) : State :=
  mkState x (isLoading st) (isRefreshing st) (filteredSessions st)
    (searchIndex st) (bookmarkedSessions st) (searchTerm st) (selectedDay st)
    (selectedTrack st) (selectedRoom st) (view st) (isUpdateDialogOpen st)
    (updateStats st).

Definition setIsLoading (x : bool) (st : State) : State :=
  mkState (sessions st) x (isRefreshing st) (filteredSessions st)
    (searchIndex st) (bookmarkedSessions st) (searchTerm st) (selectedDay st)
    (selectedTrack st) (selectedRoom st) (view st) (isUpdateDialogOpen st)
    (updateStats st).

Definition setIsRefreshing (x : bool) (st : State) : State :=
  mkState (sessions st) (isLoading st) x (filteredSessions st)
    (searchIndex st) (bookmarkedSessions st) (searchTerm st) (selectedDay st)
    (selectedTrack st) (selectedRoom st) (view st) (isUpdateDialogOpen st)
    (updateStats st).

Definition setFilteredSessions (x : list value) (st : State) : State :=
  mkState (sessions st) (isLoading st) (isRefreshing st) x
    (searchIndex st) (bookmarkedSessions st) (searchTerm st) (selectedDay st)
    (selectedTrack st) (selectedRoom st) (view st) (isUpdateDialogOpen st)
    (updateStats st).

Definition setSearchIndex (x : list value) (st : State) : State :=
  mkState (sessions st) (isLoading st) (isRefreshing st) (filteredSessions st)
    x (bookmarkedSessions st) (searchTerm st) (selectedDay st)
    (selectedTrack st) (selectedRoom st) (view st) (isUpdateDialogOpen st)
    (updateStats st).

Definition setBookmarkedSessions (x : list jsval) (st : State) : State :=
  mkState (sessions st) (isLoading st) (isRefreshing st) (filteredSessions st)
    (searchIndex st) x (searchTerm st) (selectedDay st)
    (selectedTrack st) (selectedRoom st) (view st) (isUpdateDialogOpen st)
    (updateStats st).

Definition setIsUpdateDialogOpen (x : bool) (st : State) : State :=
  mkState (sessions st) (isLoading st) (isRefreshing st) (filteredSessions st)
    (searchIndex st) (bookmarkedSessions st) (searchTerm st) (selectedDay st)
    (selectedTrack st) (selectedRoom st) (view st) x
    (updateStats st).

Definition setUpdateStats (x : Stats) (st : State) : State :=
  mkState (sessions st) (isLoading st) (isRefreshing st) (filteredSessions st)
    (searchIndex st) (bookmarkedSessions st) (searchTerm st) (selectedDay st)
    (selectedTrack st) (selectedRoom st) (view st) (isUpdateDialogOpen st)
    x.

(** The filter cells, written at once (the four setters of the inputs). *)
Definition setFilters (term day : string) (track room : jsval) (st : State) : State :=
  mkState (sessions st) (isLoading st) (isRefreshing st) (filteredSessions st)
    (searchIndex st) (bookmarkedSessions st) term day track room
    (view st) (isUpdateDialogOpen st) (updateStats st).

Definition setView (x : string) (st : State) : State :=
  mkState (sessions st) (isLoading st) (isRefreshing st) (filteredSessions st)
    (searchIndex st) (bookmarkedSessions st) (searchTerm st) (selectedDay st)
    (selectedTrack st) (selectedRoom st) x (isUpdateDialogOpen st)
    (updateStats st).

Definition all : jsval := Some (VStr "all").

(** The state of the first render; [stored] is what the bookmark
    initialiser read from storage. *)
Definition initialState (stored : list jsval) : State :=
  mkState [] true false [] [] stored "" "all" all all "schedule" false
    (mkStats 0 0 0).

(** ** Bookmarks *)

(** The updater that [toggleBookmark] passes to [setBookmarkedSessions]. *)
Definition toggleBookmark (sessionId : jsval) (prev : list jsval) : list jsval :=
  if arr_includes prev sessionId
  then filter (fun id => negb (strictEquals id sessionId)) prev
  else prev ++ [sessionId].

Definition onToggleBookmark (sessionId : jsval) (st : State) : State :=
  setBookmarkedSessions (toggleBookmark sessionId (bookmarkedSessions st)) st.

(** ** Refresh and change detection *)

(** How one session of the new list is counted. *)
Inductive Classification : Type := Added | Modified | Unchanged.

(** [sessions.find(s => s.id === session.id)] *)
Fixpoint findById (sessions : list value) (session : value) : outcome jsval :=
  match sessions with
  | [] => Return None
  | s :: rest =>
      sid <- getProp (Some s) "id" ;;
      id <- getProp (Some session) "id" ;;
      if strictEquals sid id then Return (Some s) else findById rest session
  end.

(** The text that [JSON.stringify(existingSession)] gives for a truthy
    [existingSession]. *)
Definition stringifyExisting (existingSession : jsval) : string :=
  match existingSession with
  | Some v => JSON.stringify v
  | None => ""
  end.

(** The body of the [forEach] over [newSessions], as a classification. *)
Definition classify (sessions : list value) (session : value)
  : outcome Classification :=
  existingSession <- findById sessions session ;;
  if negb (truthy existingSession) then Return Added
  else if negb (stringifyExisting existingSession =? JSON.stringify session)
  then Return Modified
  else Return Unchanged.

Definition count (c : Classification) (stats : Stats) : Stats :=
  match c with
  | Added => mkStats (S (added stats)) (modified stats) (unchanged stats)
  | Modified => mkStats (added stats) (S (modified stats)) (unchanged stats)
  | Unchanged => mkStats (added stats) (modified stats) (S (unchanged stats))
  end.

(** The block guarded by [sessions.length > 0]: the set of existing ids is
    built first (and not used), then every new session is counted. *)
Definition diffStats (sessions newSessions : list value) : outcome Stats :=
  existingIds <- mapM (fun s => getProp (Some s) "id") sessions ;;
  forEachM (fun stats session => c <- classify sessions session ;;
                                 Return (count c stats))
           newSessions (mkStats 0 0 0).

(** What the two awaits of [fetchData] deliver.  [Rejected]: [fetch] or
    [response.json()] rejects (network or parse error).  [Resolved items]:
    the body parsed and [data.data.items] is the array [items]. *)
Inductive Response : Type :=
| Rejected
| Resolved (items : list value).

(** The [try] block of [fetchData], from the awaits to the two setters. *)
Definition fetchTry (response : Response) (st : State) : outcome State :=
  match response with
  | Rejected => Throw
  | Resolved newSessions =>
      st' <- (if (0 <? List.length (sessions st))%nat then
                stats <- diffStats (sessions st) newSessions ;;
                Return (setIsUpdateDialogOpen true (setUpdateStats stats st))
              else Return st) ;;
      Return (setFilteredSessions newSessions (setSessions newSessions st'))
  end.

(** [fetchData(showRefreshing)] run to completion against the response it
    receives.  The [catch] only logs; the [finally] resets both flags.
    [sessions] is the list seen by the render that created the callback;
    one refresh runs at a time here, so it is the list the state holds. *)
Definition fetchData (showRefreshing : bool) (response : Response) (st : State)
  : State :=
  let st0 := if showRefreshing then setIsRefreshing true st
             else setIsLoading true st in
  let st1 := match fetchTry response st0 with
             | Return st' => st'
             | Throw => st0
             end in
  setIsRefreshing false (setIsLoading false st1).

(** ** Index, filters and grouping *)

(** [xs.sort(compare)]: the stable sort that ECMAScript requires, here by
    insertion.  [compare a b] is the number the comparator returns, [None]
    for [NaN], which the sort reads as [0]. *)
Section Sort.

Context {A : Type}.
Variable compare : A -> A -> option Z.

Definition comesAfter (a b : A) : bool :=
  match compare a b with
  | Some d => (0 <? d)%Z
  | None => false
  end.

Fixpoint insertSorted (x : A) (sorted : list A) : list A :=
  match sorted with
  | [] => [x]
  | y :: rest =>
      if comesAfter x y then y :: insertSorted x rest else x :: y :: rest
  end.

Definition sortBy (xs : list A) : list A := fold_right insertSorted [] xs.

End Sort.

(** The result of [groupedSessions]: the buckets in the order their day
    was first met, and the flag. *)
Record Grouped : Type := mkGrouped {
  grouped : list (string * list value);
  hasCurrentSession : bool
}.

(** [if (!grouped[day]) grouped[day] = []; grouped[day].push(session)].
    A day label is a formatted date, never the name of a property that
    every object inherits, so [grouped[day]] is a bucket or [undefined]. *)
Fixpoint pushSession (day : string) (session : value)
    (buckets : list (string * list value)) : list (string * list value) :=
  match buckets with
  | [] => [(day, [session])]
  | (d, bucket) :: rest =>
      if d =? day then (d, (bucket ++ [session])%list) :: rest
      else (d, bucket) :: pushSession day session rest
  end.

(** [startTime <= currentTime && endTime >= currentTime] on the time
    values of the three dates; a comparison with [NaN] is false. *)
Definition isCurrentSession (currentTime : Z) (startTime endTime : option Z) : bool :=
  match startTime with
  | Some s =>
      (s <=? currentTime)%Z &&
      match endTime with
      | Some e => (e >=? currentTime)%Z
      | None => false
      end
  | None => false
  end.

(** [{...session, searchText: text}]: the own properties in order, the
    key [searchText] overwritten in place or appended. *)
Fixpoint setProp (k : string) (v : value) (props : list (string * value))
  : list (string * value) :=
  match props with
  | [] => [(k, v)]
  | (k', v') :: rest =>
      if k' =? k then (k, v) :: rest else (k', v') :: setProp k v rest
  end.

(** The properties an object spread copies.  Only objects get this far in
    [createSearchIndex]: the read of [title] has already succeeded. *)
Definition spread (v : value) : list (string * value) :=
  match v with
  | VObj props => props
  | _ => []
  end.

Section Engine.

(** The built-ins the component calls. *)

(** [String.prototype.toLowerCase] *)
Variable toLowerCase : string -> string.

(** The time value of [new Date(x)] in milliseconds, [None] for an
    invalid date. *)
Variable dateTime : jsval -> option Z.

(** [toLocaleDateString('en-US', {weekday: 'long', month: 'short', day:
    'numeric'})] of a valid date, in the viewer's time zone. *)
Variable formatDay : Z -> string.

Definition toLocaleDateString (time : option Z) : string :=
  match time with
  | Some ms => formatDay ms
  | None => "Invalid Date"
  end.

(** [v.toLowerCase()]: only strings have the method. *)
Definition callToLowerCase (v : jsval) : outcome string :=
  match v with
  | Some (VStr s) => Return (toLowerCase s)
  | _ => Throw
  end.

(** [(session.speakers || []).map(s => s.name.toLowerCase())] *)
Definition speakerNames (speakers : jsval) : outcome (list string) :=
  match (if truthy speakers then speakers else Some (VArr [])) with
  | Some (VArr items) =>
      mapM (fun s => name <- getProp (Some s) "name" ;; callToLowerCase name)
           items
  | _ => Throw
  end.

(** The expression bound to [searchText]. *)
Definition searchTextOf (session : value) : outcome string :=
  title <- getProp (Some session) "title" ;;
  title' <- callToLowerCase title ;;
  description <- getProp (Some session) "description" ;;
  description' <- callToLowerCase description ;;
  track <- getProp (Some session) "track" ;;
  track' <- callToLowerCase (if truthy track then track else Some (VStr "")) ;;
  speakers <- getProp (Some session) "speakers" ;;
  names <- speakerNames speakers ;;
  Return (title' ++ " " ++ description' ++ " " ++ track' ++ " "
            ++ String.concat " " names).

Definition createSearchIndex (sessions : list value) : outcome (list value) :=
  mapM (fun session =>
          text <- searchTextOf session ;;
          Return (VObj (setProp "searchText" (VStr text) (spread session))))
       sessions.

(** The effect on [sessions]: [setSearchIndex(createSearchIndex(sessions))]. *)
Definition rebuildIndex (st : State) : outcome State :=
  index <- createSearchIndex (sessions st) ;;
  Return (setSearchIndex index st).

(** The day label of a session. *)
Definition dayOf (session : value) : outcome string :=
  slot_start <- getProp (Some session) "slot_start" ;;
  Return (toLocaleDateString (dateTime slot_start)).

(** The four predicates of [filterSessions]. *)
Definition matchesSearch (searchLower : string) (session : value) : outcome bool :=
  searchText <- getProp (Some session) "searchText" ;;
  callIncludes searchText searchLower.

Definition matchesDay (selected : string) (session : value) : outcome bool :=
  day <- dayOf session ;;
  Return (day =? selected).

Definition matchesTrack (selected : jsval) (session : value) : outcome bool :=
  track <- getProp (Some session) "track" ;;
  Return (strictEquals track selected).

Definition matchesRoom (selected : jsval) (session : value) : outcome bool :=
  slot_room <- getProp (Some session) "slot_room" ;;
  Return (strictEquals (getPropOpt slot_room "name") selected).

(** The list that [filterSessions] hands to [setFilteredSessions]. *)
Definition filterPipeline (st : State) : outcome (list value) :=
  let filtered := searchIndex st in
  filtered <- (if truthy (Some (VStr (searchTerm st))) then
                 let searchLower := toLowerCase (searchTerm st) in
                 filterM (matchesSearch searchLower) filtered
               else Return filtered) ;;
  filtered <- (if negb (selectedDay st =? "all") then
                 filterM (matchesDay (selectedDay st)) filtered
               else Return filtered) ;;
  filtered <- (if negb (strictEquals (selectedTrack st) all) then
                 filterM (matchesTrack (selectedTrack st)) filtered
               else Return filtered) ;;
  (if negb (strictEquals (selectedRoom st) all) then
     filterM (matchesRoom (selectedRoom st)) filtered
   else Return filtered).

Definition filterSessions (st : State) : outcome State :=
  filtered <- filterPipeline st ;;
  Return (setFilteredSessions filtered st).

(** The start of a session as the sort comparator reads it. *)
Definition startOf (session : value) : option Z :=
  dateTime (readProp session "slot_start").

Definition endOf (session : value) : option Z :=
  dateTime (readProp session "slot_end").

(** [(a, b) => new Date(a.slot_start) - new Date(b.slot_start)].  The
    elements of a bucket went through the loop, where the same read did
    not throw. *)
Definition compareStart (a b : value) : option Z :=
  match startOf a, startOf b with
  | Some x, Some y => Some (x - y)%Z
  | _, _ => None
  end.

(** The source of the grouping: the filtered list, or the bookmarked
    sessions. *)
Definition sessionsToGroup (st : State) : outcome (list value) :=
  if view st =? "schedule" then Return (filteredSessions st)
  else filterM (fun session =>
                  id <- getProp (Some session) "id" ;;
                  Return (arr_includes (bookmarkedSessions st) id))
               (sessions st).

(** The body of the [forEach] of [groupedSessions]. *)
Definition groupStep (currentTime : Z) (acc : Grouped) (session : value)
  : outcome Grouped :=
  slot_start <- getProp (Some session) "slot_start" ;;
  let startTime := dateTime slot_start in
  slot_end <- getProp (Some session) "slot_end" ;;
  let endTime := dateTime slot_end in
  let day := toLocaleDateString startTime in
  Return (mkGrouped (pushSession day session (grouped acc))
                    (if isCurrentSession currentTime startTime endTime
                     then true else hasCurrentSession acc)).

(** [groupedSessions], with [currentTime] the time value of the
    [new Date()] taken when the grouping runs. *)
Definition groupedSessions (currentTime : Z) (st : State) : outcome Grouped :=
  toGroup <- sessionsToGroup st ;;
  acc <- forEachM (groupStep currentTime) toGroup (mkGrouped [] false) ;;
  Return (mkGrouped
            (map (fun entry => (fst entry, sortBy compareStart (snd entry)))
                 (grouped acc))
            (hasCurrentSession acc)).

End Engine.

(** ** An instance of the built-ins, for running the model *)

Definition asciiLower (c : ascii) : ascii :=
  let n := nat_of_ascii c in
  if ((65 <=? n) && (n <=? 90))%nat then ascii_of_nat (n + 32) else c.

Fixpoint lowerAscii (s : string) : string :=
  match s with
  | EmptyString => ""
  | String c rest => String (asciiLower c) (lowerAscii rest)
  end.

(** Epoch milliseconds given as a number; anything else is taken as an
    invalid date. *)
Definition epochMillis (x : jsval) : option Z :=
  match x with
  | Some (VNum n) => Some n
  | _ => None
  end.

(** The UTC day number as a label. *)
Definition utcDay (ms : Z) : string :=
  "day " ++ JSON.number (ms / 86400000)%Z.

(** ** Exception-free readings

    The same computations on values that are not [null], where no read
    throws; the properties relate them to the code above. *)

(** A value whose properties can be read. *)
Definition notNull (v : value) : bool :=
  match v with
  | VNull => false
  | _ => true
  end.

(** The search of [find], without the exceptions. *)
Fixpoint findFirst (sessions : list value) (id : jsval) : jsval :=
  match sessions with
  | [] => None
  | s :: rest =>
      if strictEquals (readProp s "id") id then Some s else findFirst rest id
  end.

(** The classification of one new session, without the exceptions. *)
Definition classification (old : list value) (session : value) : Classification :=
  let existingSession := findFirst old (readProp session "id") in
  if negb (truthy existingSession) then Added
  else if negb (stringifyExisting existingSession =? JSON.stringify session)
  then Modified
  else Unchanged.

Definition sameClass (a b : Classification) : bool :=
  match a, b with
  | Added, Added | Modified, Modified | Unchanged, Unchanged => true
  | _, _ => false
  end.

(** How many sessions of the new list fall in a class. *)
Definition tally (c : Classification) (old newSessions : list value) : nat :=
  List.length (filter (fun session => sameClass (classification old session) c)
                      newSessions).

(** The state after the [finally] of a fetch that changed nothing else. *)
Definition loadingReset (st : State) : State :=
  setIsRefreshing false (setIsLoading false st).

(** ** The session shape of the data model

    A session has a string [title] and [description]; [track] is an
    optional string; [speakers] is an optional sequence of objects with a
    string [name].  An optional field is absent or [null]. *)

Definition isOptionalString (v : jsval) : bool :=
  match v with
  | None | Some VNull | Some (VStr _) => true
  | _ => false
  end.

Definition isSpeaker (v : value) : bool :=
  match readProp v "name" with
  | Some (VStr _) => true
  | _ => false
  end.

Definition isSpeakers (v : jsval) : bool :=
  match v with
  | None | Some VNull => true
  | Some (VArr items) => forallb isSpeaker items
  | _ => false
  end.

Definition isSession (session : value) : bool :=
  match readProp session "title", readProp session "description" with
  | Some (VStr _), Some (VStr _) =>
      isOptionalString (readProp session "track")
      && isSpeakers (readProp session "speakers")
  | _, _ => false
  end.

(** A string field, the empty string when it is absent. *)
Definition stringField (v : value) (k : string) : string :=
  match readProp v k with
  | Some (VStr s) => s
  | _ => ""
  end.

(** The speakers of a session, none when the field is absent. *)
Definition speakersOf (session : value) : list value :=
  match readProp session "speakers" with
  | Some (VArr items) => items
  | _ => []
  end.

(** An element of the search index: an object with a string [searchText]. *)
Definition hasSearchText (v : value) : bool :=
  match readProp v "searchText" with
  | Some (VStr _) => true
  | _ => false
  end.

Section Readings.

Variable toLowerCase : string -> string.
Variable dateTime : jsval -> option Z.
Variable formatDay : Z -> string.

(** The search text as the specification words it: lower-cased title,
    description, track (empty if absent) and the space-joined lower-cased
    speaker names (empty if there are none), joined by spaces. *)
Definition specSearchText (session : value) : string :=
  toLowerCase (stringField session "title") ++ " "
  ++ toLowerCase (stringField session "description") ++ " "
  ++ toLowerCase (stringField session "track") ++ " "
  ++ String.concat " "
       (map (fun s => toLowerCase (stringField s "name")) (speakersOf session)).

(** The session with its [searchText]. *)
Definition indexedSession (session : value) : value :=
  VObj (setProp "searchText" (VStr (specSearchText session)) (spread session)).

(** The four predicates on values that are not [null]. *)
Definition searchMatches (term : string) (session : value) : bool :=
  str_includes (stringField session "searchText") (toLowerCase term).

Definition dayLabelOf (session : value) : string :=
  toLocaleDateString formatDay (dateTime (readProp session "slot_start")).

Definition dayMatches (selected : string) (session : value) : bool :=
  dayLabelOf session =? selected.

Definition trackMatches (selected : jsval) (session : value) : bool :=
  strictEquals (readProp session "track") selected.

Definition roomMatches (selected : jsval) (session : value) : bool :=
  strictEquals (getPropOpt (readProp session "slot_room") "name") selected.

(** The four stages of the pipeline, each a no-op at its default. *)
Definition searchStage (st : State) (xs : list value) : list value :=
  if searchTerm st =? "" then xs else filter (searchMatches (searchTerm st)) xs.

Definition dayStage (st : State) (xs : list value) : list value :=
  if selectedDay st =? "all" then xs else filter (dayMatches (selectedDay st)) xs.

Definition trackStage (st : State) (xs : list value) : list value :=
  if strictEquals (selectedTrack st) all then xs
  else filter (trackMatches (selectedTrack st)) xs.

Definition roomStage (st : State) (xs : list value) : list value :=
  if strictEquals (selectedRoom st) all then xs
  else filter (roomMatches (selectedRoom st)) xs.

(** A session of the grouping whose start is a valid date. *)
Definition hasStart (session : value) : bool :=
  notNull session &&
  match startOf dateTime session with
  | Some _ => true
  | None => false
  end.

(** [a] starts no later than [b]: both starts are valid dates and the
    first is at most the second. *)
Definition startsNoLater (a b : value) : Prop :=
  match startOf dateTime a, startOf dateTime b with
  | Some x, Some y => (x <= y)%Z
  | _, _ => False
  end.

(** The session starts exactly at [t]. *)
Definition startsAt (t : Z) (session : value) : bool :=
  match startOf dateTime session with
  | Some x => (x =? t)%Z
  | None => false
  end.

(** The session is live at [now]: [slot_start <= now <= slot_end]. *)
Definition live (now : Z) (session : value) : Prop :=
  exists s e, startOf dateTime session = Some s /\
              endOf dateTime session = Some e /\
              (s <= now <= e)%Z.

(** The body of the grouping loop on a value that is not [null]. *)
Definition groupStepOf (now : Z) (acc : Grouped) (session : value) : Grouped :=
  mkGrouped
    (pushSession (dayLabelOf session) session (grouped acc))
    (if isCurrentSession now (startOf dateTime session) (endOf dateTime session)
     then true else hasCurrentSession acc).

(** The sessions of a list that fall on a day. *)
Definition onDay (day : string) (xs : list value) : list value :=
  filter (fun session => dayLabelOf session =? day) xs.

(** The invariant of the grouping loop: the buckets have distinct days
    and hold, for each day met so far, the sessions of that day in the
    order they were met. *)
Definition bucketsHold (processed : list value)
    (buckets : list (string * list value)) : Prop :=
  NoDup (map fst buckets) /\
  (forall d b, In (d, b) buckets -> b = onDay d processed) /\
  (forall s, In s processed -> In (dayLabelOf s) (map fst buckets)).

End Readings.

(** A list that keeps some elements of another, in the same order. *)
Inductive subsequence {A : Type} : list A -> list A -> Prop :=
| subsequence_nil : subsequence [] []
| subsequence_skip x xs ys : subsequence xs ys -> subsequence xs (x :: ys)
| subsequence_keep x xs ys : subsequence xs ys -> subsequence (x :: xs) (x :: ys).

(** ** Reading serialized text back

    What the proof that [JSON.stringify] is injective needs: the induction
    principle of values, a decoder for one escaped character, and the
    characters that can follow a number. *)

Section ValueInduction.

Variable P : value -> Prop.
Hypothesis case_null : P VNull.
Hypothesis case_bool : forall b, P (VBool b).
Hypothesis case_num : forall n, P (VNum n).
Hypothesis case_str : forall s, P (VStr s).
Hypothesis case_arr : forall items, Forall P items -> P (VArr items).
Hypothesis case_obj :
  forall props, Forall (fun kv => P (snd kv)) props -> P (VObj props).

Fixpoint value_ind (v : value) : P v :=
  match v with
  | VNull => case_null
  | VBool b => case_bool b
  | VNum n => case_num n
  | VStr s => case_str s
  | VArr items =>
      case_arr items
        ((fix all (xs : list value) : Forall P xs :=
            match xs with
            | [] => Forall_nil P
            | x :: rest => Forall_cons x (value_ind x) (all rest)
            end) items)
  | VObj props =>
      case_obj props
        ((fix all (xs : list (string * value))
            : Forall (fun kv => P (snd kv)) xs :=
            match xs with
            | [] => Forall_nil _
            | kv :: rest =>
                Forall_cons (P := fun kv => P (snd kv)) kv
                            (value_ind (snd kv)) (all rest)
            end) props)
  end.

End ValueInduction.

Module Decode.

Definition hexValue (c : ascii) : nat :=
  let n := nat_of_ascii c in
  if (n <? 58)%nat then n - 48 else n - 87.

(** One character of a string literal read back from the text that
    follows it; [None] at the closing quote or on a broken escape. *)
Definition unescapeHead (text : string) : option (ascii * string) :=
  match text with
  | EmptyString => None
  | String c rest =>
      if (c =? JSON.dquote)%char then None
      else if (c =? JSON.backslash)%char then
        match rest with
        | String e rest' =>
            if (e =? JSON.dquote)%char then Some (JSON.dquote, rest')
            else if (e =? JSON.backslash)%char then Some (JSON.backslash, rest')
            else if (e =? "b")%char then Some ("008"%char, rest')
            else if (e =? "t")%char then Some ("009"%char, rest')
            else if (e =? "n")%char then Some ("010"%char, rest')
            else if (e =? "f")%char then Some ("012"%char, rest')
            else if (e =? "r")%char then Some ("013"%char, rest')
            else if (e =? "u")%char then
              match rest' with
              | String _ (String _ (String h (String l rest''))) =>
                  Some (ascii_of_nat (16 * hexValue h + hexValue l), rest'')
              | _ => None
              end
            else None
        | EmptyString => None
        end
      else Some (c, rest)
  end.

(** The characters of a printed integer. *)
Definition isNumberChar (c : ascii) : bool :=
  let n := nat_of_ascii c in
  (n =? 45)%nat || ((48 <=? n) && (n <=? 57))%nat.

Fixpoint allNumberChars (s : string) : bool :=
  match s with
  | EmptyString => true
  | String c rest => isNumberChar c && allNumberChars rest
  end.

(** Text that can follow a value: the end, or a character that does
    not continue a number. *)
Definition terminated (s : string) : bool :=
  match s with
  | EmptyString => true
  | String c _ => negb (isNumberChar c)
  end.

(** The first character of a serialized value: a letter of [null],
    [true], [false], a number character, a quote, a bracket or a brace. *)
Definition startsValue (s : string) : bool :=
  match s with
  | EmptyString => false
  | String c _ =>
      isNumberChar c
      || existsb (fun d => (c =? d)%char)
           ["n"; "t"; "f"; JSON.dquote; "["; "{"]%char
  end.

(** The text after the first element of a comma-separated list. *)
Fixpoint tailText (texts : list string) : string :=
  match texts with
  | [] => ""
  | t :: rest => "," ++ t ++ tailText rest
  end.

(** An element whose text, followed by a terminator, determines the
    element and where its text ends. *)
Definition determined {A : Type} (print : A -> string) (x : A) : Prop :=
  forall y r1 r2,
    terminated r1 = true -> terminated r2 = true ->
    print x ++ r1 = print y ++ r2 -> x = y /\ r1 = r2.

End Decode.

(** The session is an object. *)
Definition isObject (v : value) : bool :=
  match v with
  | VObj _ => true
  | _ => false
  end.

(** Deep structural equality as the specification words it: every field
    compared, sequences in order, the fields of an object whatever the
    order of their keys. *)
Fixpoint deepEqual (a b : value) : bool :=
  match a, b with
  | VNull, VNull => true
  | VBool x, VBool y => Bool.eqb x y
  | VNum x, VNum y => (x =? y)%Z
  | VStr x, VStr y => (x =? y)
  | VArr xs, VArr ys =>
      (fix each (xs ys : list value) : bool :=
         match xs, ys with
         | [], [] => true
         | x :: xs', y :: ys' => deepEqual x y && each xs' ys'
         | _, _ => false
         end) xs ys
  | VObj ps, VObj qs =>
      (List.length ps =? List.length qs)%nat
      && forallb (fun kv => match assoc (fst kv) qs with
                            | Some w => deepEqual (snd kv) w
                            | None => false
                            end) ps
  | _, _ => false
  end.

(** ** Sample data *)

(** A session with every field. *)
Definition sessionA : value :=
  VObj [("id", VStr "a1"); ("title", VStr "Opening Ceremony");
        ("description", VStr "Welcome to Devcon"); ("track", VStr "Core");
        ("slot_start", VNum 90000000); ("slot_end", VNum 93600000);
        ("slot_room", VObj [("id", VStr "r1"); ("name", VStr "Main Stage")]);
        ("speakers", VArr [VObj [("id", VStr "p1"); ("name", VStr "Ann Lee")];
                           VObj [("id", VStr "p2"); ("name", VStr "Bo Chen")]])].

(** The same session with two keys in the other order. *)
Definition sessionA_reordered : value :=
  VObj [("title", VStr "Opening Ceremony"); ("id", VStr "a1");
        ("description", VStr "Welcome to Devcon"); ("track", VStr "Core");
        ("slot_start", VNum 90000000); ("slot_end", VNum 93600000);
        ("slot_room", VObj [("id", VStr "r1"); ("name", VStr "Main Stage")]);
        ("speakers", VArr [VObj [("id", VStr "p1"); ("name", VStr "Ann Lee")];
                           VObj [("id", VStr "p2"); ("name", VStr "Bo Chen")]])].

(** A session without track, room, speakers and resource links. *)
Definition sessionB : value :=
  VObj [("id", VStr "b2"); ("title", VStr "Lunch");
        ("description", VStr "Food Court"); ("slot_start", VNum 86400000);
        ("slot_end", VNum 90000000)].

(** A session that starts when [sessionA] does, on another track. *)
Definition sessionC : value :=
  VObj [("id", VStr "c3"); ("title", VStr "ZK Workshop");
        ("description", VStr "Hands-on proofs"); ("track", VStr "Cryptography");
        ("slot_start", VNum 90000000); ("slot_end", VNum 97200000);
        ("slot_room", VObj [("id", VStr "r2"); ("name", VStr "Classroom A")])].

(** The index of the three sessions, and a state that selects a track. *)
Definition sampleIndex : list value :=
  map (indexedSession lowerAscii) [sessionA; sessionB; sessionC].

Definition coreTrackState : State :=
  setFilters "" "all" (Some (VStr "Core")) all
    (setSearchIndex sampleIndex (initialState [])).

(** A state that shows the three sessions, unfiltered. *)
Definition scheduleState : State :=
  setFilteredSessions [sessionA; sessionB; sessionC]
    (setSessions [sessionA; sessionB; sessionC] (initialState [])).

(** A state that holds [sessionA] and has a search term and a track
    selected. *)
Definition filteringState : State :=
  setFilters "zk proofs" "all" (Some (VStr "Core")) all
    (setFilteredSessions [sessionA] (setSessions [sessionA] (initialState []))).

(** ** The filter handlers and the option lists *)

(** The setters of the four filter cells. *)
Definition setSearchTerm (x : string) (st : State) : State :=
  setFilters x (selectedDay st) (selectedTrack st) (selectedRoom st) st.

Definition setSelectedDay (x : string) (st : State) : State :=
  setFilters (searchTerm st) x (selectedTrack st) (selectedRoom st) st.

Definition setSelectedTrack (x : jsval) (st : State) : State :=
  setFilters (searchTerm st) (selectedDay st) x (selectedRoom st) st.

Definition setSelectedRoom (x : jsval) (st : State) : State :=
  setFilters (searchTerm st) (selectedDay st) (selectedTrack st) x st.

(** [resetFilters], without the focus of the input. *)
Definition resetFilters (st : State) : State :=
  setSelectedRoom all (setSelectedTrack all (setSelectedDay "all" (setSearchTerm "" st))).

Definition handleRoomClick (room : jsval) (st : State) : State :=
  setView "schedule" (setSelectedRoom room st).

Definition handleTrackClick (track : jsval) (st : State) : State :=
  setView "schedule" (setSelectedTrack track st).

(** The two buttons of a card: [onRoomClick(session.slot_room?.name)] and
    [onTrackClick(session.track)]. *)
Definition roomButton (session : value) (st : State) : outcome State :=
  slot_room <- getProp (Some session) "slot_room" ;;
  Return (handleRoomClick (getPropOpt slot_room "name") st).

Definition trackButton (session : value) (st : State) : outcome State :=
  track <- getProp (Some session) "track" ;;
  Return (handleTrackClick track st).

(** [new Set(xs)] read back with [Array.from]: the elements in the order
    they were first added, an element being added when no element equal
    to it is held. *)
Section NewSet.

Context {A : Type}.
Variable same : A -> A -> bool.

Definition setAdd (held : list A) (x : A) : list A :=
  if existsb (fun y => same y x) held then held else (held ++ [x])%list.

Definition newSet (xs : list A) : list A := fold_left setAdd xs [].

End NewSet.

(** [String(v)], which the default sort compares. *)
Fixpoint toStringJS (v : value) : string :=
  match v with
  | VNull => "null"
  | VBool true => "true"
  | VBool false => "false"
  | VNum n => JSON.number n
  | VStr s => s
  | VArr items =>
      String.concat ","
        (map (fun x => match x with
                       | VNull => ""
                       | _ => toStringJS x
                       end) items)
  | VObj _ => "[object Object]"
  end.

Definition toStringOf (v : jsval) : string :=
  match v with
  | Some x => toStringJS x
  | None => "undefined"
  end.

(** The comparator of [xs.sort()]: the strings of the two elements
    compared unit by unit. *)
Definition compareDefault (a b : jsval) : option Z :=
  match String.compare (toStringOf a) (toStringOf b) with
  | Lt => Some (-1)%Z
  | Eq => Some 0%Z
  | Gt => Some 1%Z
  end.

Definition isDefined (v : jsval) : bool :=
  match v with
  | Some _ => true
  | None => false
  end.

(** [xs.sort()]: [undefined] elements go last, without being compared. *)
Definition sortDefault (xs : list jsval) : list jsval :=
  (sortBy compareDefault (filter isDefined xs)
   ++ filter (fun v => negb (isDefined v)) xs)%list.

(** [Array.from(new Set(xs.filter(Boolean))).sort()] *)
Definition optionList (xs : list jsval) : list jsval :=
  sortDefault (newSet strictEquals (filter truthy xs)).

(** [tracks] of the memo. *)
Definition tracksOf (sessions : list value) : outcome (list jsval) :=
  raw <- mapM (fun session => getProp (Some session) "track") sessions ;;
  Return (optionList raw).

(** [rooms] of the memo. *)
Definition roomsOf (sessions : list value) : outcome (list jsval) :=
  raw <- mapM (fun session =>
                 slot_room <- getProp (Some session) "slot_room" ;;
                 Return (getPropOpt slot_room "name")) sessions ;;
  Return (optionList raw).

Section Days.

Variable dateTime : jsval -> option Z.
Variable formatDay : Z -> string.

(** [(a, b) => new Date(a) - new Date(b)] on two day labels. *)
Definition compareLabels (a b : string) : option Z :=
  match dateTime (Some (VStr a)), dateTime (Some (VStr b)) with
  | Some x, Some y => Some (x - y)%Z
  | _, _ => None
  end.

(** [days] of the memo. *)
Definition daysOf (sessions : list value) : outcome (list string) :=
  labels <- mapM (dayOf dateTime formatDay) sessions ;;
  Return (sortBy compareLabels (newSet String.eqb labels)).

End Days.

(** The order of the default sort: the string of [a] is not after the
    string of [b]. *)
Definition notAfter (a b : jsval) : Prop :=
  String.compare (toStringOf a) (toStringOf b) <> Gt.

(** Choosing an entry of a select: [<option value={x}>] holds the string
    of [x], and [onChange] stores [e.target.value]. *)
Definition chooseTrack (option : jsval) (st : State) : State :=
  setSelectedTrack (Some (VStr (toStringOf option))) st.

Definition chooseRoom (option : jsval) (st : State) : State :=
  setSelectedRoom (Some (VStr (toStringOf option))) st.

Definition chooseDay (option : string) (st : State) : State :=
  setSelectedDay option st.

(** The test of the empty-state message:
    [Object.keys(groupedSessions.grouped).length === 0]. *)
Definition noSessionsFound (g : Grouped) : bool :=
  (List.length (map fst (grouped g)) =? 0)%nat.

(** ** Readings for the handlers and the index *)

(** A value that has [toLowerCase]. *)
Definition lowerable (v : jsval) : bool :=
  match v with
  | Some (VStr _) => true
  | _ => false
  end.

(** The speakers field goes through the map: falsy, or an array of values
    that are not [null] and have a string [name]. *)
Definition hasNames (speakers : jsval) : bool :=
  if truthy speakers then
    match speakers with
    | Some (VArr items) =>
        forallb (fun s => notNull s && lowerable (readProp s "name")) items
    | _ => false
    end
  else true.

(** The session goes through [createSearchIndex] without an exception. *)
Definition indexable (session : value) : bool :=
  notNull session
  && lowerable (readProp session "title")
  && lowerable (readProp session "description")
  && (negb (truthy (readProp session "track"))
      || lowerable (readProp session "track"))
  && hasNames (readProp session "speakers").

(** The words a session is indexed under. *)
Definition searchableWords (session : value) : list string :=
  (stringField session "title"
     :: stringField session "description"
     :: stringField session "track"
     :: map (fun s => stringField s "name") (speakersOf session))%list.

(** The id a session is found and bookmarked by. *)
Definition idOf (session : value) : jsval := readProp session "id".

(** The room name the room button passes. *)
Definition roomNameOf (session : value) : jsval :=
  getPropOpt (readProp session "slot_room") "name".

Section HandlerReadings.

Variable toLowerCase : string -> string.
Variable dateTime : jsval -> option Z.
Variable formatDay : Z -> string.

(** The list the pipeline computes on an index. *)
Definition visible (st : State) : list value :=
  roomStage st
    (trackStage st
       (dayStage dateTime formatDay st
          (searchStage toLowerCase st (searchIndex st)))).

(** A session passes the four filters of a state. *)
Definition passes (st : State) (session : value) : bool :=
  ((searchTerm st =? "") || searchMatches toLowerCase (searchTerm st) session)
  && ((selectedDay st =? "all")
      || dayMatches dateTime formatDay (selectedDay st) session)
  && (strictEquals (selectedTrack st) all
      || trackMatches (selectedTrack st) session)
  && (strictEquals (selectedRoom st) all
      || roomMatches (selectedRoom st) session).

(** The sessions whose start is not a valid date. *)
Definition undated (xs : list value) : list value :=
  filter (fun session => match startOf dateTime session with
                         | Some _ => false
                         | None => true
                         end) xs.

End HandlerReadings.


(** A session whose start is not a date. *)
Definition sessionUndated : value :=
  VObj [("id", VStr "u9"); ("title", VStr "To be announced");
        ("description", VStr "Details follow"); ("slot_start", VStr "soon")].

Definition undatedState : State :=
  setFilteredSessions [sessionUndated; sessionA; sessionUndated]
    (initialState []).

(** The state of the bookmarks view over a list of sessions. *)
Definition bookmarksState : State :=
  setView "bookmarks"
    (setSessions [sessionA; sessionB; sessionC] (initialState [])).

(** * Properties *)

(** ** Strict equality *)

Lemma strictEquals_true (a b : jsval) :
  strictEquals a b = true <-> a = b /\ primitive a = true.
Proof.
  split.
  - destruct a as [[| x | x | x | x | x]|], b as [[| y | y | y | y | y]|];
      simpl; try discriminate; intros H; split; try reflexivity.
    + apply Bool.eqb_prop in H. now subst.
    + apply Z.eqb_eq in H. now subst.
    + apply String.eqb_eq in H. now subst.
  - intros [<- H].
    destruct a as [[| x | x | x | x | x]|]; simpl in *; try discriminate;
      try reflexivity.
    + apply Bool.eqb_reflx.
    + apply Z.eqb_refl.
    + apply String.eqb_refl.
Qed.

Lemma strictEquals_refl (a : jsval) :
  primitive a = true -> strictEquals a a = true.
Proof. intros H. apply strictEquals_true. now split. Qed.

Lemma strictEquals_sym (a b : jsval) : strictEquals a b = strictEquals b a.
Proof.
  destruct (strictEquals a b) eqn:E, (strictEquals b a) eqn:E'; try reflexivity.
  - apply strictEquals_true in E as [-> P]. rewrite (strictEquals_refl _ P) in E'.
    discriminate.
  - apply strictEquals_true in E' as [-> P]. rewrite (strictEquals_refl _ P) in E.
    discriminate.
Qed.

(** ** Bookmarks *)

Lemma arr_includes_app (xs ys : list jsval) (x : jsval) :
  arr_includes (xs ++ ys)%list x = arr_includes xs x || arr_includes ys x.
Proof. unfold arr_includes. apply existsb_app. Qed.

Lemma arr_includes_removed (prev : list jsval) (sessionId id : jsval) :
  arr_includes (filter (fun y => negb (strictEquals y sessionId)) prev) id =
  arr_includes prev id && negb (strictEquals id sessionId).
Proof.
  unfold arr_includes.
  induction prev as [| y prev IH]; simpl; [reflexivity|].
  destruct (strictEquals y sessionId) eqn:Ey; simpl.
  - rewrite IH. destruct (strictEquals y id) eqn:Eyi; simpl; [|reflexivity].
    apply strictEquals_true in Ey as [-> _].
    rewrite strictEquals_sym, Eyi. simpl. apply andb_false_r.
  - rewrite IH. destruct (strictEquals y id) eqn:Eyi; simpl; [|reflexivity].
    apply strictEquals_true in Eyi as [-> _]. now rewrite Ey.
Qed.

Lemma toggleBookmark_includes (prev : list jsval) (sessionId id : jsval) :
  arr_includes (toggleBookmark sessionId prev) id =
  if strictEquals id sessionId then negb (arr_includes prev sessionId)
  else arr_includes prev id.
Proof.
  unfold toggleBookmark.
  destruct (arr_includes prev sessionId) eqn:E.
  - rewrite arr_includes_removed.
    destruct (strictEquals id sessionId); simpl;
      [apply andb_false_r | apply andb_true_r].
  - rewrite arr_includes_app. simpl. rewrite orb_false_r.
    rewrite (strictEquals_sym sessionId id).
    destruct (strictEquals id sessionId) eqn:Ei.
    + apply strictEquals_true in Ei as [-> _]. now rewrite E.
    + apply orb_false_r.
Qed.

(** C7.  For a bookmark list and a session id compared by content,
    [toggleBookmark] flips the membership of that id (it is added when
    absent and removed when present) and leaves every other id's
    membership alone; toggling the same id twice restores the membership
    of every id. *)
Theorem toggleBookmark_flips_and_restores :
  forall (prev : list jsval) (sessionId : jsval),
    primitive sessionId = true ->
    (arr_includes prev sessionId = false ->
     toggleBookmark sessionId prev = (prev ++ [sessionId])%list /\
     arr_includes (toggleBookmark sessionId prev) sessionId = true) /\
    (arr_includes prev sessionId = true ->
     arr_includes (toggleBookmark sessionId prev) sessionId = false) /\
    (forall id, strictEquals id sessionId = false ->
       arr_includes (toggleBookmark sessionId prev) id = arr_includes prev id) /\
    (forall id,
       arr_includes (toggleBookmark sessionId (toggleBookmark sessionId prev)) id
       = arr_includes prev id).
Proof.
  intros prev sessionId Hprim.
  pose proof (strictEquals_refl _ Hprim) as Hrefl.
  repeat split.
  - unfold toggleBookmark. now rewrite H.
  - rewrite toggleBookmark_includes, Hrefl, H. reflexivity.
  - intros H. rewrite toggleBookmark_includes, Hrefl, H. reflexivity.
  - intros id H. now rewrite toggleBookmark_includes, H.
  - intros id. rewrite toggleBookmark_includes.
    destruct (strictEquals id sessionId) eqn:E.
    + rewrite toggleBookmark_includes, Hrefl, negb_involutive.
      apply strictEquals_true in E as [-> _]. reflexivity.
    + now rewrite toggleBookmark_includes, E.
Qed.

Lemma toggleBookmark_flips_and_restores_witness :
  toggleBookmark (Some (VStr "s2")) [Some (VStr "s1"); Some (VStr "s2")]
    = [Some (VStr "s1")] /\
  forall id,
    arr_includes
      (toggleBookmark (Some (VStr "s2"))
         (toggleBookmark (Some (VStr "s2")) [Some (VStr "s1"); Some (VStr "s2")]))
      id
    = arr_includes [Some (VStr "s1"); Some (VStr "s2")] id.
Proof.
  split; [reflexivity|].
  apply (toggleBookmark_flips_and_restores
           [Some (VStr "s1"); Some (VStr "s2")] (Some (VStr "s2"))).
  reflexivity.
Defined.

(** ** Refresh *)

Lemma getProp_notNull (v : value) (k : string) :
  notNull v = true -> getProp (Some v) k = Return (readProp v k).
Proof. destruct v; simpl; intros H; try reflexivity; discriminate. Qed.

Lemma mapM_getProp_returns (xs : list value) (k : string) :
  forallb notNull xs = true ->
  mapM (fun s => getProp (Some s) k) xs = Return (map (fun s => readProp s k) xs).
Proof.
  induction xs as [| x xs IH]; cbn [mapM forallb map]; [reflexivity|].
  intros H. apply andb_true_iff in H as [Hx Hxs].
  rewrite (getProp_notNull _ _ Hx). cbn [bind]. rewrite (IH Hxs). reflexivity.
Qed.

Lemma findById_returns (old : list value) (session : value) :
  forallb notNull old = true -> notNull session = true ->
  findById old session = Return (findFirst old (readProp session "id")).
Proof.
  intros Hold Hs.
  induction old as [| s old IH]; cbn [findById findFirst]; [reflexivity|].
  cbn [forallb] in Hold. apply andb_true_iff in Hold as [Hx Hxs].
  rewrite (getProp_notNull _ _ Hx), (getProp_notNull _ _ Hs). cbn [bind].
  destruct (strictEquals _ _); [reflexivity | now apply IH].
Qed.

Lemma classify_returns (old : list value) (session : value) :
  forallb notNull old = true -> notNull session = true ->
  classify old session = Return (classification old session).
Proof.
  intros Hold Hs. unfold classify, classification.
  rewrite (findById_returns _ _ Hold Hs). cbn [bind].
  destruct (negb (truthy _)); [reflexivity|].
  destruct (negb (_ =? _)); reflexivity.
Qed.

Lemma diffStats_returns (old newSessions : list value) :
  forallb notNull old = true -> forallb notNull newSessions = true ->
  diffStats old newSessions =
  Return (fold_left (fun stats session => count (classification old session) stats)
                    newSessions (mkStats 0 0 0)).
Proof.
  intros Hold Hnew. unfold diffStats.
  rewrite (mapM_getProp_returns _ _ Hold). cbn [bind].
  generalize (mkStats 0 0 0).
  induction newSessions as [| s rest IH]; intros acc;
    cbn [forEachM fold_left]; [reflexivity|].
  cbn [forallb] in Hnew. apply andb_true_iff in Hnew as [Hs Hrest].
  rewrite (classify_returns _ _ Hold Hs). cbn [bind]. now apply IH.
Qed.

(** C8.  When the fetch or the parse of its body rejects, [fetchData]
    leaves the session list, the filtered list and every other cell as
    they were; only [isLoading] and [isRefreshing] are reset to false. *)
Theorem fetchData_failure_keeps_sessions :
  forall (showRefreshing : bool) (st : State),
    fetchData showRefreshing Rejected st = loadingReset st /\
    sessions (fetchData showRefreshing Rejected st) = sessions st /\
    filteredSessions (fetchData showRefreshing Rejected st) = filteredSessions st /\
    isLoading (fetchData showRefreshing Rejected st) = false /\
    isRefreshing (fetchData showRefreshing Rejected st) = false.
Proof.
  intros showRefreshing st. destruct showRefreshing; repeat split.
Qed.


(** C2.  On the first load (the held list is empty) the refresh does not
    run the diff: [updateStats] and [isUpdateDialogOpen] keep their
    values, whatever the new list is.  When the held list is not empty
    and the diff returns, its stats are stored and the dialog is opened. *)
Theorem first_load_skips_diff :
  forall (showRefreshing : bool) (newSessions : list value) (st : State),
    (sessions st = [] ->
     updateStats (fetchData showRefreshing (Resolved newSessions) st)
       = updateStats st /\
     isUpdateDialogOpen (fetchData showRefreshing (Resolved newSessions) st)
       = isUpdateDialogOpen st /\
     sessions (fetchData showRefreshing (Resolved newSessions) st) = newSessions) /\
    (sessions st <> [] ->
     forall stats, diffStats (sessions st) newSessions = Return stats ->
     updateStats (fetchData showRefreshing (Resolved newSessions) st) = stats /\
     isUpdateDialogOpen (fetchData showRefreshing (Resolved newSessions) st) = true).
Proof.
  intros showRefreshing newSessions st. split.
  - intros Hempty. unfold fetchData, fetchTry.
    destruct showRefreshing; simpl; rewrite Hempty; simpl; repeat split.
  - intros Hne stats Hdiff. unfold fetchData, fetchTry.
    destruct (sessions st) as [| s old] eqn:Hs; [contradiction|].
    destruct showRefreshing; simpl; rewrite Hs; simpl; rewrite Hdiff; simpl;
      split; reflexivity.
Qed.

Lemma first_load_skips_diff_witness :
  updateStats (fetchData false (Resolved [sessionA; sessionB]) (initialState []))
    = mkStats 0 0 0 /\
  isUpdateDialogOpen
    (fetchData false (Resolved [sessionA; sessionB]) (initialState [])) = false /\
  sessions (fetchData false (Resolved [sessionA; sessionB]) (initialState []))
    = [sessionA; sessionB].
Proof.
  apply (first_load_skips_diff false [sessionA; sessionB] (initialState [])).
  reflexivity.
Defined.

(** C10.  A refresh whose diff does not throw stores the whole new list as
    the filtered list, whatever the filter cells hold; the filter cells
    and the search index are not touched by the refresh, so the filters
    are not applied by it. *)
Theorem fetchData_shows_whole_list :
  forall (showRefreshing : bool) (newSessions : list value) (st : State),
    forallb notNull (sessions st) = true ->
    forallb notNull newSessions = true ->
    let st' := fetchData showRefreshing (Resolved newSessions) st in
    sessions st' = newSessions /\
    filteredSessions st' = newSessions /\
    searchIndex st' = searchIndex st /\
    searchTerm st' = searchTerm st /\
    selectedDay st' = selectedDay st /\
    selectedTrack st' = selectedTrack st /\
    selectedRoom st' = selectedRoom st.
Proof.
  intros showRefreshing newSessions st Hold Hnew st'. subst st'.
  unfold fetchData, fetchTry.
  destruct showRefreshing; simpl;
    (destruct (0 <? List.length (sessions st))%nat; simpl;
     [rewrite (diffStats_returns _ _ Hold Hnew); simpl | ]; repeat split).
Qed.

Lemma fetchData_shows_whole_list_witness :
  filteredSessions (fetchData true (Resolved [sessionB; sessionC]) filteringState)
    = [sessionB; sessionC] /\
  searchTerm (fetchData true (Resolved [sessionB; sessionC]) filteringState)
    = "zk proofs" /\
  selectedTrack (fetchData true (Resolved [sessionB; sessionC]) filteringState)
    = Some (VStr "Core").
Proof.
  pose proof (fetchData_shows_whole_list true [sessionB; sessionC] filteringState
                eq_refl eq_refl) as H.
  cbv zeta in H. repeat split; apply H.
Defined.

(** The filters come back with the two later steps: the effect that
    rebuilds the index and the run of [filterSessions]. *)
Example refresh_then_filter_sample :
  filteredSessions (fetchData true (Resolved [sessionB; sessionC]) filteringState)
    = [sessionB; sessionC] /\
  (st1 <- rebuildIndex lowerAscii
            (fetchData true (Resolved [sessionB; sessionC]) filteringState) ;;
   st2 <- filterSessions lowerAscii epochMillis utcDay st1 ;;
   Return (filteredSessions st2)) = Return [].
Proof. split; reflexivity. Qed.

(** ** The search index *)

Lemma mapM_returns {A B : Type} (f : A -> outcome B) (g : A -> B) (xs : list A) :
  (forall x, In x xs -> f x = Return (g x)) ->
  mapM f xs = Return (map g xs).
Proof.
  induction xs as [| x xs IH]; intros H; cbn [mapM map]; [reflexivity|].
  rewrite (H x (or_introl eq_refl)). cbn [bind].
  rewrite IH; [reflexivity|]. intros y Hy. apply H. now right.
Qed.

Lemma filterM_returns {A : Type} (p : A -> outcome bool) (q : A -> bool) (xs : list A) :
  (forall x, In x xs -> p x = Return (q x)) ->
  filterM p xs = Return (filter q xs).
Proof.
  induction xs as [| x xs IH]; intros H; cbn [filterM filter]; [reflexivity|].
  rewrite (H x (or_introl eq_refl)). cbn [bind].
  rewrite IH; [reflexivity|]. intros y Hy. apply H. now right.
Qed.

Lemma isSpeaker_notNull (s : value) : isSpeaker s = true -> notNull s = true.
Proof. now destruct s. Qed.

Lemma isSession_object (session : value) :
  isSession session = true -> exists props, session = VObj props.
Proof. destruct session; try discriminate. intros _. now exists props. Qed.

Lemma isSession_notNull (session : value) :
  isSession session = true -> notNull session = true.
Proof. now destruct session. Qed.

Section IndexFacts.

Variable toLowerCase : string -> string.

Lemma speakerNames_returns (session : value) :
  isSpeakers (readProp session "speakers") = true ->
  speakerNames toLowerCase (readProp session "speakers")
  = Return (map (fun s => toLowerCase (stringField s "name"))
                (speakersOf session)).
Proof.
  unfold speakersOf, speakerNames.
  destruct (readProp session "speakers") as [[| b | n | s | items | props]|];
    cbn [isSpeakers truthy]; try discriminate; try reflexivity.
  intros Hall. apply mapM_returns. intros s Hs.
  assert (Hsp : isSpeaker s = true)
    by (rewrite forallb_forall in Hall; now apply Hall).
  rewrite (getProp_notNull _ _ (isSpeaker_notNull _ Hsp)). cbn [bind].
  unfold isSpeaker in Hsp. unfold stringField.
  destruct (readProp s "name") as [[| b | n | t | l | p]|];
    try discriminate. reflexivity.
Qed.

Lemma searchTextOf_returns (session : value) :
  isSession session = true ->
  searchTextOf toLowerCase session = Return (specSearchText toLowerCase session).
Proof.
  intros H. pose proof (isSession_notNull _ H) as Hnn.
  unfold searchTextOf, specSearchText.
  rewrite !(getProp_notNull _ _ Hnn). unfold isSession in H.
  destruct (readProp session "title") as [[| b | n | title | l | p]|] eqn:Et;
    try discriminate.
  destruct (readProp session "description")
    as [[| b | n | description | l | p]|] eqn:Ed; try discriminate.
  apply andb_true_iff in H as [Htrack Hspeakers].
  cbn [bind callToLowerCase].
  rewrite (speakerNames_returns _ Hspeakers).
  replace (stringField session "title") with title
    by (unfold stringField; now rewrite Et).
  replace (stringField session "description") with description
    by (unfold stringField; now rewrite Ed).
  destruct (readProp session "track") as [[| b | n | track | l | p]|] eqn:Etr;
    try discriminate.
  - replace (stringField session "track") with ""
      by (unfold stringField; now rewrite Etr).
    reflexivity.
  - replace (stringField session "track") with track
      by (unfold stringField; now rewrite Etr).
    cbn [truthy].
    destruct (track =? "") eqn:E; cbn [negb bind callToLowerCase];
      [apply String.eqb_eq in E; subst|]; reflexivity.
  - replace (stringField session "track") with ""
      by (unfold stringField; now rewrite Etr).
    reflexivity.
Qed.

Lemma createSearchIndex_returns (sessions : list value) :
  forallb isSession sessions = true ->
  createSearchIndex toLowerCase sessions
  = Return (map (indexedSession toLowerCase) sessions).
Proof.
  intros H. apply mapM_returns. intros session Hin.
  rewrite forallb_forall in H.
  now rewrite (searchTextOf_returns _ (H _ Hin)).
Qed.

End IndexFacts.

Lemma assoc_setProp_same (k : string) (v : value) (props : list (string * value)) :
  assoc k (setProp k v props) = Some v.
Proof.
  induction props as [| [k' v'] props IH]; cbn [setProp assoc].
  - now rewrite String.eqb_refl.
  - destruct (k' =? k) eqn:E; cbn [assoc]; [now rewrite String.eqb_refl|].
    now rewrite E.
Qed.

Lemma assoc_setProp_other (k k0 : string) (v : value) (props : list (string * value)) :
  k0 <> k -> assoc k0 (setProp k v props) = assoc k0 props.
Proof.
  intros Hne. induction props as [| [k' v'] props IH]; cbn [setProp assoc].
  - destruct (k =? k0) eqn:E; [|reflexivity].
    apply String.eqb_eq in E. now subst.
  - destruct (k' =? k) eqn:E; cbn [assoc].
    + apply String.eqb_eq in E. subst k'.
      destruct (k =? k0) eqn:E'; [|reflexivity].
      apply String.eqb_eq in E'. now subst.
    + now rewrite IH.
Qed.

Lemma prefix_append (p s : string) : String.prefix p (p ++ s) = true.
Proof.
  induction p as [| c p IH]; cbn [String.prefix append].
  - now destruct s.
  - destruct (ascii_dec c c); [exact IH | contradiction].
Qed.

Lemma str_includes_prefix (p s : string) : str_includes (p ++ s) p = true.
Proof.
  destruct (p ++ s) eqn:E; cbn [str_includes]; rewrite <- E, prefix_append;
    reflexivity.
Qed.

(** C4.  On a list of sessions of the data model, [createSearchIndex]
    returns a list of the same length, element by element the session
    with its [searchText] set: the other properties are the session's
    own, and the text is the lower-cased title, description, track (empty
    when absent) and the space-joined lower-cased speaker names (empty
    when there are none), joined by spaces, so it contains the
    lower-cased title. *)
Theorem createSearchIndex_builds_index :
  forall (toLowerCase : string -> string) (sessions : list value),
    forallb isSession sessions = true ->
    exists index,
      createSearchIndex toLowerCase sessions = Return index /\
      List.length index = List.length sessions /\
      index = map (indexedSession toLowerCase) sessions /\
      forall session, In session sessions ->
        readProp (indexedSession toLowerCase session) "searchText"
          = Some (VStr (specSearchText toLowerCase session)) /\
        (forall k, k <> "searchText" ->
           readProp (indexedSession toLowerCase session) k = readProp session k) /\
        str_includes (specSearchText toLowerCase session)
                     (toLowerCase (stringField session "title")) = true.
Proof.
  intros toLowerCase sessions H.
  exists (map (indexedSession toLowerCase) sessions).
  split; [now apply createSearchIndex_returns|].
  split; [apply length_map|].
  split; [reflexivity|].
  intros session Hin. rewrite forallb_forall in H.
  destruct (isSession_object _ (H _ Hin)) as [props ->].
  unfold indexedSession. cbn [readProp spread]. repeat split.
  - apply assoc_setProp_same.
  - intros k Hk. now apply assoc_setProp_other.
  - unfold specSearchText. apply str_includes_prefix.
Qed.

Lemma createSearchIndex_builds_index_witness :
  exists index,
    createSearchIndex lowerAscii [sessionA; sessionB] = Return index /\
    List.length index = 2%nat /\
    index = map (indexedSession lowerAscii) [sessionA; sessionB].
Proof.
  destruct (createSearchIndex_builds_index lowerAscii [sessionA; sessionB] eq_refl)
    as [index [H1 [H2 [H3 _]]]].
  exists index. repeat split; assumption.
Defined.

Example createSearchIndex_sample :
  createSearchIndex lowerAscii [sessionB]
  = Return [VObj [("id", VStr "b2"); ("title", VStr "Lunch");
                  ("description", VStr "Food Court");
                  ("slot_start", VNum 86400000); ("slot_end", VNum 90000000);
                  ("searchText", VStr "lunch food court  ")]].
Proof. reflexivity. Qed.

Lemma prefix_exists (p s : string) :
  String.prefix p s = true <-> exists post, s = p ++ post.
Proof.
  split.
  - revert s. induction p as [| c p IH]; intros s H.
    + now exists s.
    + destruct s as [| d s]; cbn [String.prefix] in H; [discriminate|].
      destruct (ascii_dec c d) as [->|]; [|discriminate].
      destruct (IH _ H) as [post ->]. now exists post.
  - intros [post ->]. apply prefix_append.
Qed.

(** [str_includes] is the substring test. *)
Lemma str_includes_exists (s needle : string) :
  str_includes s needle = true <-> exists pre post, s = pre ++ needle ++ post.
Proof.
  split.
  - induction s as [| c s IH]; cbn [str_includes]; intros H;
      apply orb_true_iff in H as [H | H]; try discriminate.
    + destruct needle; [now exists "", "" | discriminate].
    + apply prefix_exists in H as [post Hpost]. exists "", post. exact Hpost.
    + destruct (IH H) as [pre [post ->]]. now exists (String c pre), post.
  - intros [pre [post ->]]. induction pre as [| c pre IH].
    + exact (str_includes_prefix needle post).
    + cbn [append str_includes]. rewrite IH. apply orb_true_r.
Qed.

(** ** The filter pipeline *)

Lemma subsequence_refl {A : Type} (xs : list A) : subsequence xs xs.
Proof.
  induction xs as [| x xs IH]; [apply subsequence_nil | now apply subsequence_keep].
Qed.

Lemma subsequence_trans {A : Type} (xs ys zs : list A) :
  subsequence xs ys -> subsequence ys zs -> subsequence xs zs.
Proof.
  intros Hxy Hyz. revert xs Hxy.
  induction Hyz as [| z ys zs Hyz IH | z ys zs Hyz IH]; intros xs Hxy.
  - exact Hxy.
  - apply subsequence_skip. now apply IH.
  - inversion Hxy; subst.
    + apply subsequence_skip. now apply IH.
    + apply subsequence_keep. now apply IH.
Qed.

Lemma subsequence_filter {A : Type} (p : A -> bool) (xs : list A) :
  subsequence (filter p xs) xs.
Proof.
  induction xs as [| x xs IH]; cbn [filter]; [apply subsequence_nil|].
  destruct (p x); [now apply subsequence_keep | now apply subsequence_skip].
Qed.

Lemma subsequence_In {A : Type} (xs ys : list A) :
  subsequence xs ys -> forall x, In x xs -> In x ys.
Proof.
  induction 1 as [| y xs ys H IH | y xs ys H IH]; intros x Hx.
  - exact Hx.
  - right. now apply IH.
  - destruct Hx as [-> | Hx]; [now left | right; now apply IH].
Qed.

Lemma hasSearchText_notNull (v : value) : hasSearchText v = true -> notNull v = true.
Proof. now destruct v. Qed.

Section PipelineFacts.

Variable toLowerCase : string -> string.
Variable dateTime : jsval -> option Z.
Variable formatDay : Z -> string.

Lemma matchesSearch_returns (term : string) (session : value) :
  hasSearchText session = true ->
  matchesSearch (toLowerCase term) session
  = Return (searchMatches toLowerCase term session).
Proof.
  intros H. unfold matchesSearch, searchMatches, stringField.
  rewrite (getProp_notNull _ _ (hasSearchText_notNull _ H)).
  unfold hasSearchText in H.
  destruct (readProp session "searchText") as [[| b | n | s | l | p]|];
    try discriminate. reflexivity.
Qed.

Lemma matchesDay_returns (selected : string) (session : value) :
  notNull session = true ->
  matchesDay dateTime formatDay selected session
  = Return (dayMatches dateTime formatDay selected session).
Proof.
  intros H. unfold matchesDay, dayOf. now rewrite (getProp_notNull _ _ H).
Qed.

Lemma matchesTrack_returns (selected : jsval) (session : value) :
  notNull session = true ->
  matchesTrack selected session = Return (trackMatches selected session).
Proof.
  intros H. unfold matchesTrack. now rewrite (getProp_notNull _ _ H).
Qed.

Lemma matchesRoom_returns (selected : jsval) (session : value) :
  notNull session = true ->
  matchesRoom selected session = Return (roomMatches selected session).
Proof.
  intros H. unfold matchesRoom. now rewrite (getProp_notNull _ _ H).
Qed.

(** Each conditional filter of the code is its stage. *)
Lemma search_step (st : State) (xs : list value) :
  forallb hasSearchText xs = true ->
  (if truthy (Some (VStr (searchTerm st))) then
     filterM (matchesSearch (toLowerCase (searchTerm st))) xs
   else Return xs)
  = Return (searchStage toLowerCase st xs).
Proof.
  intros H. unfold searchStage. cbn [truthy].
  destruct (searchTerm st =? ""); cbn [negb]; [reflexivity|].
  apply filterM_returns. intros x Hx. apply matchesSearch_returns.
  rewrite forallb_forall in H. now apply H.
Qed.

Lemma day_step (st : State) (xs : list value) :
  forallb notNull xs = true ->
  (if negb (selectedDay st =? "all") then
     filterM (matchesDay dateTime formatDay (selectedDay st)) xs
   else Return xs)
  = Return (dayStage dateTime formatDay st xs).
Proof.
  intros H. unfold dayStage.
  destruct (selectedDay st =? "all"); cbn [negb]; [reflexivity|].
  apply filterM_returns. intros x Hx. apply matchesDay_returns.
  rewrite forallb_forall in H. now apply H.
Qed.

Lemma track_step (st : State) (xs : list value) :
  forallb notNull xs = true ->
  (if negb (strictEquals (selectedTrack st) all) then
     filterM (matchesTrack (selectedTrack st)) xs
   else Return xs)
  = Return (trackStage st xs).
Proof.
  intros H. unfold trackStage.
  destruct (strictEquals (selectedTrack st) all); cbn [negb]; [reflexivity|].
  apply filterM_returns. intros x Hx. apply matchesTrack_returns.
  rewrite forallb_forall in H. now apply H.
Qed.

Lemma room_step (st : State) (xs : list value) :
  forallb notNull xs = true ->
  (if negb (strictEquals (selectedRoom st) all) then
     filterM (matchesRoom (selectedRoom st)) xs
   else Return xs)
  = Return (roomStage st xs).
Proof.
  intros H. unfold roomStage.
  destruct (strictEquals (selectedRoom st) all); cbn [negb]; [reflexivity|].
  apply filterM_returns. intros x Hx. apply matchesRoom_returns.
  rewrite forallb_forall in H. now apply H.
Qed.

(** Each stage keeps a subsequence of its input. *)
Lemma searchStage_narrows (st : State) (xs : list value) :
  subsequence (searchStage toLowerCase st xs) xs.
Proof.
  unfold searchStage.
  destruct (searchTerm st =? ""); [apply subsequence_refl | apply subsequence_filter].
Qed.

Lemma dayStage_narrows (st : State) (xs : list value) :
  subsequence (dayStage dateTime formatDay st xs) xs.
Proof.
  unfold dayStage.
  destruct (selectedDay st =? "all"); [apply subsequence_refl | apply subsequence_filter].
Qed.

Lemma trackStage_narrows (st : State) (xs : list value) :
  subsequence (trackStage st xs) xs.
Proof.
  unfold trackStage.
  destruct (strictEquals _ _); [apply subsequence_refl | apply subsequence_filter].
Qed.

Lemma roomStage_narrows (st : State) (xs : list value) :
  subsequence (roomStage st xs) xs.
Proof.
  unfold roomStage.
  destruct (strictEquals _ _); [apply subsequence_refl | apply subsequence_filter].
Qed.

Lemma subsequence_notNull (xs ys : list value) :
  subsequence xs ys -> forallb notNull ys = true -> forallb notNull xs = true.
Proof.
  intros Hsub H. rewrite forallb_forall in *. intros x Hx.
  apply H. now apply (subsequence_In _ _ Hsub).
Qed.

Lemma hasSearchText_all_notNull (xs : list value) :
  forallb hasSearchText xs = true -> forallb notNull xs = true.
Proof.
  intros H. rewrite forallb_forall in *. intros x Hx.
  apply hasSearchText_notNull. now apply H.
Qed.

Lemma filterPipeline_returns (st : State) :
  forallb hasSearchText (searchIndex st) = true ->
  filterPipeline toLowerCase dateTime formatDay st
  = Return (roomStage st
              (trackStage st
                 (dayStage dateTime formatDay st
                    (searchStage toLowerCase st (searchIndex st))))).
Proof.
  intros H. unfold filterPipeline.
  pose proof (hasSearchText_all_notNull _ H) as Hnn.
  rewrite (search_step st _ H). cbn [bind].
  pose proof (subsequence_notNull _ _ (searchStage_narrows st _) Hnn) as H1.
  rewrite (day_step st _ H1). cbn [bind].
  pose proof (subsequence_notNull _ _ (dayStage_narrows st _) H1) as H2.
  rewrite (track_step st _ H2). cbn [bind].
  pose proof (subsequence_notNull _ _ (trackStage_narrows st _) H2) as H3.
  apply (room_step st _ H3).
Qed.

(** With every filter at its default no predicate runs at all. *)
Lemma filterPipeline_default (st : State) :
  searchTerm st = "" -> selectedDay st = "all" ->
  selectedTrack st = all -> selectedRoom st = all ->
  filterPipeline toLowerCase dateTime formatDay st = Return (searchIndex st).
Proof.
  intros Hs Hd Ht Hr. unfold filterPipeline. now rewrite Hs, Hd, Ht, Hr.
Qed.

End PipelineFacts.

(** C3.  On a search index (objects with a string [searchText]) and any
    filter state, [filterSessions] stores the result of the search, day,
    track and room stages applied in that order, each to the output of
    the one before; each stage keeps a subsequence of its input, so the
    result keeps the order of the index; a stage whose field is at its
    default (empty term, ["all"]) returns its input; with all four at
    their defaults the result is the index itself. *)
Theorem filterSessions_is_ordered_pipeline :
  forall (toLowerCase : string -> string) (dateTime : jsval -> option Z)
         (formatDay : Z -> string) (st : State),
    forallb hasSearchText (searchIndex st) = true ->
    let result :=
      roomStage st
        (trackStage st
           (dayStage dateTime formatDay st
              (searchStage toLowerCase st (searchIndex st)))) in
    filterSessions toLowerCase dateTime formatDay st
      = Return (setFilteredSessions result st) /\
    subsequence result (searchIndex st) /\
    (forall xs, subsequence (searchStage toLowerCase st xs) xs /\
                subsequence (dayStage dateTime formatDay st xs) xs /\
                subsequence (trackStage st xs) xs /\
                subsequence (roomStage st xs) xs) /\
    (forall xs,
       (searchTerm st = "" -> searchStage toLowerCase st xs = xs) /\
       (selectedDay st = "all" -> dayStage dateTime formatDay st xs = xs) /\
       (selectedTrack st = all -> trackStage st xs = xs) /\
       (selectedRoom st = all -> roomStage st xs = xs)) /\
    (searchTerm st = "" -> selectedDay st = "all" ->
     selectedTrack st = all -> selectedRoom st = all ->
     result = searchIndex st).
Proof.
  intros toLowerCase dateTime formatDay st H result. subst result.
  split.
  { unfold filterSessions. now rewrite (filterPipeline_returns _ _ _ _ H). }
  split.
  { eapply subsequence_trans; [apply roomStage_narrows|].
    eapply subsequence_trans; [apply trackStage_narrows|].
    eapply subsequence_trans; [apply dayStage_narrows|].
    apply searchStage_narrows. }
  split.
  { intros xs. repeat split.
    - apply searchStage_narrows.
    - apply dayStage_narrows.
    - apply trackStage_narrows.
    - apply roomStage_narrows. }
  split.
  { intros xs. unfold searchStage, dayStage, trackStage, roomStage.
    repeat split; intros ->; reflexivity. }
  intros Hs Hd Ht Hr.
  unfold searchStage, dayStage, trackStage, roomStage.
  now rewrite Hs, Hd, Ht, Hr.
Qed.

Lemma filterSessions_is_ordered_pipeline_witness :
  filterSessions lowerAscii epochMillis utcDay coreTrackState
  = Return (setFilteredSessions [indexedSession lowerAscii sessionA] coreTrackState).
Proof.
  pose proof (filterSessions_is_ordered_pipeline lowerAscii epochMillis utcDay
                coreTrackState eq_refl) as H.
  cbv zeta in H. apply H.
Defined.

(** ** Sorting by start *)

Section SortFacts.

Variable dateTime : jsval -> option Z.

Local Abbreviation cmp := (compareStart dateTime).

Lemma insertSorted_perm (x : value) (xs : list value) :
  Permutation (insertSorted cmp x xs) (x :: xs).
Proof.
  induction xs as [| y xs IH]; cbn [insertSorted]; [apply Permutation_refl|].
  destruct (comesAfter cmp x y); [|apply Permutation_refl].
  eapply Permutation_trans; [apply perm_skip, IH | apply perm_swap].
Qed.

Lemma sortBy_perm (xs : list value) : Permutation (sortBy cmp xs) xs.
Proof.
  induction xs as [| x xs IH]; cbn [sortBy fold_right]; [apply perm_nil|].
  eapply Permutation_trans; [apply insertSorted_perm|]. now apply perm_skip.
Qed.

(** What the comparator says about two sessions with valid starts. *)
Lemma comesAfter_true (x y : value) :
  comesAfter cmp x y = true ->
  exists a b, startOf dateTime x = Some a /\ startOf dateTime y = Some b /\
              (b < a)%Z.
Proof.
  unfold comesAfter, compareStart.
  destruct (startOf dateTime x) as [a|], (startOf dateTime y) as [b|];
    try discriminate.
  intros H. apply Z.ltb_lt in H. exists a, b. repeat split. lia.
Qed.

Lemma comesAfter_false (x y : value) :
  hasStart dateTime x = true -> hasStart dateTime y = true ->
  comesAfter cmp x y = false -> startsNoLater dateTime x y.
Proof.
  unfold hasStart, comesAfter, compareStart, startsNoLater.
  intros Hx Hy. apply andb_true_iff in Hx as [_ Hx], Hy as [_ Hy].
  destruct (startOf dateTime x) as [a|], (startOf dateTime y) as [b|];
    try discriminate.
  intros H. apply Z.ltb_ge in H. lia.
Qed.

Lemma startsNoLater_of_earlier (x y : value) :
  comesAfter cmp x y = true -> startsNoLater dateTime y x.
Proof.
  intros H. destruct (comesAfter_true _ _ H) as [a [b [Ha [Hb Hlt]]]].
  unfold startsNoLater. rewrite Ha, Hb. lia.
Qed.

Lemma insertSorted_HdRel (y x : value) (xs : list value) :
  startsNoLater dateTime y x ->
  HdRel (startsNoLater dateTime) y xs ->
  HdRel (startsNoLater dateTime) y (insertSorted cmp x xs).
Proof.
  intros Hyx Hhd. destruct xs as [| z xs]; cbn [insertSorted].
  - now constructor.
  - destruct (comesAfter cmp x z); constructor; [|assumption].
    now inversion Hhd.
Qed.

Lemma insertSorted_sorted (x : value) (xs : list value) :
  hasStart dateTime x = true -> forallb (hasStart dateTime) xs = true ->
  Sorted (startsNoLater dateTime) xs ->
  Sorted (startsNoLater dateTime) (insertSorted cmp x xs).
Proof.
  intros Hx Hxs Hsorted.
  induction xs as [| y xs IH]; cbn [insertSorted].
  - repeat constructor.
  - cbn [forallb] in Hxs. apply andb_true_iff in Hxs as [Hy Hxs].
    inversion Hsorted as [| ? ? Hrest Hhd]; subst.
    destruct (comesAfter cmp x y) eqn:E.
    + constructor; [now apply IH|].
      apply insertSorted_HdRel; [now apply startsNoLater_of_earlier | assumption].
    + constructor; [assumption|]. constructor.
      now apply comesAfter_false.
Qed.

Lemma insertSorted_hasStart (x : value) (xs : list value) :
  hasStart dateTime x = true -> forallb (hasStart dateTime) xs = true ->
  forallb (hasStart dateTime) (insertSorted cmp x xs) = true.
Proof.
  intros Hx Hxs. rewrite forallb_forall in *. intros z Hz.
  apply (Permutation_in _ (insertSorted_perm x xs)) in Hz.
  destruct Hz as [<- | Hz]; [assumption | now apply Hxs].
Qed.

(** On valid starts the sort orders ascending by start. *)
Lemma sortBy_sorted (xs : list value) :
  forallb (hasStart dateTime) xs = true ->
  Sorted (startsNoLater dateTime) (sortBy cmp xs) /\
  forallb (hasStart dateTime) (sortBy cmp xs) = true.
Proof.
  induction xs as [| x xs IH]; cbn [sortBy fold_right forallb]; intros H.
  - split; [constructor | reflexivity].
  - apply andb_true_iff in H as [Hx Hxs]. destruct (IH Hxs) as [Hs Hv].
    split; [now apply insertSorted_sorted | now apply insertSorted_hasStart].
Qed.

Lemma startsAt_exclusive (t : Z) (x y : value) :
  comesAfter cmp x y = true ->
  startsAt dateTime t x && startsAt dateTime t y = false.
Proof.
  intros H. destruct (comesAfter_true _ _ H) as [a [b [Ha [Hb Hlt]]]].
  unfold startsAt. rewrite Ha, Hb.
  destruct (a =? t)%Z eqn:E1, (b =? t)%Z eqn:E2; try reflexivity.
  apply Z.eqb_eq in E1, E2. lia.
Qed.

Lemma insertSorted_stable (t : Z) (x : value) (xs : list value) :
  filter (startsAt dateTime t) (insertSorted cmp x xs)
  = filter (startsAt dateTime t) (x :: xs).
Proof.
  induction xs as [| y xs IH]; cbn [insertSorted]; [reflexivity|].
  destruct (comesAfter cmp x y) eqn:E; [|reflexivity].
  pose proof (startsAt_exclusive t _ _ E) as Hex.
  cbn [filter] in *. rewrite IH.
  destruct (startsAt dateTime t x), (startsAt dateTime t y);
    try reflexivity. discriminate.
Qed.

(** The sort is stable: the sessions that start at a given time keep
    their order, whatever the other starts are. *)
Lemma sortBy_stable (t : Z) (xs : list value) :
  filter (startsAt dateTime t) (sortBy cmp xs) = filter (startsAt dateTime t) xs.
Proof.
  induction xs as [| x xs IH]; cbn [sortBy fold_right]; [reflexivity|].
  rewrite insertSorted_stable. cbn [filter]. fold (sortBy cmp xs).
  now rewrite IH.
Qed.

End SortFacts.

(** ** Grouping by day *)

Lemma forEachM_returns {A S : Type} (body : S -> A -> outcome S) (g : S -> A -> S)
    (xs : list A) :
  (forall x, In x xs -> forall s, body s x = Return (g s x)) ->
  forall s, forEachM body xs s = Return (fold_left g xs s).
Proof.
  induction xs as [| x xs IH]; intros H s; cbn [forEachM fold_left]; [reflexivity|].
  rewrite (H x (or_introl eq_refl)). cbn [bind].
  apply IH. intros y Hy. apply H. now right.
Qed.

Lemma pushSession_keys (day : string) (session : value)
    (buckets : list (string * list value)) :
  (In day (map fst buckets) /\
   map fst (pushSession day session buckets) = map fst buckets) \/
  (~ In day (map fst buckets) /\
   map fst (pushSession day session buckets) = (map fst buckets ++ [day])%list).
Proof.
  induction buckets as [| [d b] rest IH]; cbn [pushSession map fst].
  - right. split; [intros [] | reflexivity].
  - destruct (d =? day) eqn:E.
    + apply String.eqb_eq in E. subst d. left. split; [now left | reflexivity].
    + apply String.eqb_neq in E. destruct IH as [[Hin Hk] | [Hout Hk]].
      * left. split; [now right|]. cbn [map fst]. now rewrite Hk.
      * right. split; [intros [?|?]; contradiction|].
        cbn [map fst app]. now rewrite Hk.
Qed.

Lemma pushSession_entries (day : string) (session : value)
    (buckets : list (string * list value)) (d : string) (b : list value) :
  NoDup (map fst buckets) ->
  In (d, b) (pushSession day session buckets) ->
  (d <> day /\ In (d, b) buckets) \/
  (d = day /\ exists b0, In (day, b0) buckets /\ b = (b0 ++ [session])%list) \/
  (d = day /\ ~ In day (map fst buckets) /\ b = [session]).
Proof.
  induction buckets as [| [d0 b0] rest IH]; cbn [pushSession map fst];
    intros Hnd Hin.
  - destruct Hin as [Heq | []]. inversion Heq; subst.
    right. right. repeat split. intros [].
  - inversion Hnd as [| ? ? Hnotin Hnd']; subst.
    destruct (d0 =? day) eqn:E.
    + apply String.eqb_eq in E. subst d0.
      destruct Hin as [Heq | Hin].
      * inversion Heq; subst. right. left. split; [reflexivity|].
        exists b0. split; [now left | reflexivity].
      * left. split; [|now right].
        intros ->. apply Hnotin. now apply (in_map fst) in Hin.
    + apply String.eqb_neq in E.
      destruct Hin as [Heq | Hin].
      * inversion Heq; subst. left. split; [assumption | now left].
      * destruct (IH Hnd' Hin) as [[Hne H1] | [[-> [b1 [H1 H2]]] | [-> [H1 H2]]]].
        -- left. split; [assumption | now right].
        -- right. left. split; [reflexivity|]. exists b1. split; [now right | assumption].
        -- right. right. repeat split; [|assumption].
           intros [?|?]; [congruence | contradiction].
Qed.

Section GroupFacts.

Variable dateTime : jsval -> option Z.
Variable formatDay : Z -> string.

Local Abbreviation label := (dayLabelOf dateTime formatDay).
Local Abbreviation push :=
  (fun buckets session => pushSession (label session) session buckets).

Lemma onDay_app (d : string) (xs ys : list value) :
  onDay dateTime formatDay d (xs ++ ys)
  = (onDay dateTime formatDay d xs ++ onDay dateTime formatDay d ys)%list.
Proof. apply filter_app. Qed.

Lemma onDay_nil (d : string) (xs : list value) :
  (forall s, In s xs -> label s <> d) -> onDay dateTime formatDay d xs = [].
Proof.
  intros H. unfold onDay.
  induction xs as [| x xs IH]; cbn [filter]; [reflexivity|].
  destruct (label x =? d) eqn:E.
  - apply String.eqb_eq in E. exfalso. apply (H x); [now left | assumption].
  - apply IH. intros s Hs. apply H. now right.
Qed.

Lemma bucketsHold_push (processed : list value)
    (buckets : list (string * list value)) (session : value) :
  bucketsHold dateTime formatDay processed buckets ->
  bucketsHold dateTime formatDay (processed ++ [session]) (push buckets session).
Proof.
  intros [Hnd [Hent Hcov]].
  pose proof (pushSession_keys (label session) session buckets) as Hkeys.
  repeat split.
  - destruct Hkeys as [[_ ->] | [Hout ->]]; [assumption|].
    apply NoDup_app; repeat split; try assumption.
    + repeat constructor. intros [].
    + intros a Ha [<- | []]. contradiction.
  - intros d b Hin. rewrite onDay_app.
    destruct (pushSession_entries _ _ _ _ _ Hnd Hin)
      as [[Hne H1] | [[-> [b1 [H1 ->]]] | [-> [H1 ->]]]].
    + rewrite <- (Hent _ _ H1). unfold onDay. cbn [filter].
      apply String.eqb_neq in Hne. rewrite String.eqb_sym in Hne.
      rewrite Hne. now rewrite app_nil_r.
    + rewrite <- (Hent _ _ H1). unfold onDay. cbn [filter].
      now rewrite String.eqb_refl.
    + rewrite onDay_nil.
      * unfold onDay. cbn [filter app]. now rewrite String.eqb_refl.
      * intros s Hs Heq. apply H1. rewrite <- Heq. now apply Hcov.
  - intros s Hs. apply in_app_or in Hs.
    destruct Hkeys as [[Hin ->] | [Hout ->]].
    + destruct Hs as [Hs | [<- | []]]; [now apply Hcov | assumption].
    + apply in_or_app.
      destruct Hs as [Hs | [<- | []]]; [left; now apply Hcov | right; now left].
Qed.

Lemma bucketsHold_fold (xs processed : list value)
    (buckets : list (string * list value)) :
  bucketsHold dateTime formatDay processed buckets ->
  bucketsHold dateTime formatDay (processed ++ xs) (fold_left push xs buckets).
Proof.
  revert processed buckets.
  induction xs as [| x xs IH]; intros processed buckets H; cbn [fold_left].
  - now rewrite app_nil_r.
  - replace (processed ++ x :: xs)%list with ((processed ++ [x]) ++ xs)%list
      by (now rewrite <- app_assoc).
    apply IH. now apply bucketsHold_push.
Qed.

Lemma bucketsHold_start : bucketsHold dateTime formatDay [] [].
Proof.
  repeat split; cbn; try constructor; intros; contradiction.
Qed.

(** The loop on values that are not [null]. *)
Lemma groupStep_returns (now : Z) (acc : Grouped) (session : value) :
  notNull session = true ->
  groupStep dateTime formatDay now acc session
  = Return (groupStepOf dateTime formatDay now acc session).
Proof.
  intros H. unfold groupStep. now rewrite !(getProp_notNull _ _ H).
Qed.

Lemma fold_groupStepOf_grouped (now : Z) (xs : list value) (acc : Grouped) :
  grouped (fold_left (groupStepOf dateTime formatDay now) xs acc)
  = fold_left push xs (grouped acc).
Proof.
  revert acc. induction xs as [| x xs IH]; intros acc; cbn [fold_left];
    [reflexivity|]. now rewrite IH.
Qed.

Lemma fold_groupStepOf_flag (now : Z) (xs : list value) (acc : Grouped) :
  hasCurrentSession (fold_left (groupStepOf dateTime formatDay now) xs acc)
  = hasCurrentSession acc
    || existsb (fun s => isCurrentSession now (startOf dateTime s)
                                          (endOf dateTime s)) xs.
Proof.
  revert acc. induction xs as [| x xs IH]; intros acc; cbn [fold_left existsb].
  - now rewrite orb_false_r.
  - rewrite IH. cbn [groupStepOf hasCurrentSession].
    destruct (isCurrentSession now _ _); cbn [orb];
      [now rewrite orb_true_r | reflexivity].
Qed.

Lemma isCurrentSession_live (now : Z) (session : value) :
  isCurrentSession now (startOf dateTime session) (endOf dateTime session) = true
  <-> live dateTime now session.
Proof.
  unfold isCurrentSession, live. split.
  - destruct (startOf dateTime session) as [s|]; [|discriminate].
    destruct (endOf dateTime session) as [e|];
      [|now rewrite andb_false_r].
    intros H. apply andb_true_iff in H as [H1 H2].
    apply Z.leb_le in H1. apply Z.geb_le in H2.
    exists s, e. repeat split; lia.
  - intros [s [e [-> [-> [H1 H2]]]]].
    apply andb_true_iff. split; [now apply Z.leb_le | now apply Z.geb_le].
Qed.

Lemma groupedSessions_returns (now : Z) (st : State) (toGroup : list value) :
  sessionsToGroup st = Return toGroup ->
  forallb notNull toGroup = true ->
  groupedSessions dateTime formatDay now st
  = Return
      (mkGrouped
         (map (fun entry => (fst entry, sortBy (compareStart dateTime) (snd entry)))
              (fold_left push toGroup []))
         (existsb (fun s => isCurrentSession now (startOf dateTime s)
                                             (endOf dateTime s)) toGroup)).
Proof.
  intros Hsrc Hnn. unfold groupedSessions. rewrite Hsrc. cbn [bind].
  rewrite (forEachM_returns _ (groupStepOf dateTime formatDay now)).
  - cbn [bind]. rewrite fold_groupStepOf_grouped, fold_groupStepOf_flag.
    reflexivity.
  - intros x Hx acc. apply groupStep_returns.
    rewrite forallb_forall in Hnn. now apply Hnn.
Qed.

Lemma grouped_bucket (toGroup : list value) (day : string) (bucket : list value) :
  In (day, bucket)
     (map (fun entry => (fst entry, sortBy (compareStart dateTime) (snd entry)))
          (fold_left push toGroup [])) ->
  bucket = sortBy (compareStart dateTime) (onDay dateTime formatDay day toGroup).
Proof.
  intros Hin. apply in_map_iff in Hin as [[d b] [Heq Hin]].
  cbn [fst snd] in Heq. inversion Heq; subst.
  destruct (bucketsHold_fold toGroup [] [] bucketsHold_start) as [_ [Hent _]].
  cbn [app] in Hent. now rewrite (Hent _ _ Hin).
Qed.

End GroupFacts.

Lemma hasStart_all_notNull (dateTime : jsval -> option Z) (xs : list value) :
  forallb (hasStart dateTime) xs = true -> forallb notNull xs = true.
Proof.
  intros H. rewrite forallb_forall in *. intros x Hx.
  specialize (H x Hx). unfold hasStart in H.
  now apply andb_true_iff in H as [H _].
Qed.

Lemma onDay_hasStart (dateTime : jsval -> option Z) (formatDay : Z -> string)
    (day : string) (xs : list value) :
  forallb (hasStart dateTime) xs = true ->
  forallb (hasStart dateTime) (onDay dateTime formatDay day xs) = true.
Proof.
  intros H. rewrite forallb_forall in *. intros x Hx.
  apply H. unfold onDay in Hx. now apply filter_In in Hx as [Hx _].
Qed.

(** C5.  When every session handed to the grouping has a valid start,
    [groupedSessions] returns, and each day bucket of its result is the
    sessions of that day sorted ascending by start: adjacent sessions
    [a], [b] satisfy [a.slot_start <= b.slot_start], the bucket is a
    permutation of the day's sessions, and the sessions that start at
    the same time are in the order they have in the input. *)
Theorem buckets_sorted_and_stable :
  forall (dateTime : jsval -> option Z) (formatDay : Z -> string)
         (now : Z) (st : State) (toGroup : list value),
    sessionsToGroup st = Return toGroup ->
    forallb (hasStart dateTime) toGroup = true ->
    exists result,
      groupedSessions dateTime formatDay now st = Return result /\
      forall day bucket, In (day, bucket) (grouped result) ->
        Sorted (startsNoLater dateTime) bucket /\
        Permutation bucket (onDay dateTime formatDay day toGroup) /\
        forall t, filter (startsAt dateTime t) bucket
                  = filter (startsAt dateTime t)
                           (onDay dateTime formatDay day toGroup).
Proof.
  intros dateTime formatDay now st toGroup Hsrc Hvalid.
  eexists. split.
  - apply (groupedSessions_returns _ _ _ _ _ Hsrc (hasStart_all_notNull _ _ Hvalid)).
  - cbn [grouped]. intros day bucket Hin.
    rewrite (grouped_bucket _ _ _ _ _ Hin).
    repeat split.
    + apply sortBy_sorted. now apply onDay_hasStart.
    + apply sortBy_perm.
    + intros t. apply sortBy_stable.
Qed.

Lemma buckets_sorted_and_stable_witness :
  exists result,
    groupedSessions epochMillis utcDay 91000000 scheduleState = Return result /\
    forall day bucket, In (day, bucket) (grouped result) ->
      Sorted (startsNoLater epochMillis) bucket /\
      Permutation bucket (onDay epochMillis utcDay day [sessionA; sessionB; sessionC]) /\
      forall t, filter (startsAt epochMillis t) bucket
                = filter (startsAt epochMillis t)
                         (onDay epochMillis utcDay day [sessionA; sessionB; sessionC]).
Proof.
  exact (buckets_sorted_and_stable epochMillis utcDay 91000000 scheduleState
           [sessionA; sessionB; sessionC] eq_refl eq_refl).
Defined.

(** The three sample sessions fall on one day; the one that starts first
    moves to the front and the two that start together keep their order. *)
Example groupedSessions_sample :
  groupedSessions epochMillis utcDay 91000000 scheduleState
  = Return (mkGrouped [("day 1", [sessionB; sessionA; sessionC])] true).
Proof. reflexivity. Qed.

(** C6.  [hasCurrentSession] of the result is true exactly when some
    session handed to the grouping has valid start and end dates with
    [slot_start <= now <= slot_end], [now] being the time taken when the
    grouping runs. *)
Theorem hasCurrentSession_iff_live :
  forall (dateTime : jsval -> option Z) (formatDay : Z -> string)
         (now : Z) (st : State) (toGroup : list value),
    sessionsToGroup st = Return toGroup ->
    forallb notNull toGroup = true ->
    exists result,
      groupedSessions dateTime formatDay now st = Return result /\
      (hasCurrentSession result = true <->
       exists session, In session toGroup /\ live dateTime now session).
Proof.
  intros dateTime formatDay now st toGroup Hsrc Hnn.
  eexists. split.
  - apply (groupedSessions_returns _ _ _ _ _ Hsrc Hnn).
  - cbn [hasCurrentSession]. rewrite existsb_exists.
    split; intros [session [Hin H]]; exists session; (split; [assumption|]);
      now apply isCurrentSession_live.
Qed.

Lemma hasCurrentSession_iff_live_witness :
  exists result,
    groupedSessions epochMillis utcDay 91000000 scheduleState = Return result /\
    (hasCurrentSession result = true <->
     exists session, In session [sessionA; sessionB; sessionC] /\
                     live epochMillis 91000000 session).
Proof.
  exact (hasCurrentSession_iff_live epochMillis utcDay 91000000 scheduleState
           [sessionA; sessionB; sessionC] eq_refl eq_refl).
Defined.

(** ** Sessions without the optional fields *)

Lemma indexedSession_hasSearchText (toLowerCase : string -> string) (session : value) :
  hasSearchText (indexedSession toLowerCase session) = true.
Proof.
  unfold hasSearchText, indexedSession. cbn [readProp].
  now rewrite assoc_setProp_same.
Qed.

Lemma indexedSession_readProp (toLowerCase : string -> string) (session : value)
    (k : string) :
  isSession session = true -> k <> "searchText" ->
  readProp (indexedSession toLowerCase session) k = readProp session k.
Proof.
  intros H Hk. destruct (isSession_object _ H) as [props ->].
  unfold indexedSession. cbn [readProp spread]. now apply assoc_setProp_other.
Qed.

Lemma index_hasSearchText (toLowerCase : string -> string) (sessions : list value) :
  forallb hasSearchText (map (indexedSession toLowerCase) sessions) = true.
Proof.
  apply forallb_forall. intros x Hx. apply in_map_iff in Hx as [s [<- _]].
  apply indexedSession_hasSearchText.
Qed.

Lemma sessions_notNull (sessions : list value) :
  forallb isSession sessions = true -> forallb notNull sessions = true.
Proof.
  intros H. rewrite forallb_forall in *. intros x Hx.
  apply isSession_notNull. now apply H.
Qed.

Lemma sessionsToGroup_returns (st : State) :
  forallb notNull (sessions st) = true ->
  forallb notNull (filteredSessions st) = true ->
  exists toGroup,
    sessionsToGroup st = Return toGroup /\ forallb notNull toGroup = true.
Proof.
  intros Hs Hf. unfold sessionsToGroup.
  destruct (view st =? "schedule").
  - now exists (filteredSessions st).
  - eexists. split.
    + apply (filterM_returns _
               (fun session => arr_includes (bookmarkedSessions st)
                                            (readProp session "id"))).
      intros x Hx. rewrite forallb_forall in Hs.
      now rewrite (getProp_notNull _ _ (Hs _ Hx)).
    + rewrite forallb_forall in *. intros x Hx.
      apply Hs. now apply filter_In in Hx as [Hx _].
Qed.

Lemma filterSessions_returns (toLowerCase : string -> string)
    (dateTime : jsval -> option Z) (formatDay : Z -> string) (st : State) :
  forallb hasSearchText (searchIndex st) = true ->
  exists filtered,
    filterSessions toLowerCase dateTime formatDay st
      = Return (setFilteredSessions filtered st) /\
    subsequence filtered (searchIndex st).
Proof.
  intros H. eexists. split.
  - unfold filterSessions. now rewrite (filterPipeline_returns _ _ _ _ H).
  - eapply subsequence_trans; [apply roomStage_narrows|].
    eapply subsequence_trans; [apply trackStage_narrows|].
    eapply subsequence_trans; [apply dayStage_narrows|].
    apply searchStage_narrows.
Qed.

(** C9.  On sessions of the data model, in which [track], [slot_room],
    [speakers] and the resource links may each be absent, the index
    build, the filter pipeline and the grouping all return.  A session
    without [track] contributes the lower-cased empty string to its search
    text and matches no selected track; one without [speakers]
    contributes no speaker names; one without [slot_room] matches no
    selected room. *)
Theorem missing_optional_fields_default :
  forall (toLowerCase : string -> string) (dateTime : jsval -> option Z)
         (formatDay : Z -> string) (input : list value),
    forallb isSession input = true ->
    let index := map (indexedSession toLowerCase) input in
    createSearchIndex toLowerCase input = Return index /\
    (forall st, searchIndex st = index ->
       exists filtered,
         filterSessions toLowerCase dateTime formatDay st
           = Return (setFilteredSessions filtered st) /\
         subsequence filtered index) /\
    (forall now st,
       sessions st = input ->
       subsequence (filteredSessions st) index ->
       exists result, groupedSessions dateTime formatDay now st = Return result) /\
    (forall session, In session input ->
       (readProp session "track" = None ->
        searchTextOf toLowerCase session
          = Return (toLowerCase (stringField session "title") ++ " "
                    ++ toLowerCase (stringField session "description") ++ " "
                    ++ toLowerCase "" ++ " "
                    ++ String.concat " "
                         (map (fun s => toLowerCase (stringField s "name"))
                              (speakersOf session))) /\
        forall selected : string,
          matchesTrack (Some (VStr selected)) (indexedSession toLowerCase session)
            = Return false) /\
       (readProp session "speakers" = None ->
        searchTextOf toLowerCase session
          = Return (toLowerCase (stringField session "title") ++ " "
                    ++ toLowerCase (stringField session "description") ++ " "
                    ++ toLowerCase (stringField session "track") ++ " " ++ "")) /\
       (readProp session "slot_room" = None ->
        forall selected : string,
          matchesRoom (Some (VStr selected)) (indexedSession toLowerCase session)
            = Return false)).
Proof.
  intros toLowerCase dateTime formatDay input H index. subst index.
  pose proof (index_hasSearchText toLowerCase input) as Hidx.
  split; [now apply createSearchIndex_returns|].
  split.
  { intros st Hst. rewrite <- Hst in Hidx.
    destruct (filterSessions_returns toLowerCase dateTime formatDay st Hidx)
      as [filtered [Hret Hsub]].
    exists filtered. split; [exact Hret|]. now rewrite <- Hst. }
  split.
  { intros now st Hst Hsub.
    destruct (sessionsToGroup_returns st) as [toGroup [Hsrc Hnn]].
    - rewrite Hst. now apply sessions_notNull.
    - apply (subsequence_notNull _ _ Hsub).
      now apply hasSearchText_all_notNull.
    - eexists. apply (groupedSessions_returns _ _ _ _ _ Hsrc Hnn). }
  intros session Hin. rewrite forallb_forall in H. specialize (H _ Hin).
  pose proof (searchTextOf_returns toLowerCase _ H) as Htext.
  unfold specSearchText in Htext.
  split; [|split].
  - intros Htrack. split.
    + rewrite Htext. unfold stringField at 3. now rewrite Htrack.
    + intros selected.
      rewrite matchesTrack_returns
        by (apply hasSearchText_notNull, indexedSession_hasSearchText).
      unfold trackMatches.
      rewrite indexedSession_readProp by (assumption || discriminate).
      now rewrite Htrack.
  - intros Hsp. rewrite Htext. unfold speakersOf. now rewrite Hsp.
  - intros Hroom selected.
    rewrite matchesRoom_returns
      by (apply hasSearchText_notNull, indexedSession_hasSearchText).
    unfold roomMatches.
    rewrite indexedSession_readProp by (assumption || discriminate).
    now rewrite Hroom.
Qed.

Lemma missing_optional_fields_default_witness :
  createSearchIndex lowerAscii [sessionB]
    = Return [indexedSession lowerAscii sessionB] /\
  searchTextOf lowerAscii sessionB = Return "lunch food court  " /\
  matchesRoom (Some (VStr "Main Stage")) (indexedSession lowerAscii sessionB)
    = Return false.
Proof.
  pose proof (missing_optional_fields_default lowerAscii epochMillis utcDay
                [sessionB] eq_refl) as H.
  cbv zeta in H. destruct H as [Hindex [_ [_ Hdefaults]]].
  destruct (Hdefaults sessionB (or_introl eq_refl)) as [Htrack [_ Hroom]].
  split; [exact Hindex|]. split.
  - apply (Htrack eq_refl).
  - apply (Hroom eq_refl).
Defined.

(** ** [JSON.stringify] is injective *)

Lemma append_assoc (a b c : string) : (a ++ b) ++ c = a ++ (b ++ c).
Proof. induction a as [| x a IH]; cbn [append]; [reflexivity | now rewrite IH]. Qed.

Lemma append_nil_r (a : string) : a ++ "" = a.
Proof. induction a as [| x a IH]; cbn [append]; [reflexivity | now rewrite IH]. Qed.

Module JSONFacts.

Import JSON Decode.

(** Reading back one escaped character. *)
Lemma unescapeHead_escapeChar (c : ascii) (rest : string) :
  unescapeHead (escapeChar c ++ rest) = Some (c, rest).
Proof.
  destruct c as [[] [] [] [] [] [] [] []]; reflexivity.
Qed.

Lemma escapeChar_inj (c1 c2 : ascii) (r1 r2 : string) :
  escapeChar c1 ++ r1 = escapeChar c2 ++ r2 -> c1 = c2 /\ r1 = r2.
Proof.
  intros H. apply (f_equal unescapeHead) in H.
  rewrite !unescapeHead_escapeChar in H. now inversion H.
Qed.

Lemma escapeChar_not_quote (c : ascii) (r r' : string) :
  escapeChar c ++ r <> String dquote r'.
Proof.
  intros H. apply (f_equal unescapeHead) in H.
  rewrite unescapeHead_escapeChar in H. discriminate.
Qed.

Lemma escape_inj (s1 s2 r1 r2 : string) :
  escape s1 ++ String dquote r1 = escape s2 ++ String dquote r2 ->
  s1 = s2 /\ r1 = r2.
Proof.
  revert s2. induction s1 as [| c1 s1 IH]; intros [| c2 s2] H; cbn [escape] in H.
  - cbn [append] in H. now inversion H.
  - change ("" ++ String dquote r1) with (String dquote r1) in H.
    rewrite append_assoc in H. symmetry in H.
    now apply escapeChar_not_quote in H.
  - change ("" ++ String dquote r2) with (String dquote r2) in H.
    rewrite append_assoc in H.
    now apply escapeChar_not_quote in H.
  - rewrite !append_assoc in H. apply escapeChar_inj in H as [-> H].
    apply IH in H as [-> ->]. now split.
Qed.

Lemma quote_inj (s1 s2 r1 r2 : string) :
  quote s1 ++ r1 = quote s2 ++ r2 -> s1 = s2 /\ r1 = r2.
Proof.
  unfold quote. cbn [append]. rewrite !append_assoc. cbn [append].
  intros H. inversion H as [H']. now apply escape_inj.
Qed.

(** Printed integers. *)
Lemma uint_allNumberChars (d : Decimal.uint) :
  allNumberChars (NilEmpty.string_of_uint d) = true.
Proof. induction d; cbn; auto. Qed.

Lemma NilZero_uint_allNumberChars (d : Decimal.uint) :
  allNumberChars (NilZero.string_of_uint d) = true.
Proof. destruct d; try reflexivity; apply (uint_allNumberChars (_ d)). Qed.

Lemma number_allNumberChars (n : Z) : allNumberChars (number n) = true.
Proof.
  unfold number. destruct n as [| p | p]; cbn [Z.to_int NilZero.string_of_int].
  - reflexivity.
  - apply NilZero_uint_allNumberChars.
  - cbn [allNumberChars]. apply NilZero_uint_allNumberChars.
Qed.

Lemma number_inj (n1 n2 : Z) : number n1 = number n2 -> n1 = n2.
Proof.
  unfold number. intros H. apply DecimalZ.to_int_inj.
  assert (Hnn : forall n, Z.to_int n <> Decimal.Pos Decimal.Nil /\
                          Z.to_int n <> Decimal.Neg Decimal.Nil).
  { intros [| p | p]; cbn [Z.to_int]; split; try discriminate;
      intros E; inversion E as [E'];
      now apply DecimalPos.Unsigned.to_uint_nonnil in E'. }
  apply (f_equal NilZero.int_of_string) in H.
  rewrite !NilZero.isi in H by apply Hnn. now inversion H.
Qed.

Lemma number_nonempty (n : Z) : number n <> "".
Proof.
  unfold number. destruct n as [| p | p]; cbn [Z.to_int NilZero.string_of_int];
    try discriminate.
  destruct (Pos.to_uint p); discriminate.
Qed.

Lemma number_startsValue (n : Z) (rest : string) :
  startsValue (number n ++ rest) = true.
Proof.
  pose proof (number_allNumberChars n) as H.
  pose proof (number_nonempty n) as Hne.
  destruct (number n) as [| c s]; [contradiction|].
  cbn [allNumberChars] in H. apply andb_true_iff in H as [H _].
  cbn [append startsValue]. now rewrite H.
Qed.

(** Two runs of number characters that are each followed by a
    terminator end at the same place. *)
Lemma number_span (a1 a2 r1 r2 : string) :
  allNumberChars a1 = true -> allNumberChars a2 = true ->
  terminated r1 = true -> terminated r2 = true ->
  a1 ++ r1 = a2 ++ r2 -> a1 = a2 /\ r1 = r2.
Proof.
  revert a2. induction a1 as [| c1 a1 IH]; intros [| c2 a2] H1 H2 T1 T2 H;
    cbn [append allNumberChars] in *.
  - now split.
  - subst r1. cbn [terminated] in T1.
    apply andb_true_iff in H2 as [H2 _]. now rewrite H2 in T1.
  - subst r2. cbn [terminated] in T2.
    apply andb_true_iff in H1 as [H1 _]. now rewrite H1 in T2.
  - inversion H as [[Hc Hrest]]. subst c2.
    apply andb_true_iff in H1 as [_ H1], H2 as [_ H2].
    destruct (IH a2 H1 H2 T1 T2 Hrest) as [-> ->]. now split.
Qed.

Lemma number_text_inj (n1 n2 : Z) (r1 r2 : string) :
  terminated r1 = true -> terminated r2 = true ->
  number n1 ++ r1 = number n2 ++ r2 -> n1 = n2 /\ r1 = r2.
Proof.
  intros T1 T2 H.
  destruct (number_span _ _ _ _ (number_allNumberChars n1)
              (number_allNumberChars n2) T1 T2 H) as [Hn Hr].
  split; [now apply number_inj | assumption].
Qed.

(** Comma-separated lists. *)
Lemma concat_tailText (t : string) (ts : list string) :
  String.concat "," (t :: ts) = t ++ tailText ts.
Proof.
  revert t. induction ts as [| u us IH]; intros t.
  - cbn [String.concat tailText]. now rewrite append_nil_r.
  - change (String.concat "," (t :: u :: us))
      with (t ++ "," ++ String.concat "," (u :: us)).
    now rewrite IH.
Qed.

Section ListText.

Context {A : Type}.
Variable print : A -> string.
Variable close : ascii.
Hypothesis close_not_number : isNumberChar close = false.
Hypothesis close_not_comma : close <> ","%char.
Hypothesis print_not_close :
  forall x r r', print x ++ r <> String close r'.

Lemma tailText_terminated (ts : list string) (r : string) :
  terminated (tailText ts ++ String close r) = true.
Proof.
  destruct ts; cbn [tailText append terminated];
    [now rewrite close_not_number | reflexivity].
Qed.

Lemma tailText_inj (xs : list A) :
  Forall (determined print) xs ->
  forall ys r1 r2,
    tailText (map print xs) ++ String close r1
    = tailText (map print ys) ++ String close r2 ->
    xs = ys /\ r1 = r2.
Proof.
  induction 1 as [| x xs Hx Hxs IH]; intros [| y ys] r1 r2 H;
    cbn [map tailText append] in H.
  - now inversion H.
  - inversion H. contradiction.
  - inversion H as [Hc]. symmetry in Hc. contradiction.
  - inversion H as [H']. rewrite !append_assoc in H'.
    apply Hx in H' as [-> H']; try apply tailText_terminated.
    apply IH in H' as [-> ->]. now split.
Qed.

Lemma body_inj (xs : list A) :
  Forall (determined print) xs ->
  forall ys r1 r2,
    String.concat "," (map print xs) ++ String close r1
    = String.concat "," (map print ys) ++ String close r2 ->
    xs = ys /\ r1 = r2.
Proof.
  intros Hall [| y ys] r1 r2 H; destruct Hall as [| x xs Hx Hxs];
    cbn [map] in H; rewrite ?concat_tailText, ?append_assoc in H.
  - cbn [String.concat append] in H. now inversion H.
  - cbn [String.concat append] in H. now apply print_not_close in H.
  - cbn [String.concat append] in H. symmetry in H.
    now apply print_not_close in H.
  - apply Hx in H as [-> H]; try apply tailText_terminated.
    apply (tailText_inj _ Hxs) in H as [-> ->]. now split.
Qed.

End ListText.

Lemma stringify_startsValue (v : value) (rest : string) :
  startsValue (stringify v ++ rest) = true.
Proof.
  destruct v as [| [] | n | s | items | props]; try reflexivity.
  apply number_startsValue.
Qed.

Lemma number_not_other (n : Z) (r : string) (c : ascii) (r' : string) :
  isNumberChar c = false -> number n ++ r <> String c r'.
Proof.
  intros Hc H. pose proof (number_allNumberChars n) as Hn.
  pose proof (number_nonempty n) as Hne.
  destruct (number n) as [| d s]; [contradiction|].
  cbn [append] in H. inversion H; subst.
  cbn [allNumberChars] in Hn. now rewrite Hc in Hn.
Qed.

Lemma stringify_not_close (close : ascii) :
  startsValue (String close "") = false ->
  forall v r r', stringify v ++ r <> String close r'.
Proof.
  intros Hc v r r' H. pose proof (stringify_startsValue v r) as Hs.
  rewrite H in Hs. cbn [startsValue] in *. now rewrite Hc in Hs.
Qed.

Lemma member_determined (kv : string * value) :
  determined stringify (snd kv) ->
  determined (fun kv => member (fst kv) (stringify (snd kv))) kv.
Proof.
  destruct kv as [k v]. intros Hv [k2 v2] r1 r2 T1 T2 H.
  cbn [fst snd] in *. unfold member in H. rewrite !append_assoc in H.
  apply quote_inj in H as [-> H]. cbn [append] in H. inversion H as [H'].
  apply Hv in H' as [-> ->]; try assumption. now split.
Qed.

Lemma member_not_close (kv : string * value) (r r' : string) :
  member (fst kv) (stringify (snd kv)) ++ r <> String "}" r'.
Proof. unfold member, quote. cbn [append]. discriminate. Qed.

Ltac clash H :=
  solve [ discriminate H
        | apply number_not_other in H; [contradiction | reflexivity]
        | symmetry in H; apply number_not_other in H;
          [contradiction | reflexivity] ].

(** The text of a value followed by a terminator determines the value
    and where it ends. *)
Lemma stringify_determined (v : value) : determined stringify v.
Proof.
  induction v as [| b | n | s | items IH | props IH] using value_ind;
    intros v2 r1 r2 T1 T2 H.
  - destruct v2 as [| [] | n2 | s2 | items2 | props2];
      cbn [stringify append] in H; try clash H.
    now inversion H.
  - destruct b, v2 as [| [] | n2 | s2 | items2 | props2];
      cbn [stringify append] in H; try clash H; now inversion H.
  - destruct v2 as [| [] | n2 | s2 | items2 | props2];
      cbn [stringify append] in H; try clash H.
    apply number_text_inj in H as [-> ->]; try assumption. now split.
  - destruct v2 as [| [] | n2 | s2 | items2 | props2];
      cbn [stringify append] in H; try clash H.
    apply quote_inj in H as [-> ->]. now split.
  - destruct v2 as [| [] | n2 | s2 | items2 | props2];
      cbn [stringify append] in H; try clash H.
    inversion H as [H']. rewrite !append_assoc in H'. cbn [append] in H'.
    apply (body_inj stringify "]"%char) in H' as [-> ->];
      [now split | reflexivity | discriminate | | assumption].
    apply stringify_not_close. reflexivity.
  - destruct v2 as [| [] | n2 | s2 | items2 | props2];
      cbn [stringify append] in H; try clash H.
    inversion H as [H']. rewrite !append_assoc in H'. cbn [append] in H'.
    apply (body_inj (fun kv => member (fst kv) (stringify (snd kv))) "}"%char)
      in H' as [-> ->];
      [now split | reflexivity | discriminate | apply member_not_close |].
    apply Forall_forall. intros kv Hin. apply member_determined.
    rewrite Forall_forall in IH. now apply IH.
Qed.

Theorem stringify_inj (v1 v2 : value) :
  stringify v1 = stringify v2 -> v1 = v2.
Proof.
  intros H.
  destruct (stringify_determined v1 v2 "" "" eq_refl eq_refl) as [Hv _];
    [now rewrite !append_nil_r | exact Hv].
Qed.

End JSONFacts.

(** ** Change detection *)

Lemma isObject_notNull (v : value) : isObject v = true -> notNull v = true.
Proof. now destruct v. Qed.

Lemma isObject_truthy (v : value) : isObject v = true -> truthy (Some v) = true.
Proof. now destruct v. Qed.

Lemma objects_notNull (xs : list value) :
  forallb isObject xs = true -> forallb notNull xs = true.
Proof.
  intros H. rewrite forallb_forall in *. intros x Hx.
  apply isObject_notNull. now apply H.
Qed.

Lemma findFirst_In (old : list value) (id : jsval) (existing : value) :
  findFirst old id = Some existing -> In existing old.
Proof.
  induction old as [| s old IH]; cbn [findFirst]; [discriminate|].
  destruct (strictEquals _ _); intros H.
  - inversion H. now left.
  - right. now apply IH.
Qed.

Lemma fold_count (old newSessions : list value) (acc : Stats) :
  fold_left (fun stats session => count (classification old session) stats)
            newSessions acc
  = mkStats (added acc + tally Added old newSessions)
            (modified acc + tally Modified old newSessions)
            (unchanged acc + tally Unchanged old newSessions).
Proof.
  unfold tally. revert acc.
  induction newSessions as [| s rest IH]; intros acc; cbn [fold_left filter].
  - cbn [List.length]. rewrite !Nat.add_0_r. now destruct acc.
  - rewrite IH. destruct (classification old s);
      cbn [count sameClass added modified unchanged List.length];
      f_equal; lia.
Qed.

(** The classification of a session whose id is held already. *)
Lemma classification_existing (old : list value) (session existing : value) :
  forallb isObject old = true ->
  findFirst old (readProp session "id") = Some existing ->
  classification old session
  = if JSON.stringify existing =? JSON.stringify session then Unchanged
    else Modified.
Proof.
  intros Hold Hfind. unfold classification. rewrite Hfind.
  rewrite forallb_forall in Hold.
  rewrite (isObject_truthy _ (Hold _ (findFirst_In _ _ _ Hfind))).
  cbn [negb stringifyExisting]. now destruct (_ =? _).
Qed.

Lemma fetchData_stores_stats (showRefreshing : bool) (newSessions : list value)
    (st : State) (stats : Stats) :
  sessions st <> [] ->
  diffStats (sessions st) newSessions = Return stats ->
  updateStats (fetchData showRefreshing (Resolved newSessions) st) = stats.
Proof.
  intros Hne Hdiff. unfold fetchData, fetchTry.
  destruct (sessions st) as [| s old] eqn:Hs; [contradiction|].
  destruct showRefreshing; cbn; rewrite Hs; cbn; rewrite Hdiff; reflexivity.
Qed.

(** C1, as the code has it.  When the held list is not empty, a refresh
    stores the tallies of the three classes, and a new session whose id
    is held is counted as modified exactly when it differs from the
    first held session with that id as a value with its keys in order
    (equivalently, when their serialized texts differ), and as unchanged
    exactly when the two are equal in that sense. *)
Theorem diff_compares_serialized_content :
  forall (showRefreshing : bool) (st : State) (newSessions : list value),
    sessions st <> [] ->
    forallb isObject (sessions st) = true ->
    forallb isObject newSessions = true ->
    updateStats (fetchData showRefreshing (Resolved newSessions) st)
      = mkStats (tally Added (sessions st) newSessions)
                (tally Modified (sessions st) newSessions)
                (tally Unchanged (sessions st) newSessions) /\
    forall session existing,
      In session newSessions ->
      findFirst (sessions st) (readProp session "id") = Some existing ->
      classify (sessions st) session
        = Return (classification (sessions st) session) /\
      (classification (sessions st) session = Modified <-> existing <> session) /\
      (classification (sessions st) session = Unchanged <-> existing = session) /\
      (existing <> session <->
       JSON.stringify existing <> JSON.stringify session).
Proof.
  intros showRefreshing st newSessions Hne Hold Hnew.
  pose proof (objects_notNull _ Hold) as Hold'.
  pose proof (objects_notNull _ Hnew) as Hnew'.
  split.
  - apply (fetchData_stores_stats _ _ _ _ Hne).
    rewrite (diffStats_returns _ _ Hold' Hnew'), fold_count. reflexivity.
  - intros session existing Hin Hfind.
    split.
    { apply classify_returns; [assumption|].
      rewrite forallb_forall in Hnew'. now apply Hnew'. }
    rewrite (classification_existing _ _ _ Hold Hfind).
    destruct (JSON.stringify existing =? JSON.stringify session) eqn:E.
    + apply String.eqb_eq in E. pose proof (JSONFacts.stringify_inj _ _ E) as ->.
      repeat split; try discriminate; try reflexivity; intros H; try contradiction.
    + apply String.eqb_neq in E.
      assert (Hdiff : existing <> session) by (intros ->; now apply E).
      repeat split; try discriminate; try reflexivity; intros H;
        try assumption; try contradiction; try discriminate.
Qed.

Lemma diff_compares_serialized_content_witness :
  updateStats
    (fetchData true (Resolved [sessionA; sessionC])
       (setSessions [sessionA; sessionB] (initialState [])))
  = mkStats 1 0 1.
Proof.
  apply (diff_compares_serialized_content true
           (setSessions [sessionA; sessionB] (initialState []))
           [sessionA; sessionC]); [discriminate | reflexivity | reflexivity].
Defined.

(** C1 as the specification states it fails on the code: two sessions
    with the same fields, two keys in the other order, are equal under
    deep structural equality and yet counted as modified. *)
Lemma key_order_counts_as_modified :
  deepEqual sessionA sessionA_reordered = true /\
  findFirst [sessionA] (readProp sessionA_reordered "id") = Some sessionA /\
  classify [sessionA] sessionA_reordered = Return Modified /\
  updateStats
    (fetchData true (Resolved [sessionA_reordered])
       (setSessions [sessionA] (initialState [])))
  = mkStats 0 1 0.
Proof. repeat split; vm_compute; reflexivity. Qed.

(** Deep structural equality is sensitive to the order of a sequence. *)
Example deepEqual_sequence_order :
  deepEqual (VArr [VNum 1; VNum 2]) (VArr [VNum 2; VNum 1]) = false /\
  deepEqual (VObj [("a", VNum 1); ("b", VArr [VNum 1; VNum 2])])
            (VObj [("b", VArr [VNum 1; VNum 2]); ("a", VNum 1)]) = true.
Proof. split; reflexivity. Qed.


(** * Further properties *)

(** ** The diff *)

Lemma forEachM_count_total (old newSessions : list value) (acc stats : Stats) :
  forEachM (fun stats session => c <- classify old session ;;
                                 Return (count c stats))
           newSessions acc = Return stats ->
  (added stats + modified stats + unchanged stats
   = added acc + modified acc + unchanged acc + List.length newSessions)%nat.
Proof.
  revert acc. induction newSessions as [| s rest IH]; intros acc H;
    cbn [forEachM List.length] in *.
  - inversion H. lia.
  - destruct (classify old s) as [c|]; cbn [bind] in H; [|discriminate].
    rewrite (IH _ H). destruct c; cbn [count added modified unchanged]; lia.
Qed.

(** X1.  Whenever the diff returns, every session of the new list is
    counted once: the three counters add up to the length of the new
    list. *)
Theorem diffStats_counts_each_new_session_once :
  forall (old newSessions : list value) (stats : Stats),
    diffStats old newSessions = Return stats ->
    (added stats + modified stats + unchanged stats
     = List.length newSessions)%nat.
Proof.
  intros old newSessions stats H. unfold diffStats in H.
  destruct (mapM _ old); cbn [bind] in H; [|discriminate].
  apply forEachM_count_total in H. cbn [added modified unchanged] in H. lia.
Qed.

Lemma diffStats_counts_each_new_session_once_witness :
  (1 + 1 + 1 = List.length [sessionA_reordered; sessionB; sessionC])%nat.
Proof.
  apply (diffStats_counts_each_new_session_once
           [sessionA; sessionB] [sessionA_reordered; sessionB; sessionC]
           (mkStats 1 1 1)).
  reflexivity.
Defined.

Lemma findFirst_none (old : list value) (id : jsval) :
  (forall s, In s old -> strictEquals (idOf s) id = false) ->
  findFirst old id = None.
Proof.
  induction old as [| s old IH]; intros H; cbn [findFirst]; [reflexivity|].
  unfold idOf in H. rewrite (H s (or_introl eq_refl)).
  apply IH. intros x Hx. apply H. now right.
Qed.

Lemma fold_count_ext (old1 old2 newSessions : list value) (acc : Stats) :
  (forall n, In n newSessions -> classification old1 n = classification old2 n) ->
  fold_left (fun stats session => count (classification old1 session) stats)
            newSessions acc
  = fold_left (fun stats session => count (classification old2 session) stats)
              newSessions acc.
Proof.
  revert acc. induction newSessions as [| s rest IH]; intros acc H;
    cbn [fold_left]; [reflexivity|].
  rewrite (H s (or_introl eq_refl)). apply IH. intros n Hn. apply H. now right.
Qed.

Lemma fold_count_added (old newSessions : list value) (acc : Stats) :
  (forall n, In n newSessions -> classification old n = Added) ->
  fold_left (fun stats session => count (classification old session) stats)
            newSessions acc
  = mkStats (added acc + List.length newSessions) (modified acc) (unchanged acc).
Proof.
  revert acc. induction newSessions as [| s rest IH]; intros acc H;
    cbn [fold_left List.length].
  - rewrite Nat.add_0_r. now destruct acc.
  - rewrite (H s (or_introl eq_refl)), IH by (intros n Hn; apply H; now right).
    cbn [count added modified unchanged]. f_equal. lia.
Qed.

Lemma fold_count_unchanged (old newSessions : list value) (acc : Stats) :
  (forall n, In n newSessions -> classification old n = Unchanged) ->
  fold_left (fun stats session => count (classification old session) stats)
            newSessions acc
  = mkStats (added acc) (modified acc) (unchanged acc + List.length newSessions).
Proof.
  revert acc. induction newSessions as [| s rest IH]; intros acc H;
    cbn [fold_left List.length].
  - rewrite Nat.add_0_r. now destruct acc.
  - rewrite (H s (or_introl eq_refl)), IH by (intros n Hn; apply H; now right).
    cbn [count added modified unchanged]. f_equal. lia.
Qed.

(** X2.  When no id of the new list is held, every new session is counted
    as added. *)
Theorem diffStats_disjoint_ids_all_added :
  forall (old newSessions : list value),
    forallb notNull old = true ->
    forallb notNull newSessions = true ->
    (forall s n, In s old -> In n newSessions ->
                 strictEquals (idOf s) (idOf n) = false) ->
    diffStats old newSessions = Return (mkStats (List.length newSessions) 0 0).
Proof.
  intros old newSessions Hold Hnew Hdisjoint.
  rewrite (diffStats_returns _ _ Hold Hnew), fold_count_added; [reflexivity|].
  intros n Hn. unfold classification.
  rewrite findFirst_none; [reflexivity|].
  intros s Hs. now apply Hdisjoint.
Qed.

Lemma diffStats_disjoint_ids_all_added_witness :
  diffStats [sessionA] [sessionB; sessionC] = Return (mkStats 2 0 0).
Proof.
  apply (diffStats_disjoint_ids_all_added [sessionA] [sessionB; sessionC]);
    try reflexivity.
  intros s n [<- | []] [<- | [<- | []]]; reflexivity.
Defined.

Lemma findFirst_own (xs : list value) (session : value) :
  forallb (fun s => primitive (idOf s)) xs = true ->
  NoDup (map idOf xs) ->
  In session xs ->
  findFirst xs (idOf session) = Some session.
Proof.
  induction xs as [| s xs IH]; intros Hprim Hnd Hin; [contradiction|].
  cbn [forallb map] in *. apply andb_true_iff in Hprim as [Hs Hxs].
  inversion Hnd as [| ? ? Hnotin Hnd']; subst.
  cbn [findFirst]. fold (idOf s).
  destruct Hin as [-> | Hin].
  - now rewrite strictEquals_refl.
  - destruct (strictEquals (idOf s) (idOf session)) eqn:E.
    + apply strictEquals_true in E as [E _]. exfalso. apply Hnotin.
      rewrite E. now apply in_map.
    + now apply IH.
Qed.

(** X3.  A refresh that delivers the held list again (objects with
    distinct ids compared by content) reports every session as
    unchanged and nothing as added or modified. *)
Theorem refresh_with_held_list_all_unchanged :
  forall (showRefreshing : bool) (st : State),
    sessions st <> [] ->
    forallb isObject (sessions st) = true ->
    forallb (fun s => primitive (idOf s)) (sessions st) = true ->
    NoDup (map idOf (sessions st)) ->
    updateStats (fetchData showRefreshing (Resolved (sessions st)) st)
      = mkStats 0 0 (List.length (sessions st)) /\
    isUpdateDialogOpen (fetchData showRefreshing (Resolved (sessions st)) st)
      = true.
Proof.
  intros showRefreshing st Hne Hobj Hprim Hnd.
  pose proof (objects_notNull _ Hobj) as Hnn.
  assert (Hdiff : diffStats (sessions st) (sessions st)
                  = Return (mkStats 0 0 (List.length (sessions st)))).
  { rewrite (diffStats_returns _ _ Hnn Hnn), fold_count_unchanged; [reflexivity|].
    intros n Hn. unfold classification. fold (idOf n).
    rewrite (findFirst_own _ _ Hprim Hnd Hn).
    rewrite forallb_forall in Hobj.
    rewrite (isObject_truthy _ (Hobj _ Hn)). cbn [negb stringifyExisting].
    now rewrite String.eqb_refl. }
  split.
  - now apply fetchData_stores_stats.
  - unfold fetchData, fetchTry.
    destruct (sessions st) as [| s old] eqn:Hs; [contradiction|].
    destruct showRefreshing; cbn; rewrite Hs; cbn; rewrite Hdiff; reflexivity.
Qed.

Lemma refresh_with_held_list_all_unchanged_witness :
  updateStats
    (fetchData true (Resolved [sessionA; sessionB; sessionC]) scheduleState)
  = mkStats 0 0 3.
Proof.
  apply (refresh_with_held_list_all_unchanged true scheduleState);
    try reflexivity; try discriminate.
  repeat constructor; cbn; intuition discriminate.
Defined.

(** The held sessions whose id occurs in the new list. *)
Lemma findFirst_matched (old newSessions : list value) (n : value) :
  In n newSessions ->
  findFirst old (idOf n)
  = findFirst
      (filter (fun s => existsb (fun m => strictEquals (idOf s) (idOf m))
                                newSessions) old)
      (idOf n).
Proof.
  intros Hn. induction old as [| s old IH]; cbn [findFirst filter]; [reflexivity|].
  fold (idOf s).
  destruct (strictEquals (idOf s) (idOf n)) eqn:E.
  - assert (Hex : existsb (fun m => strictEquals (idOf s) (idOf m)) newSessions
                  = true) by (apply existsb_exists; now exists n).
    rewrite Hex. cbn [findFirst]. fold (idOf s). now rewrite E.
  - destruct (existsb _ newSessions); [|exact IH].
    cbn [findFirst]. fold (idOf s). now rewrite E.
Qed.

(** X4.  Held sessions that are missing from the new list are not
    counted: the stats are those of the diff against the held sessions
    whose id occurs in the new list. *)
Theorem diffStats_ignores_removed_sessions :
  forall (old newSessions : list value),
    forallb notNull old = true ->
    forallb notNull newSessions = true ->
    diffStats old newSessions
    = diffStats
        (filter (fun s => existsb (fun m => strictEquals (idOf s) (idOf m))
                                  newSessions) old)
        newSessions.
Proof.
  intros old newSessions Hold Hnew.
  assert (Hkept : forallb notNull
                    (filter (fun s => existsb (fun m => strictEquals (idOf s) (idOf m))
                                              newSessions) old) = true).
  { rewrite forallb_forall in *. intros x Hx. apply Hold.
    now apply filter_In in Hx as [Hx _]. }
  rewrite (diffStats_returns _ _ Hold Hnew), (diffStats_returns _ _ Hkept Hnew).
  f_equal. apply fold_count_ext. intros n Hn. unfold classification.
  fold (idOf n). now rewrite <- (findFirst_matched old newSessions n Hn).
Qed.

Lemma diffStats_ignores_removed_sessions_witness :
  diffStats [sessionA; sessionB; sessionC] [sessionA_reordered]
  = diffStats [sessionA] [sessionA_reordered].
Proof.
  apply (diffStats_ignores_removed_sessions
           [sessionA; sessionB; sessionC] [sessionA_reordered]);
    reflexivity.
Defined.

Lemma mapM_getProp_notNull (xs : list value) (k : string) (ys : list jsval) :
  mapM (fun s => getProp (Some s) k) xs = Return ys -> forallb notNull xs = true.
Proof.
  revert ys. induction xs as [| x xs IH]; intros ys H; cbn [mapM forallb] in *;
    [reflexivity|].
  destruct x; cbn [getProp bind] in H; try discriminate;
    (destruct (mapM _ xs) as [zs|] eqn:E; cbn [bind] in H; [|discriminate];
     cbn [notNull andb]; now apply (IH zs)).
Qed.






(** X6.  After a refresh that delivers the empty list, the next refresh
    is treated as a first load: whatever it delivers, the stats and the
    dialog flag stay as the empty refresh left them. *)
Theorem refresh_after_empty_list_is_silent :
  forall (b1 b2 : bool) (st : State) (newSessions : list value),
    forallb notNull (sessions st) = true ->
    sessions (fetchData b1 (Resolved []) st) = [] /\
    updateStats (fetchData b2 (Resolved newSessions) (fetchData b1 (Resolved []) st))
      = updateStats (fetchData b1 (Resolved []) st) /\
    isUpdateDialogOpen
      (fetchData b2 (Resolved newSessions) (fetchData b1 (Resolved []) st))
      = isUpdateDialogOpen (fetchData b1 (Resolved []) st) /\
    sessions (fetchData b2 (Resolved newSessions) (fetchData b1 (Resolved []) st))
      = newSessions.
Proof.
  intros b1 b2 st newSessions Hnn.
  assert (Hempty : sessions (fetchData b1 (Resolved []) st) = []).
  { unfold fetchData, fetchTry.
    destruct b1; cbn [sessions setIsRefreshing setIsLoading];
      (destruct (0 <? List.length (sessions st))%nat;
       [rewrite (diffStats_returns (sessions st) [] Hnn eq_refl) |];
       reflexivity). }
  split; [exact Hempty|].
  generalize dependent (fetchData b1 (Resolved []) st). intros st1 Hempty.
  unfold fetchData, fetchTry.
  destruct b2; cbn; rewrite Hempty; cbn; repeat split.
Qed.

Lemma refresh_after_empty_list_is_silent_witness :
  updateStats
    (fetchData true (Resolved [sessionA; sessionB])
       (fetchData true (Resolved []) scheduleState))
  = mkStats 0 0 0 /\
  sessions
    (fetchData true (Resolved [sessionA; sessionB])
       (fetchData true (Resolved []) scheduleState))
  = [sessionA; sessionB].
Proof.
  destruct (refresh_after_empty_list_is_silent true true scheduleState
              [sessionA; sessionB] eq_refl) as [_ [H1 [_ H2]]].
  split; [exact H1 | exact H2].
Defined.

(** X7.  Whatever the response, a refresh ends with both loading flags
    off and leaves the bookmarks, the four filter cells, the view and the
    search index as they were. *)
Theorem fetchData_frame :
  forall (showRefreshing : bool) (response : Response) (st : State),
    isLoading (fetchData showRefreshing response st) = false /\
    isRefreshing (fetchData showRefreshing response st) = false /\
    bookmarkedSessions (fetchData showRefreshing response st)
      = bookmarkedSessions st /\
    searchTerm (fetchData showRefreshing response st) = searchTerm st /\
    selectedDay (fetchData showRefreshing response st) = selectedDay st /\
    selectedTrack (fetchData showRefreshing response st) = selectedTrack st /\
    selectedRoom (fetchData showRefreshing response st) = selectedRoom st /\
    view (fetchData showRefreshing response st) = view st /\
    searchIndex (fetchData showRefreshing response st) = searchIndex st.
Proof.
  intros showRefreshing response st. unfold fetchData, fetchTry.
  destruct response as [| newSessions].
  - destruct showRefreshing; repeat split.
  - destruct showRefreshing; cbn [sessions setIsRefreshing setIsLoading];
      (destruct (0 <? List.length (sessions st))%nat;
       [destruct (diffStats (sessions st) newSessions) |]; repeat split).
Qed.

(** ** The index, exactly *)

Lemma mapM_exact {A B : Type} (f : A -> outcome B) (p : A -> bool) (g : A -> B)
    (xs : list A) :
  (forall x, f x = if p x then Return (g x) else Throw) ->
  mapM f xs = if forallb p xs then Return (map g xs) else Throw.
Proof.
  intros H. induction xs as [| x xs IH]; cbn [mapM forallb map]; [reflexivity|].
  rewrite H. destruct (p x); cbn [bind andb]; [|reflexivity].
  rewrite IH. now destruct (forallb p xs).
Qed.

Lemma stringField_read (v : value) (k : string) :
  stringField v k = match readProp v k with
                    | Some (VStr s) => s
                    | _ => ""
                    end.
Proof. reflexivity. Qed.

Section IndexExactly.

Variable toLowerCase : string -> string.

Lemma speakerNames_exact (session : value) :
  speakerNames toLowerCase (readProp session "speakers")
  = if hasNames (readProp session "speakers")
    then Return (map (fun s => toLowerCase (stringField s "name"))
                     (speakersOf session))
    else Throw.
Proof.
  unfold speakerNames, hasNames, speakersOf.
  destruct (readProp session "speakers") as [[| [] | n | s | items | props]|];
    cbn [truthy]; try reflexivity.
  - destruct (negb (n =? 0)%Z); reflexivity.
  - destruct (negb (s =? "")); reflexivity.
  - apply mapM_exact. intros x. destruct x; cbn [getProp notNull andb bind];
      try reflexivity.
    unfold stringField.
    destruct (readProp (VObj props) "name") as [[| b | n | t | l | p]|];
      reflexivity.
Qed.

Lemma searchTextOf_exact (session : value) :
  searchTextOf toLowerCase session
  = if indexable session then Return (specSearchText toLowerCase session)
    else Throw.
Proof.
  unfold indexable. destruct (notNull session) eqn:Hnn; cbn [andb].
  2:{ destruct session; try discriminate. reflexivity. }
  unfold searchTextOf, specSearchText.
  rewrite !(getProp_notNull _ _ Hnn). cbn [bind].
  rewrite (stringField_read session "title"),
    (stringField_read session "description"),
    (stringField_read session "track").
  destruct (readProp session "title") as [[| b | n | title | l | p]|];
    cbn [lowerable andb bind callToLowerCase]; try reflexivity.
  destruct (readProp session "description") as [[| b | n | description | l | p]|];
    cbn [lowerable andb bind callToLowerCase]; try reflexivity.
  destruct (readProp session "track") as [[| [] | n | track | l | p]|];
    cbn [truthy lowerable negb orb andb bind callToLowerCase];
    try reflexivity;
    try (rewrite speakerNames_exact;
         destruct (hasNames (readProp session "speakers")); reflexivity).
  - destruct (n =? 0)%Z; cbn [negb orb andb bind callToLowerCase];
      try reflexivity;
      rewrite speakerNames_exact;
      destruct (hasNames (readProp session "speakers")); reflexivity.
  - rewrite orb_true_r. cbn [andb].
    destruct (track =? "") eqn:E; cbn [negb bind callToLowerCase];
      [apply String.eqb_eq in E; subst|];
      rewrite speakerNames_exact;
      destruct (hasNames (readProp session "speakers")); reflexivity.
Qed.

Lemma createSearchIndex_exact (sessions : list value) :
  createSearchIndex toLowerCase sessions
  = if forallb indexable sessions
    then Return (map (indexedSession toLowerCase) sessions)
    else Throw.
Proof.
  unfold createSearchIndex. apply mapM_exact. intros session.
  rewrite searchTextOf_exact. now destruct (indexable session).
Qed.

End IndexExactly.

(** X8.  The index build is all or nothing.  It returns the index of the
    whole list when every session is not [null], has a string title and
    description, a falsy or string track, and falsy speakers or an array
    of speakers that are not [null] and have a string name; if one
    session fails this, the build throws and gives no index. *)
Theorem createSearchIndex_all_or_nothing :
  forall (toLowerCase : string -> string) (sessions : list value),
    createSearchIndex toLowerCase sessions
    = if forallb indexable sessions
      then Return (map (indexedSession toLowerCase) sessions)
      else Throw.
Proof. intros. apply createSearchIndex_exact. Qed.

Example createSearchIndex_one_bad_session :
  createSearchIndex lowerAscii
    [sessionA; VObj [("id", VStr "x"); ("title", VStr "No description")]]
  = Throw.
Proof. reflexivity. Qed.

(** ** Searching and the filter handlers *)

Lemma filter_filter {A : Type} (p q : A -> bool) (xs : list A) :
  filter q (filter p xs) = filter (fun x => p x && q x) xs.
Proof.
  induction xs as [| x xs IH]; cbn [filter]; [reflexivity|].
  destruct (p x); cbn [filter andb]; [|exact IH].
  destruct (q x); now rewrite IH.
Qed.

Lemma stage_as_filter {A : Type} (off : bool) (p : A -> bool) (xs : list A) :
  (if off then xs else filter p xs) = filter (fun x => off || p x) xs.
Proof.
  destruct off; cbn [orb]; [|reflexivity].
  symmetry. apply forallb_filter_id. now apply forallb_forall.
Qed.

Lemma subsequence_filter_implied {A : Type} (p q : A -> bool) (xs : list A) :
  (forall x, In x xs -> p x = true -> q x = true) ->
  subsequence (filter p xs) (filter q xs).
Proof.
  induction xs as [| x xs IH]; intros H; cbn [filter]; [apply subsequence_nil|].
  assert (IH' : subsequence (filter p xs) (filter q xs))
    by (apply IH; intros y Hy; apply H; now right).
  destruct (p x) eqn:Ep.
  - rewrite (H x (or_introl eq_refl) Ep). now apply subsequence_keep.
  - destruct (q x); [now apply subsequence_skip | exact IH'].
Qed.

Lemma concat_has (sep x : string) (xs : list string) :
  In x xs -> exists pre post, String.concat sep xs = pre ++ x ++ post.
Proof.
  induction xs as [| y xs IH]; intros Hin; [contradiction|].
  destruct xs as [| z zs].
  - destruct Hin as [-> | []]. exists "", "". cbn [String.concat append].
    now rewrite append_nil_r.
  - change (String.concat sep (y :: z :: zs))
      with (y ++ sep ++ String.concat sep (z :: zs)).
    destruct Hin as [-> | Hin].
    + now exists "", (sep ++ String.concat sep (z :: zs)).
    + destruct (IH Hin) as [pre [post ->]].
      exists (y ++ sep ++ pre), post. now rewrite !append_assoc.
Qed.

Section HandlerFacts.

Variable toLowerCase : string -> string.
Variable dateTime : jsval -> option Z.
Variable formatDay : Z -> string.

Lemma visible_as_filter (st : State) :
  visible toLowerCase dateTime formatDay st
  = filter (passes toLowerCase dateTime formatDay st) (searchIndex st).
Proof.
  unfold visible, roomStage, trackStage, dayStage, searchStage, passes.
  rewrite !stage_as_filter, !filter_filter.
  apply filter_ext. intros x. now rewrite !andb_assoc.
Qed.

Lemma filterSessions_visible (st : State) :
  forallb hasSearchText (searchIndex st) = true ->
  filterSessions toLowerCase dateTime formatDay st
  = Return (setFilteredSessions (visible toLowerCase dateTime formatDay st) st).
Proof.
  intros H. unfold filterSessions, visible.
  now rewrite (filterPipeline_returns _ _ _ _ H).
Qed.

Lemma specSearchText_has_word (session : value) (word : string) :
  In word (searchableWords session) ->
  exists pre post,
    specSearchText toLowerCase session = pre ++ toLowerCase word ++ post.
Proof.
  unfold searchableWords, specSearchText.
  set (t := toLowerCase (stringField session "title")).
  set (d := toLowerCase (stringField session "description")).
  set (k := toLowerCase (stringField session "track")).
  set (names := map (fun s => toLowerCase (stringField s "name"))
                    (speakersOf session)).
  intros [<- | [<- | [<- | Hin]]].
  - now exists "", (" " ++ d ++ " " ++ k ++ " " ++ String.concat " " names).
  - exists (t ++ " "), (" " ++ k ++ " " ++ String.concat " " names).
    fold d. now rewrite append_assoc.
  - exists (t ++ " " ++ d ++ " "), (" " ++ String.concat " " names).
    fold k. now rewrite 3!append_assoc.
  - apply in_map_iff in Hin as [s [<- Hs]].
    destruct (concat_has " " (toLowerCase (stringField s "name")) names)
      as [pre [post Heq]].
    { apply in_map_iff. now exists s. }
    rewrite Heq. exists (t ++ " " ++ d ++ " " ++ k ++ " " ++ pre), post.
    now rewrite 6!append_assoc.
Qed.

Lemma searchText_of_indexed (session : value) :
  stringField (indexedSession toLowerCase session) "searchText"
  = specSearchText toLowerCase session.
Proof.
  unfold stringField, indexedSession. cbn [readProp].
  now rewrite assoc_setProp_same.
Qed.

End HandlerFacts.

(** X9.  A session is found by each of its own words: when the search
    term lower-cases to the lower-cased title, description, track or the
    name of one of its speakers, and the other filters are at their
    defaults, the filtered list contains the session. *)
Theorem search_finds_own_words :
  forall (toLowerCase : string -> string) (dateTime : jsval -> option Z)
         (formatDay : Z -> string) (st : State) (input : list value)
         (session : value) (word : string),
    searchIndex st = map (indexedSession toLowerCase) input ->
    In session input ->
    In word (searchableWords session) ->
    toLowerCase (searchTerm st) = toLowerCase word ->
    selectedDay st = "all" -> selectedTrack st = all -> selectedRoom st = all ->
    exists filtered,
      filterSessions toLowerCase dateTime formatDay st
        = Return (setFilteredSessions filtered st) /\
      In (indexedSession toLowerCase session) filtered.
Proof.
  intros toLowerCase dateTime formatDay st input session word
         Hidx Hin Hword Hterm Hd Ht Hr.
  eexists. split.
  - apply filterSessions_visible. rewrite Hidx. apply index_hasSearchText.
  - rewrite visible_as_filter. apply filter_In. split.
    + rewrite Hidx. now apply in_map.
    + unfold passes. rewrite Hd, Ht, Hr. cbn [strictEquals all].
      rewrite !String.eqb_refl, !andb_true_r. cbn [orb].
      apply orb_true_iff. right. unfold searchMatches.
      rewrite searchText_of_indexed, Hterm. apply str_includes_exists.
      now apply specSearchText_has_word.
Qed.

Lemma search_finds_own_words_witness :
  exists filtered,
    filterSessions lowerAscii epochMillis utcDay
      (setSearchTerm "BO CHEN" (setSearchIndex sampleIndex (initialState [])))
    = Return (setFilteredSessions filtered
                (setSearchTerm "BO CHEN"
                   (setSearchIndex sampleIndex (initialState [])))) /\
    In (indexedSession lowerAscii sessionA) filtered.
Proof.
  apply (search_finds_own_words lowerAscii epochMillis utcDay
           (setSearchTerm "BO CHEN" (setSearchIndex sampleIndex (initialState [])))
           [sessionA; sessionB; sessionC] sessionA "Bo Chen");
    try reflexivity.
  - now left.
  - cbn. tauto.
Defined.

(** X10.  The stages can be read in any order: on a search index the
    filtered list is the index filtered once by the conjunction of the
    four tests, each test passing when its cell is at the default. *)
Theorem filterSessions_is_one_filter :
  forall (toLowerCase : string -> string) (dateTime : jsval -> option Z)
         (formatDay : Z -> string) (st : State),
    forallb hasSearchText (searchIndex st) = true ->
    filterSessions toLowerCase dateTime formatDay st
    = Return (setFilteredSessions
                (filter (passes toLowerCase dateTime formatDay st) (searchIndex st))
                st).
Proof.
  intros toLowerCase dateTime formatDay st H.
  rewrite (filterSessions_visible _ _ _ _ H). now rewrite visible_as_filter.
Qed.

Lemma filterSessions_is_one_filter_witness :
  filterSessions lowerAscii epochMillis utcDay coreTrackState
  = Return (setFilteredSessions
              (filter (passes lowerAscii epochMillis utcDay coreTrackState)
                      (searchIndex coreTrackState))
              coreTrackState).
Proof.
  apply (filterSessions_is_one_filter lowerAscii epochMillis utcDay coreTrackState).
  reflexivity.
Defined.

(** X11.  After [resetFilters] the filter run shows the whole index, in
    its order, whatever the index holds. *)
Theorem resetFilters_shows_whole_index :
  forall (toLowerCase : string -> string) (dateTime : jsval -> option Z)
         (formatDay : Z -> string) (st : State),
    filterSessions toLowerCase dateTime formatDay (resetFilters st)
    = Return (setFilteredSessions (searchIndex st) (resetFilters st)).
Proof.
  intros toLowerCase dateTime formatDay st. unfold filterSessions.
  now rewrite filterPipeline_default.
Qed.

Section ClickFacts.

Variable toLowerCase : string -> string.
Variable dateTime : jsval -> option Z.
Variable formatDay : Z -> string.

Local Abbreviation shown := (visible toLowerCase dateTime formatDay).
Local Abbreviation ok := (passes toLowerCase dateTime formatDay).

Lemma shown_notNull (st : State) (session : value) :
  forallb hasSearchText (searchIndex st) = true ->
  In session (shown st) -> notNull session = true.
Proof.
  intros H Hin. rewrite visible_as_filter in Hin.
  apply filter_In in Hin as [Hin _]. apply hasSearchText_notNull.
  rewrite forallb_forall in H. now apply H.
Qed.

Lemma passes_after_track (track : jsval) (st : State) (x : value) :
  ok (handleTrackClick track st) x
  = ((searchTerm st =? "") || searchMatches toLowerCase (searchTerm st) x)
    && ((selectedDay st =? "all")
        || dayMatches dateTime formatDay (selectedDay st) x)
    && (strictEquals track all || trackMatches track x)
    && (strictEquals (selectedRoom st) all || roomMatches (selectedRoom st) x).
Proof. reflexivity. Qed.

Lemma passes_after_room (room : jsval) (st : State) (x : value) :
  ok (handleRoomClick room st) x
  = ((searchTerm st =? "") || searchMatches toLowerCase (searchTerm st) x)
    && ((selectedDay st =? "all")
        || dayMatches dateTime formatDay (selectedDay st) x)
    && (strictEquals (selectedTrack st) all || trackMatches (selectedTrack st) x)
    && (strictEquals room all || roomMatches room x).
Proof. reflexivity. Qed.

(** Selecting the track of a shown session. *)
Lemma track_click_facts (st : State) (session : value) :
  In session (shown st) ->
  primitive (readProp session "track") = true ->
  In session (shown (handleTrackClick (readProp session "track") st)) /\
  subsequence (shown (handleTrackClick (readProp session "track") st))
              (shown st) /\
  (readProp session "track" <> all ->
   forall x, In x (shown (handleTrackClick (readProp session "track") st)) ->
             readProp x "track" = readProp session "track").
Proof.
  intros Hin Hprim. rewrite !visible_as_filter in *.
  apply filter_In in Hin as [Hin Hok].
  unfold passes in Hok. apply andb_true_iff in Hok as [Hok Hroom].
  apply andb_true_iff in Hok as [Hok Htrack].
  change (searchIndex (handleTrackClick (readProp session "track") st))
    with (searchIndex st).
  split; [|split].
  - apply filter_In. split; [assumption|]. rewrite passes_after_track.
    rewrite Hok, Hroom. cbn [andb]. rewrite andb_true_r.
    apply orb_true_iff. right. now apply strictEquals_refl.
  - apply subsequence_filter_implied. intros x Hx.
    rewrite passes_after_track. unfold passes.
    intros H. apply andb_true_iff in H as [H Hr].
    apply andb_true_iff in H as [H Ht]. rewrite H, Hr. cbn [andb].
    rewrite andb_true_r.
    apply orb_true_iff in Htrack as [Hall | Hsame]; [now rewrite Hall|].
    unfold trackMatches in Hsame. apply strictEquals_true in Hsame as [Hsame _].
    now rewrite <- Hsame.
  - intros Hne x Hx. apply filter_In in Hx as [_ Hx].
    rewrite passes_after_track in Hx.
    apply andb_true_iff in Hx as [Hx _]. apply andb_true_iff in Hx as [_ Hx].
    apply orb_true_iff in Hx as [Hx | Hx].
    + apply strictEquals_true in Hx as [Hx _]. contradiction.
    + unfold trackMatches in Hx. now apply strictEquals_true in Hx as [Hx _].
Qed.

(** Selecting the room of a shown session. *)
Lemma room_click_facts (st : State) (session : value) :
  In session (shown st) ->
  primitive (roomNameOf session) = true ->
  In session (shown (handleRoomClick (roomNameOf session) st)) /\
  subsequence (shown (handleRoomClick (roomNameOf session) st)) (shown st) /\
  (roomNameOf session <> all ->
   forall x, In x (shown (handleRoomClick (roomNameOf session) st)) ->
             roomNameOf x = roomNameOf session).
Proof.
  intros Hin Hprim. rewrite !visible_as_filter in *.
  apply filter_In in Hin as [Hin Hok].
  unfold passes in Hok. apply andb_true_iff in Hok as [Hok Hroom].
  change (searchIndex (handleRoomClick (roomNameOf session) st))
    with (searchIndex st).
  split; [|split].
  - apply filter_In. split; [assumption|]. rewrite passes_after_room.
    rewrite Hok. cbn [andb].
    apply orb_true_iff. right. now apply strictEquals_refl.
  - apply subsequence_filter_implied. intros x Hx.
    rewrite passes_after_room. unfold passes.
    intros H. apply andb_true_iff in H as [H Hr]. rewrite H. cbn [andb].
    apply orb_true_iff in Hroom as [Hall | Hsame]; [now rewrite Hall|].
    unfold roomMatches in Hsame. fold (roomNameOf session) in Hsame.
    apply strictEquals_true in Hsame as [Hsame _]. now rewrite <- Hsame.
  - intros Hne x Hx. apply filter_In in Hx as [_ Hx].
    rewrite passes_after_room in Hx.
    apply andb_true_iff in Hx as [_ Hx].
    apply orb_true_iff in Hx as [Hx | Hx].
    + apply strictEquals_true in Hx as [Hx _]. contradiction.
    + unfold roomMatches in Hx. fold (roomNameOf x) in Hx.
      now apply strictEquals_true in Hx as [Hx _].
Qed.

End ClickFacts.

(** X12.  The track button of a shown session (its track compared by
    content) switches to the schedule view and selects that track: the
    session stays in the filtered list, the list only narrows, and unless
    the track is the string ["all"] every session left has that track. *)
Theorem trackButton_keeps_session :
  forall (toLowerCase : string -> string) (dateTime : jsval -> option Z)
         (formatDay : Z -> string) (st : State) (session : value),
    forallb hasSearchText (searchIndex st) = true ->
    In session (visible toLowerCase dateTime formatDay st) ->
    primitive (readProp session "track") = true ->
    exists st',
      trackButton session st = Return st' /\
      view st' = "schedule" /\
      filterSessions toLowerCase dateTime formatDay st'
        = Return (setFilteredSessions
                    (visible toLowerCase dateTime formatDay st') st') /\
      In session (visible toLowerCase dateTime formatDay st') /\
      subsequence (visible toLowerCase dateTime formatDay st')
                  (visible toLowerCase dateTime formatDay st) /\
      (readProp session "track" <> all ->
       forall x, In x (visible toLowerCase dateTime formatDay st') ->
                 readProp x "track" = readProp session "track").
Proof.
  intros toLowerCase dateTime formatDay st session Hidx Hin Hprim.
  exists (handleTrackClick (readProp session "track") st).
  split.
  { unfold trackButton.
    now rewrite (getProp_notNull _ _ (shown_notNull _ _ _ _ _ Hidx Hin)). }
  split; [reflexivity|].
  split; [now apply filterSessions_visible|].
  now apply track_click_facts.
Qed.

Lemma trackButton_keeps_session_witness :
  exists st',
    trackButton (indexedSession lowerAscii sessionA)
      (setSearchIndex sampleIndex (initialState [])) = Return st' /\
    view st' = "schedule" /\
    In (indexedSession lowerAscii sessionA)
       (visible lowerAscii epochMillis utcDay st').
Proof.
  destruct (trackButton_keeps_session lowerAscii epochMillis utcDay
              (setSearchIndex sampleIndex (initialState []))
              (indexedSession lowerAscii sessionA) eq_refl)
    as [st' [H1 [H2 [_ [H3 _]]]]].
  - now left.
  - reflexivity.
  - exists st'. repeat split; assumption.
Defined.

(** X13.  The room button of a shown session selects what
    [session.slot_room?.name] gives, also when that is [undefined]: the
    session stays in the filtered list, the list only narrows, and unless
    the name is the string ["all"] every session left has the same room
    name; for a session without a room these are the sessions without a
    room name. *)
Theorem roomButton_keeps_session :
  forall (toLowerCase : string -> string) (dateTime : jsval -> option Z)
         (formatDay : Z -> string) (st : State) (session : value),
    forallb hasSearchText (searchIndex st) = true ->
    In session (visible toLowerCase dateTime formatDay st) ->
    primitive (roomNameOf session) = true ->
    exists st',
      roomButton session st = Return st' /\
      view st' = "schedule" /\
      selectedRoom st' = roomNameOf session /\
      filterSessions toLowerCase dateTime formatDay st'
        = Return (setFilteredSessions
                    (visible toLowerCase dateTime formatDay st') st') /\
      In session (visible toLowerCase dateTime formatDay st') /\
      subsequence (visible toLowerCase dateTime formatDay st')
                  (visible toLowerCase dateTime formatDay st) /\
      (roomNameOf session <> all ->
       forall x, In x (visible toLowerCase dateTime formatDay st') ->
                 roomNameOf x = roomNameOf session).
Proof.
  intros toLowerCase dateTime formatDay st session Hidx Hin Hprim.
  exists (handleRoomClick (roomNameOf session) st).
  split.
  { unfold roomButton.
    now rewrite (getProp_notNull _ _ (shown_notNull _ _ _ _ _ Hidx Hin)). }
  split; [reflexivity|].
  split; [reflexivity|].
  split; [now apply filterSessions_visible|].
  now apply room_click_facts.
Qed.

Lemma roomButton_keeps_session_witness :
  exists st',
    roomButton (indexedSession lowerAscii sessionB)
      (setSearchIndex sampleIndex (initialState [])) = Return st' /\
    selectedRoom st' = None /\
    visible lowerAscii epochMillis utcDay st' = [indexedSession lowerAscii sessionB].
Proof.
  destruct (roomButton_keeps_session lowerAscii epochMillis utcDay
              (setSearchIndex sampleIndex (initialState []))
              (indexedSession lowerAscii sessionB) eq_refl)
    as [st' [H1 [_ [H2 _]]]].
  - right. now left.
  - reflexivity.
  - exists st'. split; [exact H1|]. split; [exact H2|].
    vm_compute in H1. inversion H1. reflexivity.
Defined.

(** ** The option lists *)

Section SetFacts.

Context {A : Type}.
Variable same : A -> A -> bool.
Hypothesis same_eq : forall x y, same x y = true -> x = y.

Lemma fold_setAdd_In (xs held : list A) (x : A) :
  In x (fold_left (setAdd same) xs held) <-> In x held \/ In x xs.
Proof.
  revert held. induction xs as [| y xs IH]; intros held; cbn [fold_left].
  - cbn [In]. tauto.
  - rewrite IH. unfold setAdd.
    destruct (existsb (fun z => same z y) held) eqn:E; cbn [In].
    + apply existsb_exists in E as [z [Hz Hs]]. apply same_eq in Hs. subst z.
      split; [tauto|]. intros [H | [<- | H]]; tauto.
    + rewrite in_app_iff. cbn [In]. tauto.
Qed.

Lemma newSet_In (xs : list A) (x : A) : In x (newSet same xs) <-> In x xs.
Proof. unfold newSet. rewrite fold_setAdd_In. cbn [In]. tauto. Qed.

Lemma fold_setAdd_NoDup (xs held : list A) :
  (forall x, In x xs -> same x x = true) ->
  NoDup held -> NoDup (fold_left (setAdd same) xs held).
Proof.
  revert held. induction xs as [| y xs IH]; intros held Hrefl Hnd;
    cbn [fold_left]; [assumption|].
  apply IH; [intros x Hx; apply Hrefl; now right|].
  unfold setAdd. destruct (existsb (fun z => same z y) held) eqn:E;
    [assumption|].
  apply NoDup_app; repeat split; try assumption.
  - repeat constructor. intros [].
  - intros a Ha [<- | []].
    assert (Hex : existsb (fun z => same z y) held = true).
    { apply existsb_exists. exists y. split; [assumption|].
      apply Hrefl. now left. }
    now rewrite Hex in E.
Qed.

Lemma newSet_NoDup (xs : list A) :
  (forall x, In x xs -> same x x = true) -> NoDup (newSet same xs).
Proof. intros H. apply fold_setAdd_NoDup; [assumption | constructor]. Qed.

End SetFacts.

Section AnySort.

Context {A : Type}.
Variable compare : A -> A -> option Z.
Variable R : A -> A -> Prop.
Hypothesis after_swaps : forall x y, comesAfter compare x y = true -> R y x.
Hypothesis not_after_keeps : forall x y, comesAfter compare x y = false -> R x y.

Lemma insertSorted_any_perm (x : A) (xs : list A) :
  Permutation (insertSorted compare x xs) (x :: xs).
Proof.
  induction xs as [| y xs IH]; cbn [insertSorted]; [apply Permutation_refl|].
  destruct (comesAfter compare x y); [|apply Permutation_refl].
  eapply Permutation_trans; [apply perm_skip, IH | apply perm_swap].
Qed.

Lemma sortBy_any_perm (xs : list A) : Permutation (sortBy compare xs) xs.
Proof.
  induction xs as [| x xs IH]; cbn [sortBy fold_right]; [apply perm_nil|].
  eapply Permutation_trans; [apply insertSorted_any_perm|]. now apply perm_skip.
Qed.

Lemma insertSorted_any_sorted (x : A) (xs : list A) :
  Sorted R xs -> Sorted R (insertSorted compare x xs).
Proof.
  induction xs as [| y xs IH]; intros Hs; cbn [insertSorted].
  - repeat constructor.
  - inversion Hs as [| ? ? Hrest Hhd]; subst.
    destruct (comesAfter compare x y) eqn:E.
    + constructor; [now apply IH|].
      destruct xs as [| z zs]; cbn [insertSorted].
      * constructor. now apply after_swaps.
      * destruct (comesAfter compare x z); constructor;
          [now inversion Hhd | now apply after_swaps].
    + constructor; [assumption|]. constructor. now apply not_after_keeps.
Qed.

Lemma sortBy_any_sorted (xs : list A) : Sorted R (sortBy compare xs).
Proof.
  induction xs as [| x xs IH]; cbn [sortBy fold_right]; [constructor|].
  now apply insertSorted_any_sorted.
Qed.

End AnySort.

Lemma compareDefault_after (x y : jsval) :
  comesAfter compareDefault x y = true -> notAfter y x.
Proof.
  unfold comesAfter, compareDefault, notAfter.
  rewrite (String.compare_antisym (toStringOf x) (toStringOf y)).
  destruct (String.compare (toStringOf y) (toStringOf x)); cbn; discriminate.
Qed.

Lemma compareDefault_not_after (x y : jsval) :
  comesAfter compareDefault x y = false -> notAfter x y.
Proof.
  unfold comesAfter, compareDefault, notAfter.
  destruct (String.compare (toStringOf x) (toStringOf y)); cbn; discriminate.
Qed.

Lemma truthy_isDefined (v : jsval) : truthy v = true -> isDefined v = true.
Proof. now destruct v. Qed.

Lemma sortDefault_defined (xs : list jsval) :
  forallb isDefined xs = true -> sortDefault xs = sortBy compareDefault xs.
Proof.
  intros H. unfold sortDefault.
  rewrite (forallb_filter_id _ _ H).
  replace (filter (fun v => negb (isDefined v)) xs) with (@nil jsval);
    [now rewrite app_nil_r|].
  symmetry. induction xs as [| x xs IH]; cbn [filter forallb] in *;
    [reflexivity|].
  apply andb_true_iff in H as [Hx Hxs]. rewrite Hx. now apply IH.
Qed.

Lemma strictEquals_same (x y : jsval) : strictEquals x y = true -> x = y.
Proof. intros H. now apply strictEquals_true in H as [-> _]. Qed.

(** The three facts about an option list. *)
Lemma optionList_facts (xs : list jsval) :
  (forall t, In t (optionList xs) <-> In t xs /\ truthy t = true) /\
  Sorted notAfter (optionList xs) /\
  ((forall t, In t xs -> primitive t = true) -> NoDup (optionList xs)).
Proof.
  unfold optionList.
  pose proof (newSet_In strictEquals strictEquals_same (filter truthy xs)) as Hset.
  assert (Hdef : forallb isDefined (newSet strictEquals (filter truthy xs)) = true).
  { apply forallb_forall. intros t Ht. apply truthy_isDefined.
    apply (proj1 (Hset t)) in Ht. now apply filter_In in Ht as [_ Ht]. }
  rewrite (sortDefault_defined _ Hdef).
  split; [|split].
  - intros t. split.
    + intros Ht. apply (Permutation_in _ (sortBy_any_perm compareDefault _)) in Ht.
      apply (proj1 (Hset t)) in Ht. now apply filter_In in Ht.
    + intros Ht.
      apply (Permutation_in _ (Permutation_sym (sortBy_any_perm compareDefault _))).
      apply (proj2 (Hset t)). now apply filter_In.
  - apply (sortBy_any_sorted compareDefault notAfter).
    + exact compareDefault_after.
    + exact compareDefault_not_after.
  - intros Hprim.
    apply (Permutation_NoDup (Permutation_sym (sortBy_any_perm compareDefault _))).
    apply newSet_NoDup. intros x Hx. apply strictEquals_refl.
    apply Hprim. now apply filter_In in Hx as [Hx _].
Qed.

Lemma tracksOf_returns (sessions : list value) :
  forallb notNull sessions = true ->
  tracksOf sessions
  = Return (optionList (map (fun s => readProp s "track") sessions)).
Proof.
  intros H. unfold tracksOf. now rewrite (mapM_getProp_returns _ _ H).
Qed.

Lemma roomsOf_returns (sessions : list value) :
  forallb notNull sessions = true ->
  roomsOf sessions = Return (optionList (map roomNameOf sessions)).
Proof.
  intros H. unfold roomsOf.
  rewrite (mapM_returns _ roomNameOf); [reflexivity|].
  intros x Hx. rewrite forallb_forall in H.
  now rewrite (getProp_notNull _ _ (H _ Hx)).
Qed.

(** X14.  On sessions that are not [null] the track options are the
    truthy tracks of the sessions, each track of a session listed, in the
    order of the default sort; when the tracks are compared by content
    (strings), no track is listed twice. *)
Theorem tracksOf_lists_each_track_once :
  forall (sessions : list value),
    forallb notNull sessions = true ->
    exists tracks,
      tracksOf sessions = Return tracks /\
      (forall t, In t tracks <->
                 truthy t = true /\
                 exists s, In s sessions /\ readProp s "track" = t) /\
      Sorted notAfter tracks /\
      ((forall s, In s sessions -> primitive (readProp s "track") = true) ->
       NoDup tracks).
Proof.
  intros sessions H. eexists. split; [now apply tracksOf_returns|].
  destruct (optionList_facts (map (fun s => readProp s "track") sessions))
    as [Hin [Hsorted Hnd]].
  split; [|split]; [|assumption|].
  - intros t. rewrite Hin, in_map_iff. split.
    + intros [[s [Hs Hins]] Ht]. split; [assumption|]. now exists s.
    + intros [Ht [s [Hins Hs]]]. split; [|assumption]. now exists s.
  - intros Hprim. apply Hnd. intros t Ht.
    apply in_map_iff in Ht as [s [<- Hs]]. now apply Hprim.
Qed.

Lemma tracksOf_lists_each_track_once_witness :
  exists tracks,
    tracksOf [sessionC; sessionA; sessionB; sessionA_reordered] = Return tracks /\
    Sorted notAfter tracks.
Proof.
  destruct (tracksOf_lists_each_track_once
              [sessionC; sessionA; sessionB; sessionA_reordered] eq_refl)
    as [tracks [H1 [_ [H2 _]]]].
  exists tracks. split; assumption.
Defined.

Example tracksOf_sample :
  tracksOf [sessionC; sessionA; sessionB; sessionA_reordered]
  = Return [Some (VStr "Core"); Some (VStr "Cryptography")].
Proof. reflexivity. Qed.

(** X15.  On sessions that are not [null] the room options are the truthy
    room names, each one listed, in the order of the default sort, and
    listed once when the names are compared by content; a session
    without a room adds no option. *)
Theorem roomsOf_lists_each_room_once :
  forall (sessions : list value),
    forallb notNull sessions = true ->
    exists rooms,
      roomsOf sessions = Return rooms /\
      (forall r, In r rooms <->
                 truthy r = true /\
                 exists s, In s sessions /\ roomNameOf s = r) /\
      Sorted notAfter rooms /\
      ((forall s, In s sessions -> primitive (roomNameOf s) = true) ->
       NoDup rooms).
Proof.
  intros sessions H. eexists. split; [now apply roomsOf_returns|].
  destruct (optionList_facts (map roomNameOf sessions)) as [Hin [Hsorted Hnd]].
  split; [|split]; [|assumption|].
  - intros r. rewrite Hin, in_map_iff. split.
    + intros [[s [Hs Hins]] Hr]. split; [assumption|]. now exists s.
    + intros [Hr [s [Hins Hs]]]. split; [|assumption]. now exists s.
  - intros Hprim. apply Hnd. intros r Hr.
    apply in_map_iff in Hr as [s [<- Hs]]. now apply Hprim.
Qed.

Lemma roomsOf_lists_each_room_once_witness :
  exists rooms,
    roomsOf [sessionA; sessionB; sessionC] = Return rooms /\
    Sorted notAfter rooms.
Proof.
  destruct (roomsOf_lists_each_room_once [sessionA; sessionB; sessionC] eq_refl)
    as [rooms [H1 [_ [H2 _]]]].
  exists rooms. split; assumption.
Defined.

Lemma indexedSession_keeps (toLowerCase : string -> string) (session : value)
    (k : string) :
  k <> "searchText" ->
  readProp (indexedSession toLowerCase session) k = readProp session k.
Proof.
  intros Hk. unfold indexedSession.
  destruct session; cbn [readProp spread];
    try (cbn [setProp assoc]; destruct ("searchText" =? k) eqn:E;
         [apply String.eqb_eq in E; now subst | reflexivity]).
  now apply assoc_setProp_other.
Qed.

Section DayFacts.

Variable toLowerCase : string -> string.
Variable dateTime : jsval -> option Z.
Variable formatDay : Z -> string.

Lemma daysOf_returns (sessions : list value) :
  forallb notNull sessions = true ->
  daysOf dateTime formatDay sessions
  = Return (sortBy (compareLabels dateTime)
              (newSet String.eqb (map (dayLabelOf dateTime formatDay) sessions))).
Proof.
  intros H. unfold daysOf.
  rewrite (mapM_returns _ (dayLabelOf dateTime formatDay)); [reflexivity|].
  intros x Hx. rewrite forallb_forall in H. unfold dayOf.
  now rewrite (getProp_notNull _ _ (H _ Hx)).
Qed.

Lemma days_In (sessions : list value) (d : string) :
  In d (sortBy (compareLabels dateTime)
          (newSet String.eqb (map (dayLabelOf dateTime formatDay) sessions)))
  <-> exists s, In s sessions /\ dayLabelOf dateTime formatDay s = d.
Proof.
  pose proof (newSet_In String.eqb (fun x y => proj1 (String.eqb_eq x y))
                (map (dayLabelOf dateTime formatDay) sessions)) as Hset.
  split.
  - intros H. apply (Permutation_in _ (sortBy_any_perm _ _)) in H.
    apply (proj1 (Hset d)) in H.
    apply in_map_iff in H as [s [Hs Hin]]. now exists s.
  - intros [s [Hin Hs]].
    apply (Permutation_in _ (Permutation_sym (sortBy_any_perm _ _))).
    apply (proj2 (Hset d)). apply in_map_iff. now exists s.
Qed.

Lemma dayLabelOf_indexed (session : value) :
  dayLabelOf dateTime formatDay (indexedSession toLowerCase session)
  = dayLabelOf dateTime formatDay session.
Proof.
  unfold dayLabelOf. now rewrite indexedSession_keeps by discriminate.
Qed.

End DayFacts.

(** X16.  On sessions that are not [null] the day options are the day
    labels of the sessions, each label of a session listed, and no label
    listed twice. *)
Theorem daysOf_lists_each_day_once :
  forall (dateTime : jsval -> option Z) (formatDay : Z -> string)
         (sessions : list value),
    forallb notNull sessions = true ->
    exists days,
      daysOf dateTime formatDay sessions = Return days /\
      NoDup days /\
      (forall d, In d days <->
                 exists s, In s sessions /\ dayLabelOf dateTime formatDay s = d).
Proof.
  intros dateTime formatDay sessions H.
  eexists. split; [now apply daysOf_returns|]. split.
  - apply (Permutation_NoDup (Permutation_sym (sortBy_any_perm _ _))).
    apply newSet_NoDup. intros x _. apply String.eqb_refl.
  - apply days_In.
Qed.

Lemma daysOf_lists_each_day_once_witness :
  exists days,
    daysOf epochMillis utcDay [sessionA; sessionB; sessionC] = Return days /\
    NoDup days.
Proof.
  destruct (daysOf_lists_each_day_once epochMillis utcDay
              [sessionA; sessionB; sessionC] eq_refl) as [days [H1 [H2 _]]].
  exists days. split; assumption.
Defined.

(** X17.  No day option is dead: choosing a listed day other than the
    string ["all"], with the other filters at their defaults, shows at
    least one session, and only sessions of that day. *)
Theorem chooseDay_shows_that_day :
  forall (toLowerCase : string -> string) (dateTime : jsval -> option Z)
         (formatDay : Z -> string) (st : State) (input : list value)
         (days : list string) (day : string),
    forallb notNull input = true ->
    searchIndex st = map (indexedSession toLowerCase) input ->
    daysOf dateTime formatDay input = Return days ->
    In day days -> day <> "all" ->
    searchTerm st = "" -> selectedTrack st = all -> selectedRoom st = all ->
    filterSessions toLowerCase dateTime formatDay (chooseDay day st)
      = Return (setFilteredSessions
                  (visible toLowerCase dateTime formatDay (chooseDay day st))
                  (chooseDay day st)) /\
    (exists session,
       In session input /\
       In (indexedSession toLowerCase session)
          (visible toLowerCase dateTime formatDay (chooseDay day st))) /\
    (forall x, In x (visible toLowerCase dateTime formatDay (chooseDay day st)) ->
               dayLabelOf dateTime formatDay x = day).
Proof.
  intros toLowerCase dateTime formatDay st input days day
         Hnn Hidx Hdays Hin Hne Hterm Htrack Hroom.
  rewrite (daysOf_returns _ _ _ Hnn) in Hdays. inversion Hdays; subst days.
  apply days_In in Hin as [session [Hs Hlabel]].
  assert (Hpass : forall x,
            passes toLowerCase dateTime formatDay (chooseDay day st) x
            = (dayLabelOf dateTime formatDay x =? day)).
  { intros x. unfold passes, chooseDay, setSelectedDay.
    cbn [setFilters searchTerm selectedDay selectedTrack selectedRoom].
    rewrite Hterm, Htrack, Hroom. cbn [strictEquals all].
    rewrite !String.eqb_refl. cbn [orb andb]. rewrite !andb_true_r.
    apply String.eqb_neq in Hne. rewrite Hne. reflexivity. }
  split; [|split].
  - apply filterSessions_visible.
    cbn [chooseDay setSelectedDay setFilters searchIndex].
    rewrite Hidx. apply index_hasSearchText.
  - exists session. split; [assumption|].
    rewrite visible_as_filter. apply filter_In. split.
    + cbn [chooseDay setSelectedDay setFilters searchIndex].
      rewrite Hidx. now apply in_map.
    + rewrite Hpass, dayLabelOf_indexed, Hlabel. apply String.eqb_refl.
  - intros x Hx. rewrite visible_as_filter in Hx.
    apply filter_In in Hx as [_ Hx]. rewrite Hpass in Hx.
    now apply String.eqb_eq.
Qed.

Lemma chooseDay_shows_that_day_witness :
  exists session,
    In session [sessionA; sessionB; sessionC] /\
    In (indexedSession lowerAscii session)
       (visible lowerAscii epochMillis utcDay
          (chooseDay "day 1" (setSearchIndex sampleIndex (initialState [])))).
Proof.
  apply (chooseDay_shows_that_day lowerAscii epochMillis utcDay
           (setSearchIndex sampleIndex (initialState []))
           [sessionA; sessionB; sessionC] ["day 1"] "day 1");
    try reflexivity.
  - now left.
  - discriminate.
Defined.

Lemma indexable_notNull (xs : list value) :
  forallb indexable xs = true -> forallb notNull xs = true.
Proof.
  intros H. rewrite forallb_forall in *. intros x Hx.
  specialize (H x Hx). unfold indexable in H.
  now destruct (notNull x).
Qed.

Lemma indexable_truthy_track (session : value) :
  indexable session = true ->
  truthy (readProp session "track") = true ->
  exists track, readProp session "track" = Some (VStr track).
Proof.
  unfold indexable. intros H Ht. rewrite Ht in H. cbn [negb orb] in H.
  apply andb_true_iff in H as [H _]. apply andb_true_iff in H as [_ H].
  destruct (readProp session "track") as [[| b | n | track | l | p]|];
    try discriminate. now exists track.
Qed.

(** X18.  No track option is dead: on an indexable list, choosing a
    listed track other than the string ["all"], with the other filters at
    their defaults, shows at least one session, and only sessions of that
    track. *)
Theorem chooseTrack_shows_that_track :
  forall (toLowerCase : string -> string) (dateTime : jsval -> option Z)
         (formatDay : Z -> string) (st : State) (input : list value)
         (tracks : list jsval) (option : jsval),
    forallb indexable input = true ->
    searchIndex st = map (indexedSession toLowerCase) input ->
    tracksOf input = Return tracks ->
    In option tracks -> option <> all ->
    searchTerm st = "" -> selectedDay st = "all" -> selectedRoom st = all ->
    filterSessions toLowerCase dateTime formatDay (chooseTrack option st)
      = Return (setFilteredSessions
                  (visible toLowerCase dateTime formatDay (chooseTrack option st))
                  (chooseTrack option st)) /\
    (exists session,
       In session input /\
       In (indexedSession toLowerCase session)
          (visible toLowerCase dateTime formatDay (chooseTrack option st))) /\
    (forall x, In x (visible toLowerCase dateTime formatDay (chooseTrack option st)) ->
               readProp x "track" = option).
Proof.
  intros toLowerCase dateTime formatDay st input tracks option
         Hok Hidx Htracks Hin Hne Hterm Hday Hroom.
  pose proof (indexable_notNull _ Hok) as Hnn.
  rewrite (tracksOf_returns _ Hnn) in Htracks. inversion Htracks; subst tracks.
  apply optionList_facts in Hin as [Hin Htruthy].
  apply in_map_iff in Hin as [session [Htrack Hs]].
  rewrite forallb_forall in Hok.
  destruct (indexable_truthy_track session (Hok _ Hs)) as [track Hstr];
    [now rewrite Htrack|].
  rewrite Hstr in Htrack. subst option.
  assert (Hpass : forall x,
            passes toLowerCase dateTime formatDay
              (chooseTrack (Some (VStr track)) st) x
            = strictEquals (readProp x "track") (Some (VStr track))).
  { intros x. unfold passes, chooseTrack, setSelectedTrack.
    cbn [setFilters searchTerm selectedDay selectedTrack selectedRoom toStringOf
         toStringJS].
    rewrite Hterm, Hday, Hroom. cbn [strictEquals all].
    rewrite !String.eqb_refl. cbn [orb andb]. rewrite !andb_true_r.
    assert (Hne' : track <> "all") by (intros ->; now apply Hne).
    apply String.eqb_neq in Hne'. rewrite Hne'. reflexivity. }
  split; [|split].
  - apply filterSessions_visible.
    cbn [chooseTrack setSelectedTrack setFilters searchIndex].
    rewrite Hidx. apply index_hasSearchText.
  - exists session. split; [assumption|].
    rewrite visible_as_filter. apply filter_In. split.
    + cbn [chooseTrack setSelectedTrack setFilters searchIndex].
      rewrite Hidx. now apply in_map.
    + rewrite Hpass, indexedSession_keeps by discriminate.
      rewrite Hstr. cbn [strictEquals]. apply String.eqb_refl.
  - intros x Hx. rewrite visible_as_filter in Hx.
    apply filter_In in Hx as [_ Hx]. rewrite Hpass in Hx.
    now apply strictEquals_true in Hx as [Hx _].
Qed.

Lemma chooseTrack_shows_that_track_witness :
  exists session,
    In session [sessionA; sessionB; sessionC] /\
    In (indexedSession lowerAscii session)
       (visible lowerAscii epochMillis utcDay
          (chooseTrack (Some (VStr "Cryptography"))
             (setSearchIndex sampleIndex (initialState [])))).
Proof.
  apply (chooseTrack_shows_that_track lowerAscii epochMillis utcDay
           (setSearchIndex sampleIndex (initialState []))
           [sessionA; sessionB; sessionC]
           [Some (VStr "Core"); Some (VStr "Cryptography")]
           (Some (VStr "Cryptography")));
    try reflexivity.
  - right. now left.
  - discriminate.
Defined.

(** ** The buckets as a partition *)

Lemma pushSession_concat (day : string) (session : value)
    (buckets : list (string * list value)) :
  Permutation (List.concat (map snd (pushSession day session buckets)))
              (session :: List.concat (map snd buckets)).
Proof.
  induction buckets as [| [d b] rest IH]; cbn [pushSession map snd List.concat].
  - apply Permutation_refl.
  - destruct (d =? day); cbn [map snd List.concat].
    + rewrite <- app_assoc. cbn [app].
      apply Permutation_sym, Permutation_middle.
    + eapply Permutation_trans; [apply Permutation_app_head, IH|].
      apply Permutation_sym, Permutation_middle.
Qed.

Lemma concat_sorted_buckets {A : Type} (compare : A -> A -> option Z)
    (buckets : list (string * list A)) :
  Permutation
    (List.concat (map snd (map (fun entry => (fst entry, sortBy compare (snd entry)))
                               buckets)))
    (List.concat (map snd buckets)).
Proof.
  induction buckets as [| [d b] rest IH]; cbn [map fst snd List.concat];
    [apply Permutation_refl|].
  apply Permutation_app; [apply sortBy_any_perm | exact IH].
Qed.

Section PartitionFacts.

Variable dateTime : jsval -> option Z.
Variable formatDay : Z -> string.

Local Abbreviation label := (dayLabelOf dateTime formatDay).
Local Abbreviation push :=
  (fun buckets session => pushSession (label session) session buckets).

Lemma fold_push_concat (xs : list value) (buckets : list (string * list value)) :
  Permutation (List.concat (map snd (fold_left push xs buckets)))
              (List.concat (map snd buckets) ++ xs).
Proof.
  revert buckets. induction xs as [| x xs IH]; intros buckets; cbn [fold_left].
  - now rewrite app_nil_r.
  - eapply Permutation_trans; [apply IH|].
    eapply Permutation_trans;
      [apply Permutation_app_tail, pushSession_concat|].
    cbn [app]. apply Permutation_middle.
Qed.

Lemma fold_push_keys (xs : list value) (buckets : list (string * list value))
    (d : string) :
  In d (map fst (fold_left push xs buckets)) ->
  In d (map fst buckets) \/ exists s, In s xs /\ label s = d.
Proof.
  revert buckets. induction xs as [| x xs IH]; intros buckets H; cbn [fold_left] in H.
  - now left.
  - apply IH in H as [H | [s [Hs Hl]]].
    + destruct (pushSession_keys (label x) x buckets) as [[_ Hk] | [_ Hk]];
        rewrite Hk in H.
      * now left.
      * apply in_app_or in H as [H | [<- | []]]; [now left|].
        right. exists x. split; [now left | reflexivity].
    + right. exists s. split; [now right | assumption].
Qed.

Lemma onDay_In (day : string) (xs : list value) (s : value) :
  In s (onDay dateTime formatDay day xs) <-> In s xs /\ label s = day.
Proof.
  unfold onDay. rewrite filter_In. now rewrite String.eqb_eq.
Qed.

End PartitionFacts.

(** X19.  The grouping neither drops nor repeats a session: the buckets
    together are a permutation of the sessions handed in, no day has two
    buckets, no bucket is empty, every session of a bucket falls on the
    bucket's day, and the empty-state test holds exactly when no session
    was handed in. *)
Theorem groupedSessions_partitions :
  forall (dateTime : jsval -> option Z) (formatDay : Z -> string)
         (now : Z) (st : State) (toGroup : list value),
    sessionsToGroup st = Return toGroup ->
    forallb notNull toGroup = true ->
    exists result,
      groupedSessions dateTime formatDay now st = Return result /\
      Permutation (List.concat (map snd (grouped result))) toGroup /\
      NoDup (map fst (grouped result)) /\
      (forall day bucket, In (day, bucket) (grouped result) ->
         bucket <> [] /\
         forall s, In s bucket -> dayLabelOf dateTime formatDay s = day) /\
      (noSessionsFound result = true <-> toGroup = []).
Proof.
  intros dateTime formatDay now st toGroup Hsrc Hnn.
  eexists. split; [apply (groupedSessions_returns _ _ _ _ _ Hsrc Hnn)|].
  cbn [grouped].
  pose proof (bucketsHold_fold dateTime formatDay toGroup [] []
                (bucketsHold_start dateTime formatDay)) as [Hnd [Hent Hcov]].
  cbn [app] in *.
  assert (Hperm : Permutation
            (List.concat (map snd
               (map (fun entry => (fst entry, sortBy (compareStart dateTime) (snd entry)))
                  (fold_left (fun buckets session =>
                                pushSession (dayLabelOf dateTime formatDay session)
                                            session buckets) toGroup []))))
            toGroup).
  { eapply Permutation_trans; [apply concat_sorted_buckets|].
    apply (fold_push_concat dateTime formatDay toGroup []). }
  split; [exact Hperm|]. split.
  { rewrite map_map. cbn [fst]. exact Hnd. }
  split.
  { intros day bucket Hin.
    assert (Hkey : In day (map fst
                     (fold_left (fun buckets session =>
                                   pushSession (dayLabelOf dateTime formatDay session)
                                               session buckets) toGroup []))).
    { apply in_map_iff in Hin as [[d b] [Heq Hin]]. inversion Heq; subst.
      apply in_map_iff. now exists (day, b). }
    rewrite (grouped_bucket _ _ _ _ _ Hin).
    apply fold_push_keys in Hkey as [[] | [s [Hs Hl]]].
    split.
    - intros Hempty.
      assert (Hs' : In s (sortBy (compareStart dateTime)
                            (onDay dateTime formatDay day toGroup))).
      { apply (Permutation_in _ (Permutation_sym (sortBy_any_perm _ _))).
        now apply onDay_In. }
      now rewrite Hempty in Hs'.
    - intros x Hx. apply (Permutation_in _ (sortBy_any_perm _ _)) in Hx.
      now apply onDay_In in Hx. }
  unfold noSessionsFound. cbn [grouped]. rewrite !length_map. split.
  - intros Hlen. apply Nat.eqb_eq in Hlen. apply length_zero_iff_nil in Hlen.
    rewrite Hlen in Hperm. cbn in Hperm. now apply Permutation_nil in Hperm.
  - intros ->. reflexivity.
Qed.

Lemma groupedSessions_partitions_witness :
  exists result,
    groupedSessions epochMillis utcDay 91000000 scheduleState = Return result /\
    Permutation (List.concat (map snd (grouped result)))
                [sessionA; sessionB; sessionC].
Proof.
  destruct (groupedSessions_partitions epochMillis utcDay 91000000 scheduleState
              [sessionA; sessionB; sessionC] eq_refl eq_refl)
    as [result [H1 [H2 _]]].
  exists result. split; assumption.
Defined.

(** ** Bookmarks and the bookmarks view *)

Lemma sessionsToGroup_bookmarks (st : State) :
  (view st =? "schedule") = false ->
  forallb notNull (sessions st) = true ->
  sessionsToGroup st
  = Return (filter (fun s => arr_includes (bookmarkedSessions st) (idOf s))
                   (sessions st)).
Proof.
  intros Hview Hnn. unfold sessionsToGroup. rewrite Hview.
  apply filterM_returns. intros x Hx. rewrite forallb_forall in Hnn.
  now rewrite (getProp_notNull _ _ (Hnn _ Hx)).
Qed.

(** X20.  In the bookmarks view the grouping takes the sessions whose id
    is bookmarked, whatever the filters and the filtered list hold:
    bookmarking a held session (its id compared by content) puts it among
    them, and removing the bookmark again gives the sessions grouped
    before. *)
Theorem bookmarks_view_follows_toggle :
  forall (st : State) (session : value),
    (view st =? "schedule") = false ->
    forallb notNull (sessions st) = true ->
    In session (sessions st) ->
    primitive (idOf session) = true ->
    arr_includes (bookmarkedSessions st) (idOf session) = false ->
    exists toGroup,
      sessionsToGroup (onToggleBookmark (idOf session) st) = Return toGroup /\
      In session toGroup /\
      (forall s, In s toGroup <->
                 In s (sessions st) /\
                 (arr_includes (bookmarkedSessions st) (idOf s) = true \/
                  strictEquals (idOf s) (idOf session) = true)) /\
      sessionsToGroup
        (onToggleBookmark (idOf session) (onToggleBookmark (idOf session) st))
      = sessionsToGroup st.
Proof.
  intros st session Hview Hnn Hin Hprim Hout.
  eexists. split.
  { now apply (sessionsToGroup_bookmarks (onToggleBookmark (idOf session) st)). }
  cbn [onToggleBookmark setBookmarkedSessions bookmarkedSessions sessions].
  assert (Hmem : forall s,
            arr_includes (toggleBookmark (idOf session) (bookmarkedSessions st))
                         (idOf s)
            = arr_includes (bookmarkedSessions st) (idOf s)
              || strictEquals (idOf s) (idOf session)).
  { intros s. rewrite toggleBookmark_includes.
    destruct (strictEquals (idOf s) (idOf session)) eqn:E.
    - rewrite Hout. now rewrite orb_true_r.
    - now rewrite orb_false_r. }
  split; [|split].
  - apply filter_In. split; [assumption|].
    rewrite Hmem, (strictEquals_refl _ Hprim). apply orb_true_r.
  - intros s. rewrite filter_In, Hmem, orb_true_iff. reflexivity.
  - rewrite (sessionsToGroup_bookmarks st Hview Hnn).
    rewrite (sessionsToGroup_bookmarks
               (onToggleBookmark (idOf session)
                  (onToggleBookmark (idOf session) st)) Hview Hnn).
    cbn [onToggleBookmark setBookmarkedSessions bookmarkedSessions sessions].
    f_equal. apply filter_ext. intros s.
    rewrite toggleBookmark_includes.
    destruct (strictEquals (idOf s) (idOf session)) eqn:E.
    + rewrite toggleBookmark_includes, (strictEquals_refl _ Hprim).
      rewrite negb_involutive.
      apply strictEquals_true in E as [-> _]. reflexivity.
    + now rewrite toggleBookmark_includes, E.
Qed.

Lemma bookmarks_view_follows_toggle_witness :
  exists toGroup,
    sessionsToGroup (onToggleBookmark (idOf sessionB) bookmarksState)
      = Return toGroup /\
    In sessionB toGroup.
Proof.
  destruct (bookmarks_view_follows_toggle bookmarksState sessionB
              eq_refl eq_refl) as [toGroup [H1 [H2 _]]];
    try reflexivity.
  - right. now left.
  - exists toGroup. split; assumption.
Defined.

Lemma arr_includes_In (xs : list jsval) (x : jsval) :
  primitive x = true -> In x xs -> arr_includes xs x = true.
Proof.
  intros Hp Hin. unfold arr_includes. apply existsb_exists.
  exists x. split; [assumption | now apply strictEquals_refl].
Qed.

(** X21.  The bookmark list never comes to hold an id twice: toggling an
    id compared by content keeps a list without repetition free of
    repetition, and a removal leaves no copy of the id, however many the
    list held. *)
Theorem toggleBookmark_keeps_ids_distinct :
  forall (prev : list jsval) (sessionId : jsval),
    primitive sessionId = true ->
    (NoDup prev -> NoDup (toggleBookmark sessionId prev)) /\
    (In sessionId prev -> ~ In sessionId (toggleBookmark sessionId prev)) /\
    (~ In sessionId prev ->
     toggleBookmark sessionId prev = (prev ++ [sessionId])%list).
Proof.
  intros prev sessionId Hprim. unfold toggleBookmark.
  split; [|split].
  - intros Hnd. destruct (arr_includes prev sessionId) eqn:E.
    + now apply NoDup_filter.
    + apply NoDup_app; repeat split; try assumption.
      * repeat constructor. intros [].
      * intros a Ha [<- | []].
        now rewrite (arr_includes_In _ _ Hprim Ha) in E.
  - intros Hin. rewrite (arr_includes_In _ _ Hprim Hin).
    intros H. apply filter_In in H as [_ H].
    now rewrite (strictEquals_refl _ Hprim) in H.
  - intros Hout. destruct (arr_includes prev sessionId) eqn:E; [|reflexivity].
    unfold arr_includes in E. apply existsb_exists in E as [y [Hy Hs]].
    apply strictEquals_true in Hs as [-> _]. contradiction.
Qed.

Lemma toggleBookmark_keeps_ids_distinct_witness :
  NoDup (toggleBookmark (Some (VStr "b2")) [Some (VStr "a1"); Some (VStr "b2")]).
Proof.
  apply (toggleBookmark_keeps_ids_distinct
           [Some (VStr "a1"); Some (VStr "b2")] (Some (VStr "b2")) eq_refl).
  repeat constructor; cbn; intuition discriminate.
Defined.

(** ** Sessions without a valid start *)

Lemma sortBy_no_order {A : Type} (compare : A -> A -> option Z) (xs : list A) :
  (forall x y, In x xs -> In y xs -> compare x y = None) ->
  sortBy compare xs = xs.
Proof.
  induction xs as [| x xs IH]; intros H; cbn [sortBy fold_right]; [reflexivity|].
  fold (sortBy compare xs).
  rewrite IH by (intros a b Ha Hb; apply H; now right).
  destruct xs as [| y ys]; cbn [insertSorted]; [reflexivity|].
  unfold comesAfter. rewrite (H x y); [reflexivity | now left | right; now left].
Qed.

Lemma nonempty_has {A : Type} (xs : list A) : xs <> [] -> exists x, In x xs.
Proof. destruct xs as [| x xs]; [contradiction|]. intros _. exists x. now left. Qed.

(** X22.  When the day format never prints ["Invalid Date"], the bucket
    under that label is the sessions whose start is not a valid date, in
    the order they were handed in (the sort leaves them alone), and there
    is such a bucket as soon as there is such a session. *)
Theorem invalid_date_bucket :
  forall (dateTime : jsval -> option Z) (formatDay : Z -> string)
         (now : Z) (st : State) (toGroup : list value),
    (forall ms, formatDay ms <> "Invalid Date") ->
    sessionsToGroup st = Return toGroup ->
    forallb notNull toGroup = true ->
    exists result,
      groupedSessions dateTime formatDay now st = Return result /\
      (forall bucket, In ("Invalid Date", bucket) (grouped result) ->
                      bucket = undated dateTime toGroup) /\
      (undated dateTime toGroup <> [] ->
       In ("Invalid Date", undated dateTime toGroup) (grouped result)).
Proof.
  intros dateTime formatDay now st toGroup Hformat Hsrc Hnn.
  assert (Hday : onDay dateTime formatDay "Invalid Date" toGroup
                 = undated dateTime toGroup).
  { unfold onDay, undated. apply filter_ext. intros s.
    unfold dayLabelOf, startOf, toLocaleDateString.
    destruct (dateTime (readProp s "slot_start")) as [ms|];
      [|apply String.eqb_refl].
    apply String.eqb_neq. apply Hformat. }
  assert (Hsort : sortBy (compareStart dateTime) (undated dateTime toGroup)
                  = undated dateTime toGroup).
  { apply sortBy_no_order. intros x y Hx _. unfold undated in Hx.
    apply filter_In in Hx as [_ Hx]. unfold compareStart.
    now destruct (startOf dateTime x). }
  eexists. split; [apply (groupedSessions_returns _ _ _ _ _ Hsrc Hnn)|].
  cbn [grouped]. split.
  - intros bucket Hin. rewrite (grouped_bucket _ _ _ _ _ Hin).
    now rewrite Hday, Hsort.
  - intros Hne.
    pose proof (bucketsHold_fold dateTime formatDay toGroup [] []
                  (bucketsHold_start dateTime formatDay)) as [_ [Hent Hcov]].
    cbn [app] in *.
    destruct (nonempty_has _ Hne) as [s Hs].
    rewrite <- Hday in Hs. unfold onDay in Hs.
    apply filter_In in Hs as [Hs Hlabel]. apply String.eqb_eq in Hlabel.
    specialize (Hcov s Hs). rewrite Hlabel in Hcov.
    apply in_map_iff in Hcov as [[d b] [Hd Hin]]. cbn [fst] in Hd. subst d.
    apply in_map_iff. exists ("Invalid Date", b). split; [|assumption].
    cbn [fst snd]. rewrite (Hent _ _ Hin), Hday. now rewrite Hsort.
Qed.

Lemma utcDay_not_invalid (ms : Z) : utcDay ms <> "Invalid Date".
Proof. unfold utcDay. cbn [append]. discriminate. Qed.

Lemma invalid_date_bucket_witness :
  exists result,
    groupedSessions epochMillis utcDay 0 undatedState = Return result /\
    In ("Invalid Date", [sessionUndated; sessionUndated]) (grouped result).
Proof.
  destruct (invalid_date_bucket epochMillis utcDay 0 undatedState
              [sessionUndated; sessionA; sessionUndated]
              utcDay_not_invalid eq_refl eq_refl) as [result [H1 [_ H2]]].
  exists result. split; [exact H1|]. apply H2. discriminate.
Defined.

(** ** From the refresh to the grouped list *)



Section RefreshToGroups.

Variable toLowerCase : string -> string.
Variable dateTime : jsval -> option Z.
Variable formatDay : Z -> string.

Local Abbreviation entry := (indexedSession toLowerCase).
Local Abbreviation label := (dayLabelOf dateTime formatDay).







End RefreshToGroups.



